(** * Accounts backend: OTP verification, login, password reset, logout

    A shallow embedding of [accounts/views.py] and [accounts/serializers.py].

    Every view is a computation over a [World] (the user table, the token
    blacklist, the outgoing mail and the log) that either returns a
    [Response] or lets a Python exception escape.  Mutations made before an
    exception is raised stay in the world, as they do in the database.

    Functions of Django, Django REST framework and simplejwt whose bodies are
    not part of the repository are the fields of the class [Framework].

    A request to a view with a serializer carries every declared field as a
    text; the serializer validates the fields (blank, length, e-mail format,
    uniqueness) before its own [validate] runs. *)

From Stdlib Require Import ZArith String List Bool Lia Ascii.
From Stdlib Require Import DecimalString.
Import ListNotations.

#[local] Open Scope string_scope.
#[local] Open Scope Z_scope.

(** ** Python exceptions and the result of a call *)

Inductive exn : Type :=
| ValidationError (detail : string) (code : option string)
| ValidationErrorDict (errors : list (string * list string))
| AuthenticationFailed (detail : string) (code : option Z)
| TokenError
| DoesNotExist
| MultipleObjectsReturned
| ValueError
| DjangoUnicodeDecodeError
| TypeError
| AssertionError
| IntegrityError
| SMTPException.

(** [ValidationErrorDict] is a [ValidationError] whose detail is the
    dictionary of the messages of each refused field.

    [rest_framework.exceptions.APIException] and its subclasses are turned into
    an error response by the framework; anything else that leaves a view is an
    unhandled fault. *)
Definition is_APIException (e : exn) : bool :=
  match e with
  | ValidationError _ _ | ValidationErrorDict _ | AuthenticationFailed _ _ => true
  | _ => false
  end.

Inductive outcome (A : Type) : Type :=
| Ret (a : A)
| Raise (e : exn).
Arguments Ret {A} a.
Arguments Raise {A} e.

(** ** Data model *)

Record User : Type := mkUser {
  id : Z;
  email : string;
  full_name : string;
  password : string;               (* the encoded (salted, hashed) password *)
  is_verified : bool;
  otp : option string;
  otp_created_at : option Z        (* microseconds since the epoch *)
}.

Definition set_is_verified (u : User) (b : bool) : User :=
  mkUser (id u) (email u) (full_name u) (password u) b (otp u) (otp_created_at u).

Definition set_otp (u : User) (o : option string) (t : option Z) : User :=
  mkUser (id u) (email u) (full_name u) (password u) (is_verified u) o t.

Definition set_encoded_password (u : User) (p : string) : User :=
  mkUser (id u) (email u) (full_name u) p (is_verified u) (otp u) (otp_created_at u).

Definition set_email (u : User) (e : string) : User :=
  mkUser (id u) e (full_name u) (password u) (is_verified u) (otp u) (otp_created_at u).

Definition set_full_name (u : User) (n : string) : User :=
  mkUser (id u) (email u) n (password u) (is_verified u) (otp u) (otp_created_at u).

Record EmailMessage : Type := mkEmail {
  subject : string;
  body : string;
  from_email : string;
  to : list string
}.

#[local] Set Warnings "-register-all".
Inductive json : Type :=
| JNull
| JStr (s : string)
| JBool (b : bool)
| JList (l : list json)
| JObj (fields : list (string * json)).
#[local] Set Warnings "register-all".

Record Response : Type := mkResponse {
  data : json;
  status : Z
}.

Definition HTTP_200_OK : Z := 200.
Definition HTTP_201_CREATED : Z := 201.
Definition HTTP_204_NO_CONTENT : Z := 204.
Definition HTTP_400_BAD_REQUEST : Z := 400.
Definition HTTP_401_UNAUTHORIZED : Z := 401.

(** The caller is told of a success: a response came back and its status is
    a 2xx. *)
Definition succeeds (o : outcome Response) : bool :=
  match o with
  | Ret r => (200 <=? status r) && (status r <? 300)
  | Raise _ => false
  end.

Record World : Type := mkWorld {
  users : list User;               (* the accounts_user table *)
  blacklist : list string;         (* jti of every blacklisted refresh token *)
  outbox : list EmailMessage;      (* mail accepted by the mail backend *)
  log : list string                (* logger.error lines *)
}.

Definition with_users (w : World) (us : list User) : World :=
  mkWorld us (blacklist w) (outbox w) (log w).

Definition with_blacklist (w : World) (bl : list string) : World :=
  mkWorld (users w) bl (outbox w) (log w).

Definition with_outbox (w : World) (ob : list EmailMessage) : World :=
  mkWorld (users w) (blacklist w) ob (log w).

Definition with_log (w : World) (l : list string) : World :=
  mkWorld (users w) (blacklist w) (outbox w) l.

(** ** The monad of views: state and exceptions *)

Definition M (A : Type) : Type := World -> outcome A * World.

Definition ret {A} (a : A) : M A := fun w => (Ret a, w).

Definition raise {A} (e : exn) : M A := fun w => (Raise e, w).

Definition bind {A B} (m : M A) (k : A -> M B) : M B :=
  fun w =>
    match m w with
    | (Ret a, w') => k a w'
    | (Raise e, w') => (Raise e, w')
    end.

(** [try: m except <handler>]: the handler answers [None] for the exceptions
    its [except] clause does not name, and these escape. *)
Definition try_except {A} (m : M A) (handler : exn -> option (M A)) : M A :=
  fun w =>
    match m w with
    | (Ret a, w') => (Ret a, w')
    | (Raise e, w') =>
        match handler e with
        | Some h => h w'
        | None => (Raise e, w')
        end
    end.

Declare Scope view_scope.
Delimit Scope view_scope with view.
Notation "x <- m ;; k" := (bind m (fun x => k))
  (at level 61, m at next level, right associativity) : view_scope.
Notation "m ;;; k" := (bind m (fun _ => k))
  (at level 61, right associativity) : view_scope.
#[local] Open Scope view_scope.

Definition get_world : M World := fun w => (Ret w, w).
Definition put_world (w : World) : M unit := fun _ => (Ret tt, w).

(** ** The user table *)

(** [User.objects.filter(email=value)] *)
Definition filter_email (value : string) (us : list User) : list User :=
  filter (fun u => String.eqb (email u) value) us.

(** [User.objects.filter(id=value)] *)
Definition filter_id (value : Z) (us : list User) : list User :=
  filter (fun u => Z.eqb (id u) value) us.

(** [QuerySet.get]: exactly one row, or an exception. *)
Definition queryset_get (rows : list User) : M User :=
  match rows with
  | [] => raise DoesNotExist
  | [u] => ret u
  | _ => raise MultipleObjectsReturned
  end.

(** [User.objects.get(email=email)] *)
Definition objects_get_email (value : string) : M User :=
  w <- get_world ;; queryset_get (filter_email value (users w)).

(** [User.objects.get(id=pk)], the key already converted to an integer *)
Definition objects_get_id (pk : Z) : M User :=
  w <- get_world ;; queryset_get (filter_id pk (users w)).

(** [QuerySet.exists] *)
Definition queryset_exists (rows : list User) : bool :=
  match rows with
  | [] => false
  | _ => true
  end.

(** The UPDATE issued by [user.save()] on a row that has a primary key: every
    row with that key takes the values of [u]. *)
Definition update_row (u : User) (us : list User) : list User :=
  map (fun r => if Z.eqb (id r) (id u) then u else r) us.

(** [user.save()]: UPDATE, and INSERT when no row has the key. *)
Definition save (u : User) : M unit :=
  w <- get_world ;;
  if queryset_exists (filter_id (id u) (users w))
  then put_world (with_users w (update_row u (users w)))
  else put_world (with_users w (users w ++ [u])).

(** [logger.error(line)] *)
Definition logger_error (line : string) : M unit :=
  w <- get_world ;; put_world (with_log w (log w ++ [line])).

(** ** Python values of a request *)

(** [not x] for a value that is [None] or a string. *)
Definition falsy (x : option string) : bool :=
  match x with
  | None => true
  | Some s => String.eqb s ""
  end.

Definition option_string_eqb (a b : option string) : bool :=
  match a, b with
  | None, None => true
  | Some x, Some y => String.eqb x y
  | _, _ => false
  end.

(** [timedelta(minutes=n)] in microseconds *)
Definition timedelta_minutes (n : Z) : Z := n * 60 * 1000000.

(** ** views.VerifyEmail *)

Record VerifyRequest : Type := mkVerifyRequest {
  vr_otp : option string;          (* request.data.get('otp') *)
  vr_email : option string         (* request.data.get('email') *)
}.

Definition otp_required_response : Response :=
  mkResponse (JObj [("error", JStr "OTP and email are required.")]) HTTP_400_BAD_REQUEST.

Definition otp_verified_response : Response :=
  mkResponse (JObj [("message", JStr "Email successfully verified")]) HTTP_200_OK.

Definition otp_invalid_response : Response :=
  mkResponse (JObj [("error", JStr "Invalid or expired OTP.")]) HTTP_400_BAD_REQUEST.

Definition user_missing_response : Response :=
  mkResponse (JObj [("error", JStr "User does not exist.")]) HTTP_400_BAD_REQUEST.

Definition otp_valid_duration : Z := 15.

(** [user.otp == otp_to_verify and timezone.now() - user.otp_created_at
    <= timedelta(minutes=otp_valid_duration)].  The subtraction is evaluated
    only when the codes are equal, and raises [TypeError] on [None]. *)
Definition otp_condition (now : Z) (user : User) (otp_to_verify : option string) : M bool :=
  if option_string_eqb (otp user) otp_to_verify then
    match otp_created_at user with
    | Some created => ret (now - created <=? timedelta_minutes otp_valid_duration)
    | None => raise TypeError
    end
  else ret false.

Definition VerifyEmail_post (now : Z) (request : VerifyRequest) : M Response :=
  let otp_to_verify := vr_otp request in
  let email_ := vr_email request in
  if falsy otp_to_verify || falsy email_ then ret otp_required_response
  else
    try_except
      (user <- objects_get_email (match email_ with Some e => e | None => "" end) ;;
       ok <- otp_condition now user otp_to_verify ;;
       if ok then
         save (set_is_verified user true) ;;;
         ret otp_verified_response
       else ret otp_invalid_response)
      (fun e =>
         match e with
         | DoesNotExist =>
             Some (logger_error ("User with email "
                                   ++ match email_ with Some e => e | None => "" end
                                   ++ " does not exist.") ;;;
                   ret user_missing_response)
         | _ => None
         end).

(** ** Library functions used by the serializers and views *)

Class Framework : Type := {
  (** [django.utils.http.urlsafe_base64_decode]; [None] when it raises
      [ValueError]. *)
  urlsafe_base64_decode : string -> option (list Byte.byte);
  (** [django.utils.encoding.force_str] on bytes; [None] when it raises
      [DjangoUnicodeDecodeError]. *)
  force_str : list Byte.byte -> option string;
  (** The conversion of a lookup value to the integer primary key;
      [None] when it raises [ValueError]. *)
  pk_to_python : string -> option Z;
  (** [django.contrib.auth.hashers.make_password raw], with the salt drawn
      for this call. *)
  make_password : string -> string -> string;
  (** [django.contrib.auth.hashers.check_password raw encoded] *)
  check_password : string -> string -> bool;
  (** [salted_hmac(key_salt, value, secret).hexdigest()[::2]] of the reset
      token generator *)
  salted_hmac : string -> string;
  int_to_base36 : Z -> string;
  (** [None] when it raises [ValueError]. *)
  base36_to_int : string -> option Z;
  (** [settings.PASSWORD_RESET_TIMEOUT], in seconds *)
  PASSWORD_RESET_TIMEOUT : Z;
  (** [settings.EMAIL_HOST_USER] *)
  EMAIL_HOST_USER : string;
  (** Decoding of a refresh token: signature and token type; the claims
      [jti] and [exp] (microseconds since the epoch), or [None] when
      [TokenError] is raised. *)
  refresh_token_payload : string -> option (string * Z);
  (** Modelled from the spec: [User.user_tokens] of models.py, which issues a
      fresh access/refresh token pair encoding the user id and the expiry;
      the pair is (refresh, access). *)
  user_tokens : User -> Z -> string * string;
  (** [str.strip()] *)
  strip : string -> string;
  (** [django.core.validators.EmailValidator]: whether the value passes *)
  EmailValidator : string -> bool;
  (** The [max_length] of the columns [full_name] and [email] of models.py *)
  User_full_name_max_length : nat;
  User_email_max_length : nat
}.

(** Whether a character occurs in a text *)
Fixpoint contains (c : ascii) (s : string) : bool :=
  match s with
  | EmptyString => false
  | String a rest => Ascii.eqb a c || contains c rest
  end.

Section Accounts.

Context {F : Framework}.

Definition lift_option {A} (e : exn) (x : option A) : M A :=
  match x with
  | Some a => ret a
  | None => raise e
  end.

(** [smart_str] is [force_str] on every value that is not a lazy string. *)
Definition smart_str (b : list Byte.byte) : option string := force_str b.

(** [str(n)] for an integer *)
Definition str_of_int (n : Z) : string := NilZero.string_of_int (Z.to_int n).

(** *** django.contrib.auth.tokens.PasswordResetTokenGenerator *)

(** [str.split(sep)] for a separator of one character *)
Fixpoint split_on (sep : ascii) (s : string) : list string :=
  match s with
  | EmptyString => [EmptyString]
  | String c rest =>
      if Ascii.eqb c sep then EmptyString :: split_on sep rest
      else
        match split_on sep rest with
        | [] => [String c EmptyString]
        | hd :: tl => String c hd :: tl
        end
  end.

(** Seconds between 2001-01-01 and [now] (microseconds since 1970-01-01). *)
Definition _num_seconds (now : Z) : Z :=
  Z.quot (now - 978307200 * 1000000) 1000000.

(** The repository never writes [last_login], so its part of the hash value
    is the empty string. *)
Definition _make_hash_value (user : User) (timestamp : Z) : string :=
  str_of_int (id user) ++ password user ++ "" ++ str_of_int timestamp ++ email user.

Definition _make_token_with_timestamp (user : User) (timestamp : Z) : string :=
  int_to_base36 timestamp ++ "-" ++ salted_hmac (_make_hash_value user timestamp).

Definition make_token (user : User) (now : Z) : string :=
  _make_token_with_timestamp user (_num_seconds now).

Definition check_token (user : User) (token : string) (now : Z) : bool :=
  if String.eqb token "" then false
  else
    match split_on "-" token with
    | [ts_b36; _] =>
        match base36_to_int ts_b36 with
        | None => false
        | Some ts =>
            if String.eqb (_make_token_with_timestamp user ts) token
            then negb (PASSWORD_RESET_TIMEOUT <? _num_seconds now - ts)
            else false
        end
    | _ => false
    end.

(** [user.set_password(raw)] *)
Definition set_password (salt : string) (user : User) (raw : string) : User :=
  set_encoded_password user (make_password salt raw).

(** *** rest_framework.fields *)

(** A byte that continues a character of UTF-8 text *)
Definition is_continuation_byte (c : ascii) : bool :=
  (128 <=? N_of_ascii c)%N && (N_of_ascii c <? 192)%N.

(** [len(value)]: the number of characters of UTF-8 text *)
Fixpoint len (s : string) : nat :=
  match s with
  | EmptyString => O
  | String c rest => if is_continuation_byte c then len rest else S (len rest)
  end.

(** A [CharField], or an [EmailField] when [email_validator] is set.  The
    options not listed keep their defaults: the field is required, does not
    allow a blank value and trims white space. *)
Record CharField : Type := mkCharField {
  max_length : option nat;
  min_length : option nat;
  email_validator : bool
}.

Definition max_length_message (n : nat) : string :=
  "Ensure this field has no more than " ++ str_of_int (Z.of_nat n) ++ " characters.".

Definition min_length_message (n : nat) : string :=
  "Ensure this field has at least " ++ str_of_int (Z.of_nat n) ++ " characters.".

(** [Field.run_validators]: every validator runs and the messages are
    collected in the order of the validators: those given to the field, the
    two lengths, the null character and the e-mail format.  The text is
    UTF-8, which holds no surrogate. *)
Definition run_validators (field : CharField) (validators : string -> list string)
    (value : string) : list string :=
  (validators value
   ++ match max_length field with
      | Some n => if Nat.ltb n (len value) then [max_length_message n] else []
      | None => []
      end
   ++ match min_length field with
      | Some n => if Nat.ltb (len value) n then [min_length_message n] else []
      | None => []
      end
   ++ (if contains "000" value then ["Null characters are not allowed."] else [])
   ++ (if email_validator field && negb (EmailValidator value)
       then ["Enter a valid email address."] else []))%list.

(** [CharField.run_validation] on a text: the messages of the field, or the
    trimmed value. *)
Definition CharField_run_validation (field : CharField)
    (validators : string -> list string) (data : string) : list string + string :=
  if String.eqb data "" || String.eqb (strip data) ""
  then inl ["This field may not be blank."]
  else
    match run_validators field validators (strip data) with
    | [] => inr (strip data)
    | errors => inl errors
    end.

(** [CharField(max_length=40, min_length=4, write_only=True)] *)
Definition password_field : CharField := mkCharField (Some 40%nat) (Some 4%nat) false.

(** [CharField()] and [CharField(write_only=True)] *)
Definition text_field : CharField := mkCharField None None false.

(** [EmailField(max_length=255, min_length=10)] of the login *)
Definition login_email_field : CharField :=
  mkCharField (Some 255%nat) (Some 10%nat) true.

(** [EmailField(max_length=255)] of the reset request *)
Definition reset_email_field : CharField := mkCharField (Some 255%nat) None true.

(** Modelled from the spec: the fields that a [ModelSerializer] generates from
    the columns [full_name] and [email] of models.py, the e-mail being
    unique. *)
Definition model_full_name_field : CharField :=
  mkCharField (Some User_full_name_max_length) None false.

Definition model_email_field : CharField :=
  mkCharField (Some User_email_max_length) None true.

(** Modelled from the spec: the [UniqueValidator] of the generated e-mail
    field.  A row other than the instance being updated that has the value
    refuses it. *)
Definition UniqueValidator (us : list User) (instance : option User) (value : string)
    : list string :=
  let others :=
    match instance with
    | Some i => filter (fun r => negb (Z.eqb (id r) (id i))) (filter_email value us)
    | None => filter_email value us
    end in
  if queryset_exists others then ["user with this email already exists."] else [].

(** *** Serializer.to_internal_value, run_validation and is_valid *)

(** The entry of a field in the dictionary of errors *)
Definition errors_of (field_name : string) (r : list string + string)
    : list (string * list string) :=
  match r with
  | inl errors => [(field_name, errors)]
  | inr _ => []
  end.

Definition value_of (r : list string + string) : string :=
  match r with
  | inl _ => ""
  | inr value => value
  end.

(** [serializer.errors] as data of a response *)
Definition errors_json (errors : list (string * list string)) : json :=
  JObj (map (fun e => (fst e, JList (map JStr (snd e)))) errors).

(** [Serializer.run_validation]: the fields first, and [validate] on the
    values of the fields when no field is refused. *)
Definition run_validation {A B} (to_internal_value : list (string * list string) + A)
    (validate : A -> M B) : M B :=
  match to_internal_value with
  | inl errors => raise (ValidationErrorDict errors)
  | inr value => validate value
  end.

Inductive validity (A : Type) : Type :=
| Valid (validated_data : A)
| Invalid (errors : json).
Arguments Valid {A} validated_data.
Arguments Invalid {A} errors.

(** [serializer.is_valid(raise_exception=...)] around the validation of the
    serializer.  A value returned by the validation, whatever it is, makes
    the data valid; a [ValidationError] is raised again or kept as the
    errors, a message of [validate] under [key]; any other exception
    escapes. *)
Definition is_valid {A} (raise_exception : bool) (key : string)
    (run_validation : M A) : M (validity A) :=
  fun w =>
    match run_validation w with
    | (Ret a, w') => (Ret (Valid a), w')
    | (Raise (ValidationError detail code), w') =>
        if raise_exception then (Raise (ValidationError detail code), w')
        else (Ret (Invalid (JObj [(key, JList [JStr detail])])), w')
    | (Raise (ValidationErrorDict errors), w') =>
        if raise_exception then (Raise (ValidationErrorDict errors), w')
        else (Ret (Invalid (errors_json errors)), w')
    | (Raise e, w') => (Raise e, w')
    end.

(** [django.core.mail]: the message is handed to the mail backend, which
    accepts it or raises. *)
Definition send (delivered : bool) (message : EmailMessage) : M unit :=
  if delivered
  then w <- get_world ;; put_world (with_outbox w (outbox w ++ [message]))
  else raise SMTPException.

(** ** serializers.RegisterSerializer *)

Record RegisterData : Type := mkRegisterData {
  rd_full_name : string;
  rd_email : string;
  rd_password1 : string;
  rd_password2 : string
}.

Definition RegisterSerializer_validate (attrs : RegisterData) : M RegisterData :=
  let password1 := rd_password1 attrs in
  let password2 := rd_password2 attrs in
  if negb (String.eqb password1 password2)
  then raise (ValidationError "The password fields didn't match" None)
  else ret attrs.

(** The fields in the order of [Meta.fields]; [full_name] and [email] are
    generated from the model, the two passwords are declared. *)
Definition RegisterSerializer_to_internal_value (us : list User) (data : RegisterData)
    : list (string * list string) + RegisterData :=
  let full_name_ := CharField_run_validation model_full_name_field (fun _ => [])
                      (rd_full_name data) in
  let email_ := CharField_run_validation model_email_field (UniqueValidator us None)
                  (rd_email data) in
  let password1 := CharField_run_validation password_field (fun _ => [])
                     (rd_password1 data) in
  let password2 := CharField_run_validation password_field (fun _ => [])
                     (rd_password2 data) in
  match (errors_of "full_name" full_name_ ++ errors_of "email" email_
         ++ errors_of "password1" password1 ++ errors_of "password2" password2)%list with
  | [] => inr (mkRegisterData (value_of full_name_) (value_of email_)
                              (value_of password1) (value_of password2))
  | errors => inl errors
  end.

Definition RegisterSerializer_run_validation (data : RegisterData) : M RegisterData :=
  w <- get_world ;;
  run_validation (RegisterSerializer_to_internal_value (users w) data)
                 RegisterSerializer_validate.

(** Modelled from the spec: [User.objects.create_user] of models.py.  The
    Credential Store creates the record unverified with [otp=None], stores
    the hash of the password and enforces email uniqueness.  [pk] is the key
    that the database issues for the new row. *)
Definition create_user (salt : string) (pk : Z) (full_name_ email_ password_ : string)
    : M User :=
  w <- get_world ;;
  if queryset_exists (filter_email email_ (users w))
  then raise IntegrityError
  else
    let user := mkUser pk email_ full_name_
                       (make_password salt password_) false None None in
    put_world (with_users w (users w ++ [user])) ;;;
    ret user.

Definition RegisterSerializer_create (salt : string) (pk : Z)
    (validated_data : RegisterData) : M User :=
  create_user salt pk (rd_full_name validated_data) (rd_email validated_data)
              (rd_password1 validated_data).

(** [RegisterSerializer(user).data]: the fields that are not write-only *)
Definition RegisterSerializer_data (user : User) : json :=
  JObj [("full_name", JStr (full_name user)); ("email", JStr (email user))].

(** ** views.RegisterView *)

Definition ascii_uppercase : string := "ABCDEFGHIJKLMNOPQRSTUVWXYZ".
Definition digits : string := "0123456789".

(** [random.choices(population, k=k)], the [i]-th draw being [draw i]. *)
Definition random_choices (draw : nat -> nat) (population : string) (k : nat) : list ascii :=
  map (fun i =>
         match String.get (Nat.modulo (draw i) (String.length population)) population with
         | Some c => c
         | None => Ascii.zero
         end)
      (seq 0 k).

(** [''.join(chars)] *)
Definition join (chars : list ascii) : string :=
  fold_right String EmptyString chars.

(** The mail of [RegisterView.post].  The body literal is broken over three
    lines in the source; it is read here as one line of text. *)
Definition otp_mail (otp_code : string) (user : User) : EmailMessage :=
  mkEmail "Techplaza OTP for Registration Verification"
          ("Your OTP for registration verification is " ++ otp_code
             ++ " please use this link https://frontend-techplaza-d0af91d53972.herokuapp.com/otp/verify if you close your browser window. Note: Your email will be deleted from our database after 14 days if not verified.")
          "techplaza1@hotmail.com"
          [email user].

Definition registered_response (user : User) : Response :=
  mkResponse
    (JObj [("data", RegisterSerializer_data user);
           ("message", JStr ("Thanks for your Registration " ++ full_name user
                               ++ "," ++ String "010" "                            "
                               ++ "a verified code has been sent to your Email."))])
    HTTP_201_CREATED.

(** [draw] is the random source, [salt] the salt of the password hasher, [pk]
    the key that the database issues if a row is inserted, and [delivered]
    tells whether the mail backend accepts the message. *)
Definition RegisterView_post (now : Z) (pk : Z) (draw : nat -> nat) (salt : string)
    (delivered : bool) (user_data : RegisterData) : M Response :=
  v <- is_valid true "non_field_errors" (RegisterSerializer_run_validation user_data) ;;
  match v with
  | Valid validated_data =>
      user <- RegisterSerializer_create salt pk validated_data ;;
      let otp_code := join (random_choices draw (ascii_uppercase ++ digits) 6) in
      let user := set_otp user (Some otp_code) (Some now) in
      save user ;;;
      send delivered (otp_mail otp_code user) ;;;
      ret (registered_response user)
  | Invalid errors => ret (mkResponse errors HTTP_400_BAD_REQUEST)
  end.

(** ** serializers.LoginSerializer and views.LoginView *)

Record LoginAttrs : Type := mkLoginAttrs {
  la_email : string;
  la_password : string
}.

Record LoginData : Type := mkLoginData {
  ld_full_name : string;
  ld_email : string;
  ld_token : string;
  ld_refresh_token : string
}.

(** [django.contrib.auth.authenticate] with the model backend: the user whose
    natural key is [email_] when the password checks, [None] when there is no
    such user or the password is wrong. *)
Definition authenticate (email_ password_ : string) : M (option User) :=
  try_except
    (user <- objects_get_email email_ ;;
     if check_password password_ (password user) then ret (Some user) else ret None)
    (fun e =>
       match e with
       | DoesNotExist => Some (ret None)
       | _ => None
       end).

(** Modelled from the spec: the property [User.user_full_name] of models.py;
    login returns the tokens alongside [full_name] and [email]. *)
Definition user_full_name (user : User) : string := full_name user.

Definition LoginSerializer_validate (now : Z) (attrs : LoginAttrs) : M LoginData :=
  let email_ := la_email attrs in
  let password_ := la_password attrs in
  user <- authenticate email_ password_ ;;
  match user with
  | None => raise (AuthenticationFailed "Sorry the cerdentials are invalid" None)
  | Some user =>
      if negb (is_verified user)
      then raise (AuthenticationFailed "User's Email isn't verified" None)
      else
        let user_token := user_tokens user now in
        ret (mkLoginData (user_full_name user) (email user)
                         (snd user_token) (fst user_token))
  end.

(** [serializer.data] of the login serializer: [password] is write-only *)
Definition LoginSerializer_data (d : LoginData) : json :=
  JObj [("email", JStr (ld_email d)); ("full_name", JStr (ld_full_name d));
        ("token", JStr (ld_token d)); ("refresh_token", JStr (ld_refresh_token d))].

Definition LoginSerializer_to_internal_value (data : LoginAttrs)
    : list (string * list string) + LoginAttrs :=
  let email_ := CharField_run_validation login_email_field (fun _ => [])
                  (la_email data) in
  let password_ := CharField_run_validation password_field (fun _ => [])
                     (la_password data) in
  match (errors_of "email" email_ ++ errors_of "password" password_)%list with
  | [] => inr (mkLoginAttrs (value_of email_) (value_of password_))
  | errors => inl errors
  end.

Definition LoginView_post (now : Z) (request_data : LoginAttrs) : M Response :=
  v <- is_valid true "non_field_errors"
         (run_validation (LoginSerializer_to_internal_value request_data)
                         (LoginSerializer_validate now)) ;;
  match v with
  | Valid d => ret (mkResponse (LoginSerializer_data d) HTTP_200_OK)
  | Invalid errors => ret (mkResponse errors HTTP_400_BAD_REQUEST)
  end.

(** ** serializers.PasswordResetSerializer and views.PasswordResetView *)

Definition reset_mail (user : User) (uidb64 token : string) : EmailMessage :=
  let absolute_link :=
    "https://frontend-techplaza-d0af91d53972." ++
    "herokuapp.com/password_reset_confirm/" ++ uidb64 ++ "/" ++ token in
  mkEmail "Link to reset your password"
          ("Hello, please use the link below to reset the password"
             ++ String "010" absolute_link)
          EMAIL_HOST_USER [email user].

Definition invitation_mail (email_ : string) : EmailMessage :=
  mkEmail "Registration Invitation"
          ("Hello, it seems you are not registered user." ++
           "Please register using the link below:" ++ String "010" "" ++
           "https://frontend-techplaza-d0af91d53972." ++
           "herokuapp.com/register")
          EMAIL_HOST_USER [email_].

(** [uidb64_of] stands for [urlsafe_base64_encode(smart_bytes(user.id))] and
    [current_site] for the outcome of [get_current_site(request).domain],
    whose value the serializer does not use. *)
Definition PasswordResetSerializer_validate (now : Z) (uidb64_of : Z -> string)
    (current_site : outcome string) (delivered : bool) (email_ : string) : M string :=
  site_domain <- (fun w => (current_site, w)) ;;
  w <- get_world ;;
  message <-
    (if queryset_exists (filter_email email_ (users w)) then
       user <- objects_get_email email_ ;;
       let uidb64 := uidb64_of (id user) in
       let token := make_token user now in
       ret (reset_mail user uidb64 token)
     else ret (invitation_mail email_)) ;;
  send delivered message ;;;
  ret email_.

Definition reset_requested_response : Response :=
  mkResponse
    (JObj [("message", JStr "A reset link or registration invitation has been sent to your email. Check the spam folder if you do not see it.")])
    HTTP_200_OK.

Definition PasswordResetSerializer_to_internal_value (data : string)
    : list (string * list string) + string :=
  let email_ := CharField_run_validation reset_email_field (fun _ => []) data in
  match errors_of "email" email_ with
  | [] => inr (value_of email_)
  | errors => inl errors
  end.

Definition PasswordResetView_post (now : Z) (uidb64_of : Z -> string)
    (current_site : outcome string) (delivered : bool) (email_ : string) : M Response :=
  v <- is_valid true "non_field_errors"
         (run_validation (PasswordResetSerializer_to_internal_value email_)
            (PasswordResetSerializer_validate now uidb64_of current_site delivered)) ;;
  ret reset_requested_response.

(** ** views.ConfirmPasswordResetView *)

(** [User.objects.get(id=user_id)] for a key given as text *)
Definition objects_get_id_str (user_id : string) : M User :=
  pk <- lift_option ValueError (pk_to_python user_id) ;;
  objects_get_id pk.

Definition ConfirmPasswordResetView_get (now : Z) (uidb64 token : string) : M Response :=
  try_except
    (raw <- lift_option ValueError (urlsafe_base64_decode uidb64) ;;
     user_id <- lift_option DjangoUnicodeDecodeError (smart_str raw) ;;
     user <- objects_get_id_str user_id ;;
     if negb (check_token user token now)
     then ret (mkResponse (JObj [("message", JStr "Token is expired")])
                          HTTP_401_UNAUTHORIZED)
     else ret (mkResponse
                 (JObj [("success", JBool true);
                        ("message", JStr "The credentials are valid");
                        ("uidb64", JStr uidb64); ("token", JStr token)])
                 HTTP_200_OK))
    (fun e =>
       match e with
       | DjangoUnicodeDecodeError =>
           Some (ret (mkResponse (JObj [("message", JStr "token has expired")])
                                 HTTP_401_UNAUTHORIZED))
       | _ => None
       end).

(** ** serializers.NewPasswordSerializer and views.NewPasswordView *)

Record NewPasswordAttrs : Type := mkNewPasswordAttrs {
  np_password : string;
  np_password_confirm : string;
  np_uidb64 : string;
  np_token : string
}.

(** What [validate] returns: the user, or the exception object that the
    [except] branch returns instead of raising. *)
Inductive new_password_result : Type :=
| ReturnedUser (user : User)
| ReturnedException (e : exn).

Definition NewPasswordSerializer_validate (now : Z) (salt : string)
    (attrs : NewPasswordAttrs) : M new_password_result :=
  try_except
    (let token := np_token attrs in
     let uidb64 := np_uidb64 attrs in
     let password_ := np_password attrs in
     let password_confirm := np_password_confirm attrs in
     raw <- lift_option ValueError (urlsafe_base64_decode uidb64) ;;
     user_id <- lift_option DjangoUnicodeDecodeError (force_str raw) ;;
     user <- objects_get_id_str user_id ;;
     if negb (check_token user token now)
     then raise (AuthenticationFailed "The link is invalid" (Some 401))
     else if negb (String.eqb password_ password_confirm)
     then raise (AuthenticationFailed "Password Fields didn't match!" None)
     else
       let user := set_password salt user password_ in
       save user ;;;
       ret (ReturnedUser user))
    (fun _ =>
       Some (ret (ReturnedException
                    (AuthenticationFailed "The link is invalid/expired" None)))).

Definition password_reset_response : Response :=
  mkResponse (JObj [("message", JStr "Your Password Reset Successfully")]) HTTP_200_OK.

(** The fields in the order of their declaration *)
Definition NewPasswordSerializer_to_internal_value (data : NewPasswordAttrs)
    : list (string * list string) + NewPasswordAttrs :=
  let password_ := CharField_run_validation password_field (fun _ => [])
                     (np_password data) in
  let password_confirm := CharField_run_validation password_field (fun _ => [])
                            (np_password_confirm data) in
  let uidb64 := CharField_run_validation text_field (fun _ => []) (np_uidb64 data) in
  let token := CharField_run_validation text_field (fun _ => []) (np_token data) in
  match (errors_of "password" password_ ++ errors_of "password_confirm" password_confirm
         ++ errors_of "uidb64" uidb64 ++ errors_of "token" token)%list with
  | [] => inr (mkNewPasswordAttrs (value_of password_) (value_of password_confirm)
                                  (value_of uidb64) (value_of token))
  | errors => inl errors
  end.

Definition NewPasswordView_patch (now : Z) (salt : string)
    (request_data : NewPasswordAttrs) : M Response :=
  v <- is_valid true "non_field_errors"
         (run_validation (NewPasswordSerializer_to_internal_value request_data)
                         (NewPasswordSerializer_validate now salt)) ;;
  ret password_reset_response.

(** ** serializers.LogoutSerializer and views.LogoutView *)

(** [RefreshToken(token)]: the token is decoded and verified; an expired
    token and a token whose [jti] is on the blacklist are refused. *)
Definition RefreshToken (now : Z) (token : string) : M string :=
  payload <- lift_option TokenError (refresh_token_payload token) ;;
  let jti := fst payload in
  let exp := snd payload in
  if exp <=? now then raise TokenError
  else
    w <- get_world ;;
    if existsb (String.eqb jti) (blacklist w) then raise TokenError else ret jti.

(** [token.blacklist()]: get-or-create of the blacklist row *)
Definition token_blacklist (jti : string) : M unit :=
  w <- get_world ;;
  if existsb (String.eqb jti) (blacklist w) then ret tt
  else put_world (with_blacklist w (blacklist w ++ [jti])).

Definition default_error_messages (key : string) : option string :=
  if String.eqb key "bad_token" then Some "Token expired" else None.

(** [self.fail(key)] raises [ValidationError] with the message of [key]. *)
Definition fail {A} (key : string) : M A :=
  match default_error_messages key with
  | Some msg => raise (ValidationError msg (Some key))
  | None => raise AssertionError
  end.

Definition LogoutSerializer_validate (refresh_token : string) : M string :=
  ret refresh_token.

Definition LogoutSerializer_save (now : Z) (self_token : string) : M unit :=
  try_except
    (token <- RefreshToken now self_token ;;
     token_blacklist token)
    (fun e =>
       match e with
       | TokenError => Some (fail "bad_token")
       | _ => None
       end).

Definition LogoutSerializer_to_internal_value (data : string)
    : list (string * list string) + string :=
  let refresh_token := CharField_run_validation text_field (fun _ => []) data in
  match errors_of "refresh_token" refresh_token with
  | [] => inr (value_of refresh_token)
  | errors => inl errors
  end.

Definition LogoutView_post (now : Z) (refresh_token : string) : M Response :=
  v <- is_valid true "non_field_errors"
         (run_validation (LogoutSerializer_to_internal_value refresh_token)
                         LogoutSerializer_validate) ;;
  match v with
  | Valid self_token =>
      LogoutSerializer_save now self_token ;;;
      ret (mkResponse JNull HTTP_200_OK)
  | Invalid errors => ret (mkResponse errors HTTP_400_BAD_REQUEST)
  end.

(** ** serializers.UpdateAccountInfoSerializer and views.UpdateInformationView *)

Record UpdateData : Type := mkUpdateData {
  ud_full_name : option string;
  ud_email : option string
}.

Definition UpdateAccountInfoSerializer_validate_email (value : string) : M string :=
  w <- get_world ;;
  if queryset_exists (filter_email value (users w))
  then raise (ValidationError "This email is already in use." None)
  else ret value.

(** The validation of the field [email] of an update: the generated field
    first, then [validate_email], whose [ValidationError] becomes the message
    of the field. *)
Definition UpdateAccountInfoSerializer_email (instance : User) (data : string)
    : M (list string + string) :=
  w <- get_world ;;
  match CharField_run_validation model_email_field
          (UniqueValidator (users w) (Some instance)) data with
  | inl errors => ret (inl errors)
  | inr value =>
      try_except
        (value <- UpdateAccountInfoSerializer_validate_email value ;;
         ret (inr value))
        (fun e =>
           match e with
           | ValidationError detail _ => Some (ret (inl [detail]))
           | _ => None
           end)
  end.

(** With [partial=True] a field that the request does not carry is skipped;
    the fields are taken in the order of [Meta.fields]. *)
Definition UpdateAccountInfoSerializer_to_internal_value (instance : User)
    (request_data : UpdateData) : M (list (string * list string) + UpdateData) :=
  let full_name_ :=
    option_map (CharField_run_validation model_full_name_field (fun _ => []))
               (ud_full_name request_data) in
  email_ <- match ud_email request_data with
            | Some data =>
                r <- UpdateAccountInfoSerializer_email instance data ;;
                ret (Some r)
            | None => ret None
            end ;;
  match (match full_name_ with Some r => errors_of "full_name" r | None => [] end
         ++ match email_ with Some r => errors_of "email" r | None => [] end)%list with
  | [] => ret (inr (mkUpdateData (option_map value_of full_name_)
                                 (option_map value_of email_)))
  | errors => ret (inl errors)
  end.

Definition UpdateAccountInfoSerializer_run_validation (instance : User)
    (request_data : UpdateData) : M UpdateData :=
  r <- UpdateAccountInfoSerializer_to_internal_value instance request_data ;;
  run_validation r ret.

(** [ModelSerializer.update]: the validated fields are set on the instance. *)
Definition UpdateAccountInfoSerializer_update (user : User) (d : UpdateData) : User :=
  let user := match ud_full_name d with Some n => set_full_name user n | None => user end in
  match ud_email d with Some e => set_email user e | None => user end.

Definition UpdateAccountInfoSerializer_data (user : User) : json :=
  JObj [("full_name", JStr (full_name user)); ("email", JStr (email user))].

Definition UpdateInformationView_patch (user : User) (request_data : UpdateData)
    : M Response :=
  v <- is_valid false "non_field_errors"
         (UpdateAccountInfoSerializer_run_validation user request_data) ;;
  match v with
  | Valid validated_data =>
      let user := UpdateAccountInfoSerializer_update user validated_data in
      save user ;;;
      ret (mkResponse (UpdateAccountInfoSerializer_data user) HTTP_200_OK)
  | Invalid errors => ret (mkResponse errors HTTP_400_BAD_REQUEST)
  end.

(** ** views.DeleteAccountView *)

(** [user.delete()]: the rows with the key of the user are removed. *)
Definition delete (user : User) : M unit :=
  w <- get_world ;;
  put_world (with_users w (filter (fun r => negb (Z.eqb (id r) (id user))) (users w))).

Definition account_deleted_response : Response :=
  mkResponse (JObj [("message", JStr "Account deleted successfully")]) HTTP_204_NO_CONTENT.

Definition DeleteAccountView_delete (user : User) : M Response :=
  delete user ;;;
  ret account_deleted_response.

(** ** Values named in the statements *)

(** The record a registration leaves in the table *)
Definition registered_user (now : Z) (pk : Z) (draw : nat -> nat) (salt : string)
    (user_data : RegisterData) : User :=
  mkUser pk (rd_email user_data) (rd_full_name user_data)
         (make_password salt (rd_password1 user_data)) false
         (Some (join (random_choices draw (ascii_uppercase ++ digits) 6)))
         (Some now).

End Accounts.

(** ** An instance of the library functions

    Used to run the views on concrete requests.  The codecs are the real
    ones on the inputs the examples use (base64 over the URL-safe alphabet,
    ASCII text, decimal keys, base 36); the hashers are transparent, white
    space is the ASCII one and an address is accepted when it reads
    [local@domain] with a dot in the domain and no space.  A second instance
    has a digest of fixed length as the keyed hash of the token generator. *)

Module Reference.

Definition b64_alphabet : string :=
  "ABCDEFGHIJKLMNOPQRSTUVWXYZabcdefghijklmnopqrstuvwxyz0123456789-_".

(** The position of a character in an alphabet *)
Fixpoint index_of (c : ascii) (alphabet : string) : option N :=
  match alphabet with
  | EmptyString => None
  | String a rest =>
      if Ascii.eqb a c then Some 0%N
      else option_map N.succ (index_of c rest)
  end.

Fixpoint sextets (s : string) : option (list N) :=
  match s with
  | EmptyString => Some []
  | String c rest =>
      match index_of c b64_alphabet, sextets rest with
      | Some v, Some vs => Some (v :: vs)
      | _, _ => None
      end
  end.

Definition byte_of (n : N) : Byte.byte :=
  match Byte.of_N (N.modulo n 256) with
  | Some b => b
  | None => Byte.x00
  end.

(** Four sextets give three bytes; a final group of two gives one byte and a
    final group of three gives two.  A final group of one is refused. *)
Fixpoint octets (vs : list N) : option (list Byte.byte) :=
  match vs with
  | [] => Some []
  | [_] => None
  | [a; b] => Some [byte_of (a * 4 + b / 16)]
  | [a; b; c] => Some [byte_of (a * 4 + b / 16); byte_of (b * 16 + c / 4)]
  | a :: b :: c :: d :: rest =>
      option_map
        (fun tl => byte_of (a * 4 + b / 16) :: byte_of (b * 16 + c / 4)
                     :: byte_of (c * 64 + d) :: tl)
        (octets rest)
  end%N.

Definition urlsafe_base64_decode (s : string) : option (list Byte.byte) :=
  match sextets s with
  | Some vs => octets vs
  | None => None
  end.

Definition b64_char (v : N) : ascii :=
  match String.get (N.to_nat (N.modulo v 64)) b64_alphabet with
  | Some c => c
  | None => "A"%char
  end.

(** [urlsafe_base64_encode]: three bytes give four characters, and the
    trailing padding is left out. *)
Fixpoint urlsafe_base64_encode (bs : list Byte.byte) : string :=
  match bs with
  | [] => EmptyString
  | [a] =>
      let a := Byte.to_N a in
      String (b64_char (a / 4)) (String (b64_char (a mod 4 * 16)) EmptyString)
  | [a; b] =>
      let a := Byte.to_N a in
      let b := Byte.to_N b in
      String (b64_char (a / 4))
        (String (b64_char (a mod 4 * 16 + b / 16))
           (String (b64_char (b mod 16 * 4)) EmptyString))
  | a :: b :: c :: rest =>
      let a := Byte.to_N a in
      let b := Byte.to_N b in
      let c := Byte.to_N c in
      String (b64_char (a / 4))
        (String (b64_char (a mod 4 * 16 + b / 16))
           (String (b64_char (b mod 16 * 4 + c / 64))
              (String (b64_char (c mod 64)) (urlsafe_base64_encode rest))))
  end%N.

(** [urlsafe_base64_encode(smart_bytes(pk))] *)
Definition uidb64_of (pk : Z) : string :=
  urlsafe_base64_encode (list_byte_of_string (NilZero.string_of_int (Z.to_int pk))).

(** ASCII text decodes to itself; a byte above 127 is refused. *)
Fixpoint force_str (bs : list Byte.byte) : option string :=
  match bs with
  | [] => Some EmptyString
  | b :: rest =>
      if (Byte.to_N b <? 128)%N
      then option_map (String (ascii_of_byte b)) (force_str rest)
      else None
  end.

Fixpoint parse_digits (alphabet : string) (acc : Z) (s : string) : option Z :=
  match s with
  | EmptyString => Some acc
  | String c rest =>
      match index_of c alphabet with
      | Some v => parse_digits alphabet (acc * Z.of_N (N.of_nat (String.length alphabet)) + Z.of_N v) rest
      | None => None
      end
  end.

Definition parse_number (alphabet : string) (s : string) : option Z :=
  if String.eqb s "" then None else parse_digits alphabet 0 s.

Definition pk_to_python : string -> option Z := parse_number "0123456789".

Definition base36_alphabet : string := "0123456789abcdefghijklmnopqrstuvwxyz".

Definition base36_to_int : string -> option Z := parse_number base36_alphabet.

Fixpoint to_base36 (fuel : nat) (n : Z) (acc : string) : string :=
  match fuel with
  | O => acc
  | S fuel' =>
      let d := match String.get (Z.to_nat (n mod 36)) base36_alphabet with
               | Some c => c
               | None => "0"%char
               end in
      if n <? 36 then String d acc
      else to_base36 fuel' (n / 36) (String d acc)
  end.

Definition int_to_base36 (n : Z) : string :=
  to_base36 (S (Z.to_nat (Z.log2 n))) n "".

(** The encoded password is the salt, a dollar sign and the raw password. *)
Definition make_password (salt raw : string) : string := salt ++ "$" ++ raw.

Fixpoint after_dollar (s : string) : option string :=
  match s with
  | EmptyString => None
  | String c rest => if Ascii.eqb c "$" then Some rest else after_dollar rest
  end.

Definition check_password (raw encoded : string) : bool :=
  match after_dollar encoded with
  | Some r => String.eqb r raw
  | None => false
  end.

(** A refresh token is written [<expiry in seconds>.<jti>]. *)
Definition refresh_token_payload (token : string) : option (string * Z) :=
  match split_on "." token with
  | [exp; jti] =>
      match parse_number "0123456789" exp with
      | Some e => Some (jti, e * 1000000)
      | None => None
      end
  | _ => None
  end.

Definition user_tokens (user : User) (now : Z) : string * string :=
  let exp := NilZero.string_of_int (Z.to_int (now / 1000000 + 86400)) in
  let uid := NilZero.string_of_int (Z.to_int (id user)) in
  (exp ++ ".refresh" ++ uid, exp ++ ".access" ++ uid).

Definition is_space (c : ascii) : bool :=
  ((9 <=? N_of_ascii c) && (N_of_ascii c <=? 13)
   || (28 <=? N_of_ascii c) && (N_of_ascii c <=? 32))%N.

Fixpoint lstrip (s : string) : string :=
  match s with
  | EmptyString => EmptyString
  | String c rest => if is_space c then lstrip rest else s
  end.

Fixpoint rstrip (s : string) : string :=
  match s with
  | EmptyString => EmptyString
  | String c rest =>
      match rstrip rest with
      | EmptyString => if is_space c then EmptyString else String c EmptyString
      | kept => String c kept
      end
  end.

Definition strip (s : string) : string := rstrip (lstrip s).

Definition EmailValidator (s : string) : bool :=
  match split_on "@" s with
  | [local; domain] =>
      negb (String.eqb local "") && contains "." domain && negb (contains " " s)
  | _ => false
  end.

#[export] Instance framework : Framework :=
  Build_Framework urlsafe_base64_decode force_str pk_to_python
                  make_password check_password (fun value => value)
                  int_to_base36 base36_to_int 259200 "techplaza1@hotmail.com"
                  refresh_token_payload user_tokens
                  strip EmailValidator 100 255.

(** A digest of fixed length: a checksum of the text over 32 bits, written
    as eight hexadecimal digits *)
Fixpoint checksum (acc : N) (s : string) : N :=
  match s with
  | EmptyString => acc
  | String c rest => checksum ((acc * 33 + N_of_ascii c) mod 4294967296)%N rest
  end.

Fixpoint hexdigest (k : nat) (n : N) : string :=
  match k with
  | O => EmptyString
  | S k' =>
      hexdigest k' (n / 16)%N
      ++ String (match String.get (N.to_nat (n mod 16)%N) "0123456789abcdef" with
                 | Some c => c
                 | None => "0"%char
                 end) EmptyString
  end.

Definition digest (value : string) : string := hexdigest 8 (checksum 5381 value).

(** The same library functions with the digest of fixed length as the keyed
    hash of the token generator *)
Definition framework_with_digest : Framework :=
  Build_Framework urlsafe_base64_decode force_str pk_to_python
                  make_password check_password digest
                  int_to_base36 base36_to_int 259200 "techplaza1@hotmail.com"
                  refresh_token_payload user_tokens
                  strip EmailValidator 100 255.

End Reference.

(** ** Worlds and requests of the examples *)

Module Sample.

Import Reference.

(** 2023-11-14 22:13:20 UTC, in microseconds *)
Definition t0 : Z := 1700000000000000.

Definition minutes (n : Z) : Z := timedelta_minutes n.

Definition jo : User :=
  mkUser 1 "jo@x.com" "Jo" (make_password "s1" "pw1234") false
         (Some "AB12CD") (Some t0).

Definition empty_world : World := mkWorld [] [] [] [].

Definition world_jo : World := mkWorld [jo] [] [] [].

Definition jo_verified : User := set_is_verified jo true.

Definition world_jo_verified : World := mkWorld [jo_verified] [] [] [].

(** The reset token issued to [jo] at [t0], and [jo] after a change of
    password *)
Definition token_jo : string := make_token (F := framework) jo t0.

Definition jo_changed : User := set_password (F := framework) "s2" jo "newpass1".

Definition world_jo_changed : World := mkWorld [jo_changed] [] [] [].

(** A verified account whose e-mail is long enough for the login *)
Definition joanna : User :=
  mkUser 2 "joanna@x.com" "Joanna" (make_password "s1" "pw1234") true
         (Some "XY34ZT") (Some t0).

Definition world_joanna : World := mkWorld [joanna] [] [] [].

Definition token_joanna : string := make_token (F := framework) joanna t0.

(** The reset token issued to [jo] at [t0] when the keyed hash is the digest
    of fixed length *)
Definition digest_token_jo : string := make_token (F := framework_with_digest) jo t0.

Definition register_joanna : RegisterData :=
  mkRegisterData "Joanna" "joanna@x.com" "pw1234" "pw1234".

(** A refresh token that expires a day after [t0] *)
Definition refresh_jo : string := "1700086400.refresh1".

Definition register_jo : RegisterData :=
  mkRegisterData "Jo" "jo@x.com" "pw1234" "pw1234".

(** A random source that always draws the same position *)
Definition draw_7 (i : nat) : nat := 7.

End Sample.

(** The row change made by a reset of the password of the user with key [pk] *)
Definition with_new_password (pk : Z) (encoded : string) (x : User) : User :=
  if Z.eqb (id x) pk then set_encoded_password x encoded else x.

(** The row change made by an update of the account with key [pk] *)
Definition with_account_info (pk : Z) (d : UpdateData) (x : User) : User :=
  if Z.eqb (id x) pk then UpdateAccountInfoSerializer_update x d else x.

(** What the validation of the field [email] of an update answers, as a
    function of the table *)
Definition update_email_result {F : Framework} (us : list User) (instance : User)
    (data : string) : list string + string :=
  match CharField_run_validation model_email_field
          (UniqueValidator us (Some instance)) data with
  | inl errors => inl errors
  | inr value =>
      if queryset_exists (filter_email value us)
      then inl ["This email is already in use."]
      else inr value
  end.

(** What the validation of the fields of an update answers, as a function of
    the table *)
Definition update_fields_result {F : Framework} (us : list User) (instance : User)
    (d : UpdateData) : list (string * list string) + UpdateData :=
  let full_name_ :=
    option_map (CharField_run_validation model_full_name_field (fun _ => []))
               (ud_full_name d) in
  let email_ := option_map (update_email_result us instance) (ud_email d) in
  match (match full_name_ with Some r => errors_of "full_name" r | None => [] end
         ++ match email_ with Some r => errors_of "email" r | None => [] end)%list with
  | [] => inr (mkUpdateData (option_map value_of full_name_) (option_map value_of email_))
  | errors => inl errors
  end.

(** The exception of a login with bad credentials *)
Definition invalid_credentials : exn :=
  AuthenticationFailed "Sorry the cerdentials are invalid" None.

(** The exception of a login to an unverified account *)
Definition not_verified : exn :=
  AuthenticationFailed "User's Email isn't verified" None.

(** [serializer.errors] when the e-mail validator refuses the value *)
Definition email_in_use_errors : json :=
  JObj [("email", JList [JStr "This email is already in use."])].

(** The row change made by a successful verification *)
Definition mark_verified (u : User) (x : User) : User :=
  if Z.eqb (id x) (id u) then set_is_verified x true else x.

(** The exception of a logout whose token is refused *)
Definition bad_token_error : exn := ValidationError "Token expired" (Some "bad_token").

(** * Properties *)

(** ** The user table *)

Lemma objects_get_email_unique (value : string) (u : User) (w : World) :
  filter_email value (users w) = [u] ->
  objects_get_email value w = (Ret u, w).
Proof.
  intros H. unfold objects_get_email, bind, get_world. now rewrite H.
Qed.

Lemma objects_get_email_missing (value : string) (w : World) :
  filter_email value (users w) = [] ->
  objects_get_email value w = (Raise DoesNotExist, w).
Proof.
  intros H. unfold objects_get_email, bind, get_world. now rewrite H.
Qed.

Lemma filter_email_In (value : string) (u : User) (us : list User) :
  In u (filter_email value us) <-> In u us /\ email u = value.
Proof.
  unfold filter_email. rewrite filter_In. now rewrite String.eqb_eq.
Qed.

Lemma filter_id_In (pk : Z) (u : User) (us : list User) :
  In u (filter_id pk us) <-> In u us /\ id u = pk.
Proof.
  unfold filter_id. rewrite filter_In. now rewrite Z.eqb_eq.
Qed.

Lemma queryset_exists_In (rows : list User) :
  queryset_exists rows = true <-> exists u, In u rows.
Proof.
  destruct rows as [|r rows]; simpl; split; intros H.
  - discriminate.
  - now destruct H.
  - exists r. now left.
  - reflexivity.
Qed.

(** A row update that keeps the e-mail of every row commutes with the
    selection by e-mail. *)
Lemma filter_email_map (g : User -> User) (value : string) (us : list User) :
  (forall x, email (g x) = email x) ->
  filter_email value (map g us) = map g (filter_email value us).
Proof.
  intros Hg. unfold filter_email.
  induction us as [|x us IH]; simpl; [reflexivity|].
  rewrite Hg. destruct (String.eqb (email x) value); simpl; now rewrite IH.
Qed.

Lemma NoDup_map_id_eq (u x : User) (us : list User) :
  NoDup (map id us) -> In u us -> In x us -> id x = id u -> x = u.
Proof.
  induction us as [|y us IH]; simpl; intros Hnd Hu Hx Hid; [contradiction|].
  inversion Hnd as [|? ? Hnotin Hnd']; subst.
  destruct Hu as [Hu|Hu], Hx as [Hx|Hx]; subst.
  - reflexivity.
  - exfalso. apply Hnotin. rewrite <- Hid. now apply in_map.
  - exfalso. apply Hnotin. rewrite Hid. now apply in_map.
  - now apply IH.
Qed.

Lemma save_existing (u' : User) (w : World) :
  (exists u, In u (users w) /\ id u = id u') ->
  save u' w = (Ret tt, with_users w (update_row u' (users w))).
Proof.
  intros [u [Hin Hid]]. unfold save, bind, get_world.
  assert (E : queryset_exists (filter_id (id u') (users w)) = true).
  { apply queryset_exists_In. exists u. now apply filter_id_In. }
  now rewrite E.
Qed.

(** Saving a changed copy of the only row with that key changes that row
    and no other. *)
Lemma update_row_pointwise (u : User) (g : User -> User) (us : list User) :
  NoDup (map id us) -> In u us -> id (g u) = id u ->
  update_row (g u) us = map (fun x => if Z.eqb (id x) (id u) then g x else x) us.
Proof.
  intros Hnd Hin Hid. unfold update_row. rewrite Hid.
  apply map_ext_in. intros x Hx.
  destruct (Z.eqb (id x) (id u)) eqn:E; [|reflexivity].
  apply Z.eqb_eq in E. now rewrite (NoDup_map_id_eq u x us Hnd Hin Hx E).
Qed.

(** ** OTP verification *)

Lemma falsy_Some (s : string) : s <> "" -> falsy (Some s) = false.
Proof.
  intros H. simpl. now apply String.eqb_neq.
Qed.

(** The three ways a verification that reaches the lookup can end. *)
Lemma VerifyEmail_post_found (now : Z) (submitted email_ : string) (u : User) (w : World) :
  submitted <> "" -> email_ <> "" ->
  filter_email email_ (users w) = [u] ->
  VerifyEmail_post now (mkVerifyRequest (Some submitted) (Some email_)) w =
    match otp_condition now u (Some submitted) w with
    | (Ret true, _) =>
        (Ret otp_verified_response, snd (save (set_is_verified u true) w))
    | (Ret false, _) => (Ret otp_invalid_response, w)
    | (Raise e, _) => (Raise e, w)
    end.
Proof.
  intros Hs He Hu. unfold VerifyEmail_post. cbn [vr_otp vr_email].
  rewrite (falsy_Some _ Hs), (falsy_Some _ He). cbn [orb].
  unfold try_except, bind at 1.
  rewrite (objects_get_email_unique _ _ _ Hu).
  unfold bind at 1. unfold otp_condition.
  destruct (option_string_eqb (otp u) (Some submitted)).
  - destruct (otp_created_at u) as [created|].
    + unfold ret at 1 3.
      destruct (now - created <=? timedelta_minutes otp_valid_duration).
      * unfold bind, ret.
        assert (Hsave : fst (save (set_is_verified u true) w) = Ret tt).
        { unfold save, bind, get_world, put_world.
          now destruct (queryset_exists _). }
        destruct (save (set_is_verified u true) w) as [o w']. simpl in Hsave.
        now subst o.
      * reflexivity.
    + unfold raise. reflexivity.
  - reflexivity.
Qed.

Lemma option_string_eqb_Some (o : option string) (s : string) :
  option_string_eqb o (Some s) = true <-> o = Some s.
Proof.
  destruct o as [x|]; simpl.
  - rewrite String.eqb_eq. split; congruence.
  - split; discriminate.
Qed.

(** C5: a verification attempt on an existing user succeeds exactly when the
    submitted code is the stored one and at most 15 minutes have passed since
    [otp_created_at]; once more than 15 minutes have passed it is answered
    with "Invalid or expired OTP." whatever the code; and an attempt that
    does not succeed leaves the world as it was. *)
Theorem VerifyEmail_post_window (now : Z) (submitted email_ : string) (u : User) (w : World) :
  submitted <> "" -> email_ <> "" ->
  filter_email email_ (users w) = [u] ->
  (succeeds (fst (VerifyEmail_post now (mkVerifyRequest (Some submitted) (Some email_)) w)) = true
   <-> (otp u = Some submitted /\
        exists created, otp_created_at u = Some created /\
                        now - created <= timedelta_minutes 15))
  /\ (forall created,
        otp_created_at u = Some created ->
        timedelta_minutes 15 < now - created ->
        fst (VerifyEmail_post now (mkVerifyRequest (Some submitted) (Some email_)) w)
        = Ret otp_invalid_response)
  /\ (succeeds (fst (VerifyEmail_post now (mkVerifyRequest (Some submitted) (Some email_)) w)) = false ->
      snd (VerifyEmail_post now (mkVerifyRequest (Some submitted) (Some email_)) w) = w).
Proof.
  intros Hs He Hu.
  rewrite (VerifyEmail_post_found now submitted email_ u w Hs He Hu).
  unfold otp_condition, otp_valid_duration.
  destruct (option_string_eqb (otp u) (Some submitted)) eqn:Eotp.
  - apply option_string_eqb_Some in Eotp.
    destruct (otp_created_at u) as [created|] eqn:Ecreated.
    + unfold ret.
      destruct (now - created <=? timedelta_minutes 15) eqn:Ewin.
      * apply Z.leb_le in Ewin. repeat split.
        -- exact Eotp.
        -- exists created. now split.
        -- intros c Hc Hlate. injection Hc as <-. lia.
        -- simpl. discriminate.
      * apply Z.leb_gt in Ewin. repeat split.
        -- simpl in H. discriminate.
        -- simpl in H. discriminate.
        -- intros [_ [c [Hc Hle]]]. injection Hc as <-. lia.
    + unfold raise. repeat split.
      * simpl in H. discriminate.
      * simpl in H. discriminate.
      * intros [_ [c [Hc _]]]. discriminate.
      * intros c Hc. discriminate.
  - assert (Hne : otp u <> Some submitted).
    { intros E. apply option_string_eqb_Some in E. congruence. }
    unfold ret. repeat split.
    + simpl in H. discriminate.
    + simpl in H. discriminate.
    + intros [E _]. contradiction.
Qed.

Lemma update_row_same (u : User) (us : list User) :
  NoDup (map id us) -> In u us -> update_row u us = us.
Proof.
  intros Hnd Hin. unfold update_row.
  rewrite <- (map_id us) at 2. apply map_ext_in. intros x Hx.
  destruct (Z.eqb (id x) (id u)) eqn:E; [|reflexivity].
  apply Z.eqb_eq in E. symmetry. exact (NoDup_map_id_eq u x us Hnd Hin Hx E).
Qed.

Lemma map_id_preserved (g : User -> User) (us : list User) :
  (forall x, id (g x) = id x) -> map id (map g us) = map id us.
Proof.
  intros Hg. rewrite map_map. apply map_ext. exact Hg.
Qed.

Lemma mark_verified_email (u x : User) : email (mark_verified u x) = email x.
Proof. unfold mark_verified. now destruct (Z.eqb (id x) (id u)). Qed.

Lemma mark_verified_id (u x : User) : id (mark_verified u x) = id x.
Proof. unfold mark_verified. now destruct (Z.eqb (id x) (id u)). Qed.

Lemma mark_verified_self (u : User) : mark_verified u u = set_is_verified u true.
Proof. unfold mark_verified. now rewrite Z.eqb_refl. Qed.

Lemma save_verified (u : User) (w : World) :
  NoDup (map id (users w)) -> In u (users w) ->
  save (set_is_verified u true) w
  = (Ret tt, with_users w (map (mark_verified u) (users w))).
Proof.
  intros Hnd Hin. rewrite save_existing.
  - f_equal. f_equal.
    exact (update_row_pointwise u (fun x => set_is_verified x true) (users w) Hnd Hin eq_refl).
  - exists u. now split.
Qed.

(** C6: a successful verification sets [is_verified] on the row of the user
    and changes nothing else: [otp] and [otp_created_at] keep their values,
    the other rows, the blacklist, the mail and the log are untouched.  So
    the same request succeeds again while the 15 minutes last, and is
    answered with "Invalid or expired OTP." afterwards. *)
Theorem VerifyEmail_post_success_frame (now : Z) (submitted email_ : string)
    (u : User) (w w' : World) :
  submitted <> "" -> email_ <> "" ->
  NoDup (map id (users w)) ->
  filter_email email_ (users w) = [u] ->
  succeeds (fst (VerifyEmail_post now (mkVerifyRequest (Some submitted) (Some email_)) w)) = true ->
  w' = snd (VerifyEmail_post now (mkVerifyRequest (Some submitted) (Some email_)) w) ->
  w' = with_users w (map (mark_verified u) (users w))
  /\ filter_email email_ (users w') = [set_is_verified u true]
  /\ mark_verified u u
     = mkUser (id u) (email u) (full_name u) (password u) true (otp u) (otp_created_at u)
  /\ (forall x, In x (users w) -> x <> u -> mark_verified u x = x)
  /\ exists created,
       otp_created_at u = Some created /\
       forall now2,
         (now2 - created <= timedelta_minutes 15 ->
          VerifyEmail_post now2 (mkVerifyRequest (Some submitted) (Some email_)) w'
          = (Ret otp_verified_response, w'))
         /\ (timedelta_minutes 15 < now2 - created ->
             VerifyEmail_post now2 (mkVerifyRequest (Some submitted) (Some email_)) w'
             = (Ret otp_invalid_response, w')).
Proof.
  intros Hs He Hnd Hu Hok Hw'.
  assert (Hin : In u (users w)).
  { apply (filter_email_In email_). rewrite Hu. now left. }
  rewrite (VerifyEmail_post_found now submitted email_ u w Hs He Hu) in Hok, Hw'.
  unfold otp_condition, otp_valid_duration in Hok, Hw'.
  destruct (option_string_eqb (otp u) (Some submitted)) eqn:Eotp;
    [|simpl in Hok; discriminate].
  destruct (otp_created_at u) as [created|] eqn:Ecreated;
    [|simpl in Hok; discriminate].
  unfold ret in Hok, Hw'.
  destruct (now - created <=? timedelta_minutes 15) eqn:Ewin;
    [|simpl in Hok; discriminate].
  rewrite (save_verified u w Hnd Hin) in Hw'. simpl in Hw'.
  assert (Hu' : filter_email email_ (users w') = [set_is_verified u true]).
  { subst w'. cbn [users with_users].
    rewrite (filter_email_map _ _ _ (mark_verified_email u)), Hu. simpl.
    now rewrite mark_verified_self. }
  assert (Hnd' : NoDup (map id (users w'))).
  { subst w'. cbn [users with_users].
    now rewrite (map_id_preserved _ _ (mark_verified_id u)). }
  assert (Hin' : In (set_is_verified u true) (users w')).
  { apply (filter_email_In email_). rewrite Hu'. now left. }
  split; [exact Hw'|]. split; [exact Hu'|].
  split; [rewrite mark_verified_self; unfold set_is_verified; now rewrite Ecreated|].
  split.
  - intros x Hx Hne. unfold mark_verified.
    destruct (Z.eqb_spec (id x) (id u)) as [E|_]; [|reflexivity].
    destruct Hne. exact (NoDup_map_id_eq u x (users w) Hnd Hin Hx E).
  - exists created. split; [reflexivity|]. intros now2.
    rewrite (VerifyEmail_post_found now2 submitted email_ _ w' Hs He Hu').
    unfold otp_condition, otp_valid_duration.
    cbn [otp otp_created_at set_is_verified]. rewrite Eotp, Ecreated. unfold ret.
    split; intros Hnow2.
    + apply Z.leb_le in Hnow2. rewrite Hnow2.
      f_equal. unfold save, bind, get_world, put_world.
      assert (E : queryset_exists
                    (filter_id (id (set_is_verified (set_is_verified u true) true)) (users w'))
                  = true).
      { apply queryset_exists_In. exists (set_is_verified u true).
        now apply filter_id_In. }
      rewrite E. cbn [snd].
      change (set_is_verified (set_is_verified u true) true) with (set_is_verified u true).
      rewrite (update_row_same _ _ Hnd' Hin'). now destruct w'.
    + apply Z.leb_gt in Hnow2. now rewrite Hnow2.
Qed.

(** C7, as stated, fails: for the same request the answer to an unknown
    e-mail, "User does not exist.", is not the answer given when the account
    exists and the code is wrong, "Invalid or expired OTP.", so the caller
    learns whether the account exists. *)
Lemma VerifyEmail_post_unknown_email_not_generic :
  fst (VerifyEmail_post Sample.t0 (mkVerifyRequest (Some "ZZZZZZ") (Some "jo@x.com"))
                        Sample.empty_world)
  = Ret user_missing_response
  /\ fst (VerifyEmail_post Sample.t0 (mkVerifyRequest (Some "ZZZZZZ") (Some "jo@x.com"))
                           Sample.world_jo)
     = Ret otp_invalid_response
  /\ fst (VerifyEmail_post Sample.t0 (mkVerifyRequest (Some "ZZZZZZ") (Some "jo@x.com"))
                           Sample.empty_world)
     <> fst (VerifyEmail_post Sample.t0 (mkVerifyRequest (Some "ZZZZZZ") (Some "jo@x.com"))
                              Sample.world_jo).
Proof.
  repeat split; try reflexivity.
  vm_compute. discriminate.
Qed.

(** C7, amended: a verification request whose e-mail matches no user is
    answered with status 400 and "User does not exist."; the line naming the
    e-mail goes to the log and nothing else changes.  The answer differs
    from the one a wrong code gets on an existing account. *)
Theorem VerifyEmail_post_unknown_email (now : Z) (submitted email_ : string) (w : World) :
  submitted <> "" -> email_ <> "" ->
  filter_email email_ (users w) = [] ->
  VerifyEmail_post now (mkVerifyRequest (Some submitted) (Some email_)) w
  = (Ret user_missing_response,
     with_log w (log w ++ ["User with email " ++ email_ ++ " does not exist."]))
  /\ status user_missing_response = HTTP_400_BAD_REQUEST
  /\ (forall (w2 : World) (u : User),
        filter_email email_ (users w2) = [u] ->
        otp u <> Some submitted ->
        fst (VerifyEmail_post now (mkVerifyRequest (Some submitted) (Some email_)) w2)
        = Ret otp_invalid_response)
  /\ user_missing_response <> otp_invalid_response.
Proof.
  intros Hs He Hnone. repeat split.
  - unfold VerifyEmail_post. cbn [vr_otp vr_email].
    rewrite (falsy_Some _ Hs), (falsy_Some _ He). cbn [orb].
    unfold try_except, bind at 1.
    now rewrite (objects_get_email_missing _ _ Hnone).
  - intros w2 u Hu Hne.
    rewrite (VerifyEmail_post_found now submitted email_ u w2 Hs He Hu).
    unfold otp_condition.
    destruct (option_string_eqb (otp u) (Some submitted)) eqn:E; [|reflexivity].
    apply option_string_eqb_Some in E. contradiction.
  - discriminate.
Qed.

(** *** Instances on a concrete account *)

Lemma VerifyEmail_post_window_witness :
  "AB12CD" <> "" /\ "jo@x.com" <> "" /\
  filter_email "jo@x.com" (users Sample.world_jo) = [Sample.jo] /\
  succeeds (fst (VerifyEmail_post (Sample.t0 + Sample.minutes 15)
                   (mkVerifyRequest (Some "AB12CD") (Some "jo@x.com")) Sample.world_jo))
  = true /\
  fst (VerifyEmail_post (Sample.t0 + Sample.minutes 15 + 1000000)
         (mkVerifyRequest (Some "AB12CD") (Some "jo@x.com")) Sample.world_jo)
  = Ret otp_invalid_response.
Proof.
  assert (Hs : "AB12CD" <> "") by discriminate.
  assert (He : "jo@x.com" <> "") by discriminate.
  assert (Hu : filter_email "jo@x.com" (users Sample.world_jo) = [Sample.jo])
    by reflexivity.
  split; [exact Hs|]. split; [exact He|]. split; [exact Hu|]. split.
  - apply (proj1 (VerifyEmail_post_window (Sample.t0 + Sample.minutes 15)
                    "AB12CD" "jo@x.com" Sample.jo Sample.world_jo Hs He Hu)).
    split; [reflexivity|].
    exists Sample.t0. split; [reflexivity|]. vm_compute. discriminate.
  - apply (proj1 (proj2 (VerifyEmail_post_window (Sample.t0 + Sample.minutes 15 + 1000000)
                    "AB12CD" "jo@x.com" Sample.jo Sample.world_jo Hs He Hu))
             Sample.t0); [reflexivity|reflexivity].
Defined.

Lemma VerifyEmail_post_success_frame_witness :
  NoDup (map id (users Sample.world_jo)) /\
  VerifyEmail_post (Sample.t0 + Sample.minutes 5)
    (mkVerifyRequest (Some "AB12CD") (Some "jo@x.com")) Sample.world_jo
  = (Ret otp_verified_response, Sample.world_jo_verified) /\
  exists created,
    otp_created_at Sample.jo = Some created /\
    forall now2,
      (now2 - created <= timedelta_minutes 15 ->
       VerifyEmail_post now2 (mkVerifyRequest (Some "AB12CD") (Some "jo@x.com"))
                        Sample.world_jo_verified
       = (Ret otp_verified_response, Sample.world_jo_verified))
      /\ (timedelta_minutes 15 < now2 - created ->
          VerifyEmail_post now2 (mkVerifyRequest (Some "AB12CD") (Some "jo@x.com"))
                           Sample.world_jo_verified
          = (Ret otp_invalid_response, Sample.world_jo_verified)).
Proof.
  assert (Hnd : NoDup (map id (users Sample.world_jo))).
  { simpl. constructor; [intros []|constructor]. }
  split; [exact Hnd|]. split; [reflexivity|].
  assert (Hs : "AB12CD" <> "") by discriminate.
  assert (He : "jo@x.com" <> "") by discriminate.
  exact (proj2 (proj2 (proj2 (proj2
    (VerifyEmail_post_success_frame (Sample.t0 + Sample.minutes 5)
       "AB12CD" "jo@x.com" Sample.jo Sample.world_jo Sample.world_jo_verified
       Hs He Hnd eq_refl eq_refl eq_refl))))).
Defined.

Lemma VerifyEmail_post_unknown_email_witness :
  "ZZZZZZ" <> "" /\ "jo@x.com" <> "" /\
  filter_email "jo@x.com" (users Sample.empty_world) = [] /\
  VerifyEmail_post Sample.t0 (mkVerifyRequest (Some "ZZZZZZ") (Some "jo@x.com"))
                   Sample.empty_world
  = (Ret user_missing_response,
     mkWorld [] [] [] ["User with email jo@x.com does not exist."]).
Proof.
  assert (Hs : "ZZZZZZ" <> "") by discriminate.
  assert (He : "jo@x.com" <> "") by discriminate.
  split; [exact Hs|]. split; [exact He|]. split; [reflexivity|].
  exact (proj1 (VerifyEmail_post_unknown_email Sample.t0 "ZZZZZZ" "jo@x.com"
                  Sample.empty_world Hs He eq_refl)).
Defined.

(** ** Validation of the fields *)

Section FieldProperties.

Context {F : Framework}.

Lemma run_validators_app (field : CharField) (validators : string -> list string)
    (value : string) :
  run_validators field validators value
  = (validators value ++ run_validators field (fun _ => []) value)%list.
Proof. reflexivity. Qed.

(** A field that accepts the text returns it trimmed; the text is not blank
    and every validator passes. *)
Lemma CharField_run_validation_inr (field : CharField)
    (validators : string -> list string) (data value : string) :
  CharField_run_validation field validators data = inr value ->
  value = strip data /\ data <> "" /\ value <> ""
  /\ validators value = [] /\ run_validators field (fun _ => []) value = [].
Proof.
  unfold CharField_run_validation. intros H.
  destruct (String.eqb_spec data "") as [E1|E1]; [discriminate|].
  destruct (String.eqb_spec (strip data) "") as [E2|E2]; [discriminate|].
  cbn [orb] in H.
  destruct (run_validators field validators (strip data)) as [|e errors] eqn:E;
    [|discriminate].
  injection H as <-. rewrite run_validators_app in E.
  apply app_eq_nil in E. destruct E as [Ev Ef].
  repeat split; assumption.
Qed.

Lemma CharField_run_validation_valid (field : CharField)
    (validators : string -> list string) (data : string) :
  data <> "" -> strip data <> "" ->
  run_validators field validators (strip data) = [] ->
  CharField_run_validation field validators data = inr (strip data).
Proof.
  intros H1 H2 H3. unfold CharField_run_validation.
  apply String.eqb_neq in H1. apply String.eqb_neq in H2.
  now rewrite H1, H2, H3.
Qed.

Lemma errors_of_nil (field_name : string) (r : list string + string) :
  errors_of field_name r = [] -> r = inr (value_of r).
Proof. destruct r; [discriminate|reflexivity]. Qed.

Lemma LoginSerializer_to_internal_value_inr (data attrs : LoginAttrs) :
  LoginSerializer_to_internal_value data = inr attrs ->
  CharField_run_validation login_email_field (fun _ => []) (la_email data)
  = inr (la_email attrs)
  /\ CharField_run_validation password_field (fun _ => []) (la_password data)
     = inr (la_password attrs).
Proof.
  unfold LoginSerializer_to_internal_value. intros H.
  destruct (CharField_run_validation login_email_field _ (la_email data)) as [e1|v1];
    [discriminate|].
  destruct (CharField_run_validation password_field _ (la_password data)) as [e2|v2];
    [discriminate|].
  cbn in H. injection H as <-. now split.
Qed.

Lemma RegisterSerializer_to_internal_value_inr (us : list User)
    (data attrs : RegisterData) :
  RegisterSerializer_to_internal_value us data = inr attrs ->
  CharField_run_validation model_full_name_field (fun _ => []) (rd_full_name data)
  = inr (rd_full_name attrs)
  /\ CharField_run_validation model_email_field (UniqueValidator us None) (rd_email data)
     = inr (rd_email attrs)
  /\ CharField_run_validation password_field (fun _ => []) (rd_password1 data)
     = inr (rd_password1 attrs)
  /\ CharField_run_validation password_field (fun _ => []) (rd_password2 data)
     = inr (rd_password2 attrs).
Proof.
  unfold RegisterSerializer_to_internal_value. intros H.
  destruct (CharField_run_validation model_full_name_field _ (rd_full_name data))
    as [e1|v1]; [discriminate|].
  destruct (CharField_run_validation model_email_field _ (rd_email data))
    as [e2|v2]; [discriminate|].
  destruct (CharField_run_validation password_field _ (rd_password1 data))
    as [e3|v3]; [discriminate|].
  destruct (CharField_run_validation password_field _ (rd_password2 data))
    as [e4|v4]; [discriminate|].
  cbn in H. injection H as <-. now repeat split.
Qed.

Lemma NewPasswordSerializer_to_internal_value_inr (data attrs : NewPasswordAttrs) :
  NewPasswordSerializer_to_internal_value data = inr attrs ->
  CharField_run_validation password_field (fun _ => []) (np_password data)
  = inr (np_password attrs)
  /\ CharField_run_validation password_field (fun _ => []) (np_password_confirm data)
     = inr (np_password_confirm attrs)
  /\ CharField_run_validation text_field (fun _ => []) (np_uidb64 data)
     = inr (np_uidb64 attrs)
  /\ CharField_run_validation text_field (fun _ => []) (np_token data)
     = inr (np_token attrs).
Proof.
  unfold NewPasswordSerializer_to_internal_value. intros H.
  destruct (CharField_run_validation password_field _ (np_password data))
    as [e1|v1]; [discriminate|].
  destruct (CharField_run_validation password_field _ (np_password_confirm data))
    as [e2|v2]; [discriminate|].
  destruct (CharField_run_validation text_field _ (np_uidb64 data))
    as [e3|v3]; [discriminate|].
  destruct (CharField_run_validation text_field _ (np_token data))
    as [e4|v4]; [discriminate|].
  cbn in H. injection H as <-. now repeat split.
Qed.

Lemma LogoutSerializer_to_internal_value_inr (data token : string) :
  LogoutSerializer_to_internal_value data = inr token ->
  token = strip data /\ token <> "".
Proof.
  unfold LogoutSerializer_to_internal_value. intros H.
  destruct (CharField_run_validation text_field (fun _ => []) data) as [e|v] eqn:E;
    [discriminate|].
  cbn in H. injection H as <-.
  apply CharField_run_validation_inr in E. now destruct E as [E1 [_ [E2 _]]].
Qed.

Lemma PasswordResetSerializer_to_internal_value_inr (data email_ : string) :
  PasswordResetSerializer_to_internal_value data = inr email_ ->
  CharField_run_validation reset_email_field (fun _ => []) data = inr email_.
Proof.
  unfold PasswordResetSerializer_to_internal_value. intros H.
  destruct (CharField_run_validation reset_email_field (fun _ => []) data) as [e|v];
    [discriminate|].
  cbn in H. now injection H as <-.
Qed.

(** What [is_valid(raise_exception=True)] makes of the two steps of the
    validation *)
Lemma is_valid_refused {A B} (key : string) (errors : list (string * list string))
    (validate : A -> M B) (w : World) :
  is_valid true key (run_validation (inl errors) validate) w
  = (Raise (ValidationErrorDict errors), w).
Proof. reflexivity. Qed.

Lemma is_valid_accepted {A B} (key : string) (value : A) (validate : A -> M B)
    (w : World) :
  is_valid true key (run_validation (inr value) validate) w
  = is_valid true key (validate value) w.
Proof. reflexivity. Qed.

End FieldProperties.

(** ** Login *)

Section LoginProperties.

Context {F : Framework}.

Lemma authenticate_unknown (email_ password_ : string) (w : World) :
  filter_email email_ (users w) = [] ->
  authenticate email_ password_ w = (Ret None, w).
Proof.
  intros H. unfold authenticate, try_except, bind at 1.
  now rewrite (objects_get_email_missing _ _ H).
Qed.

Lemma authenticate_known (email_ password_ : string) (u : User) (w : World) :
  filter_email email_ (users w) = [u] ->
  authenticate email_ password_ w
  = (Ret (if check_password password_ (password u) then Some u else None), w).
Proof.
  intros H. unfold authenticate, try_except, bind at 1.
  rewrite (objects_get_email_unique _ _ _ H).
  now destruct (check_password password_ (password u)).
Qed.

(** A login whose fields are refused does not reach [validate]. *)
Lemma LoginView_post_refused (now : Z) (data : LoginAttrs)
    (errors : list (string * list string)) (w : World) :
  LoginSerializer_to_internal_value data = inl errors ->
  LoginView_post now data w = (Raise (ValidationErrorDict errors), w).
Proof.
  intros H. unfold LoginView_post, bind. now rewrite H.
Qed.

Lemma LoginView_post_raises (now : Z) (data attrs : LoginAttrs) (w : World) (e : exn) :
  LoginSerializer_to_internal_value data = inr attrs ->
  LoginSerializer_validate now attrs w = (Raise e, w) ->
  LoginView_post now data w = (Raise e, w).
Proof.
  intros Hf H. unfold LoginView_post, bind. rewrite Hf.
  cbn [run_validation]. unfold is_valid. rewrite H.
  now destruct e.
Qed.


End LoginProperties.



(** ** Account update *)

Section UpdateProperties.

Context {F : Framework}.

Lemma UpdateAccountInfoSerializer_email_pure (instance : User) (data : string)
    (w : World) :
  UpdateAccountInfoSerializer_email instance data w
  = (Ret (update_email_result (users w) instance data), w).
Proof.
  unfold UpdateAccountInfoSerializer_email, update_email_result, bind at 1.
  unfold get_world.
  destruct (CharField_run_validation model_email_field
              (UniqueValidator (users w) (Some instance)) data) as [errors|value];
    [reflexivity|].
  unfold try_except, bind at 1.
  unfold UpdateAccountInfoSerializer_validate_email, bind at 1. unfold get_world.
  now destruct (queryset_exists (filter_email value (users w))).
Qed.

Lemma UpdateAccountInfoSerializer_to_internal_value_pure (instance : User)
    (d : UpdateData) (w : World) :
  UpdateAccountInfoSerializer_to_internal_value instance d w
  = (Ret (update_fields_result (users w) instance d), w).
Proof.
  unfold UpdateAccountInfoSerializer_to_internal_value, update_fields_result.
  destruct (ud_email d) as [data|]; unfold bind at 1.
  - unfold bind at 1. rewrite UpdateAccountInfoSerializer_email_pure.
    unfold ret at 1. cbn [option_map].
    destruct (_ ++ _)%list; reflexivity.
  - unfold ret at 1. cbn [option_map].
    destruct (_ ++ _)%list; reflexivity.
Qed.

(** What an update answers, by the validation of its fields *)
Lemma UpdateInformationView_patch_cases (caller : User) (d : UpdateData) (w : World) :
  UpdateInformationView_patch caller d w =
    match update_fields_result (users w) caller d with
    | inl errors => (Ret (mkResponse (errors_json errors) HTTP_400_BAD_REQUEST), w)
    | inr attrs =>
        (Ret (mkResponse
                (UpdateAccountInfoSerializer_data
                   (UpdateAccountInfoSerializer_update caller attrs))
                HTTP_200_OK),
         snd (save (UpdateAccountInfoSerializer_update caller attrs) w))
    end.
Proof.
  assert (Hsave : forall u, fst (save u w) = Ret tt).
  { intros u. unfold save, bind, get_world, put_world.
    now destruct (queryset_exists _). }
  unfold UpdateInformationView_patch, bind at 1.
  unfold is_valid, UpdateAccountInfoSerializer_run_validation, bind at 1.
  rewrite UpdateAccountInfoSerializer_to_internal_value_pure.
  destruct (update_fields_result (users w) caller d) as [errors|attrs];
    cbn [run_validation]; [reflexivity|].
  unfold ret at 1. unfold bind at 1.
  specialize (Hsave (UpdateAccountInfoSerializer_update caller attrs)).
  destruct (save _ w) as [o w']. simpl in Hsave. now subst o.
Qed.

(** C10: when a user record has the supplied e-mail (the value of the field,
    trimmed and well formed), the update is answered with status 400 and an
    error of the field [email] that says the e-mail is taken, and the table
    is left as it was.  The record may be the caller's own: when only the
    caller has the e-mail the message is "This email is already in use.",
    raised by [validate_email]; when another user has it the message is the
    one of the unique validator of the field. *)
Theorem UpdateInformationView_patch_email_in_use (caller : User) (name : option string)
    (value : string) (w : World) :
  value <> "" -> strip value <> "" ->
  run_validators model_email_field (fun _ => []) (strip value) = [] ->
  (exists u, In u (users w) /\ email u = strip value) ->
  UpdateAccountInfoSerializer_validate_email (strip value) w
  = (Raise (ValidationError "This email is already in use." None), w)
  /\ exists msg errors,
       UpdateInformationView_patch caller (mkUpdateData name (Some value)) w
       = (Ret (mkResponse (errors_json errors) HTTP_400_BAD_REQUEST), w)
       /\ In ("email", [msg]) errors
       /\ (msg = "user with this email already exists."
           \/ msg = "This email is already in use.")
       /\ ((forall u, In u (users w) -> email u = strip value -> id u = id caller) ->
           msg = "This email is already in use.")
       /\ (name = None -> errors_json errors = JObj [("email", JList [JStr msg])]).
Proof.
  intros Hne Hstrip Hformat [u [Hin Hmail]].
  assert (Hexists : queryset_exists (filter_email (strip value) (users w)) = true).
  { apply queryset_exists_In. exists u. now apply filter_email_In. }
  split.
  { unfold UpdateAccountInfoSerializer_validate_email, bind, get_world.
    now rewrite Hexists. }
  assert (Hres : exists msg,
             update_email_result (users w) caller value = inl [msg]
             /\ (msg = "user with this email already exists."
                 \/ msg = "This email is already in use.")
             /\ ((forall x, In x (users w) -> email x = strip value -> id x = id caller) ->
                 msg = "This email is already in use.")).
  { unfold update_email_result, CharField_run_validation.
    apply String.eqb_neq in Hne. apply String.eqb_neq in Hstrip.
    rewrite Hne, Hstrip. cbn [orb].
    rewrite run_validators_app, Hformat, app_nil_r.
    unfold UniqueValidator.
    destruct (filter (fun r => negb (Z.eqb (id r) (id caller)))
                     (filter_email (strip value) (users w))) as [|o others] eqn:Eo.
    - cbn [queryset_exists]. rewrite Hexists.
      exists "This email is already in use.". split; [reflexivity|].
      split; [now right|reflexivity].
    - cbn [queryset_exists].
      exists "user with this email already exists.". split; [reflexivity|].
      split; [now left|]. intros Hown.
      assert (Ho : In o (filter (fun r => negb (Z.eqb (id r) (id caller)))
                                (filter_email (strip value) (users w))))
        by (rewrite Eo; now left).
      apply filter_In in Ho. destruct Ho as [Ho Hid].
      apply filter_email_In in Ho. destruct Ho as [Ho Hm].
      apply negb_true_iff, Z.eqb_neq in Hid. now destruct (Hid (Hown o Ho Hm)). }
  destruct Hres as [msg [Hres [Hmsg Hown]]].
  exists msg.
  rewrite UpdateInformationView_patch_cases.
  unfold update_fields_result. cbn [ud_email ud_full_name option_map].
  rewrite Hres. cbn [errors_of].
  destruct name as [n|]; cbn [option_map].
  - destruct (CharField_run_validation model_full_name_field (fun _ => []) n)
      as [e|v]; cbn [errors_of app].
    + exists [("full_name", e); ("email", [msg])].
      split; [reflexivity|]. split; [right; now left|].
      split; [exact Hmsg|]. split; [exact Hown|discriminate].
    + exists [("email", [msg])].
      split; [reflexivity|]. split; [now left|].
      split; [exact Hmsg|]. split; [exact Hown|discriminate].
  - exists [("email", [msg])].
    split; [reflexivity|]. split; [now left|].
    split; [exact Hmsg|]. split; [exact Hown|reflexivity].
Qed.

End UpdateProperties.

Lemma UpdateInformationView_patch_email_in_use_witness :
  "jo@x.com" <> "" /\ strip (Framework := Reference.framework) "jo@x.com" <> "" /\
  run_validators (F := Reference.framework) (model_email_field (F := Reference.framework))
    (fun _ => []) (strip (Framework := Reference.framework) "jo@x.com") = [] /\
  (exists u, In u (users Sample.world_jo)
             /\ email u = strip (Framework := Reference.framework) "jo@x.com") /\
  UpdateInformationView_patch (F := Reference.framework) Sample.jo
    (mkUpdateData None (Some "jo@x.com")) Sample.world_jo
  = (Ret (mkResponse email_in_use_errors HTTP_400_BAD_REQUEST), Sample.world_jo).
Proof.
  assert (H1 : "jo@x.com" <> "") by discriminate.
  assert (H2 : strip (Framework := Reference.framework) "jo@x.com" <> "")
    by (vm_compute; discriminate).
  assert (H3 : run_validators (F := Reference.framework)
                 (model_email_field (F := Reference.framework)) (fun _ => [])
                 (strip (Framework := Reference.framework) "jo@x.com") = [])
    by (vm_compute; reflexivity).
  assert (H4 : exists u, In u (users Sample.world_jo)
                         /\ email u = strip (Framework := Reference.framework) "jo@x.com").
  { exists Sample.jo. split; [now left|reflexivity]. }
  split; [exact H1|]. split; [exact H2|]. split; [exact H3|]. split; [exact H4|].
  destruct (proj2 (UpdateInformationView_patch_email_in_use (F := Reference.framework)
                     Sample.jo None "jo@x.com" Sample.world_jo H1 H2 H3 H4))
    as [msg [errors [Hrun [_ [_ [Hown Hjson]]]]]].
  rewrite Hrun, (Hjson eq_refl), Hown; [reflexivity|].
  intros u [<-|[]] _. reflexivity.
Defined.

(** ** Logout *)

Section LogoutProperties.

Context {F : Framework}.

(** What a logout does, by the validation of the field and the payload of
    the token *)
Lemma LogoutView_post_cases (now : Z) (token : string) (w : World) :
  LogoutView_post now token w =
    match LogoutSerializer_to_internal_value token with
    | inl errors => (Raise (ValidationErrorDict errors), w)
    | inr self_token =>
        match refresh_token_payload self_token with
        | Some (jti, exp) =>
            if (exp <=? now) || existsb (String.eqb jti) (blacklist w)
            then (Raise bad_token_error, w)
            else (Ret (mkResponse JNull HTTP_200_OK),
                  with_blacklist w (blacklist w ++ [jti]))
        | None => (Raise bad_token_error, w)
        end
    end.
Proof.
  unfold LogoutView_post, bind at 1.
  destruct (LogoutSerializer_to_internal_value token) as [errors|self_token];
    [reflexivity|].
  cbn [run_validation]. unfold is_valid, LogoutSerializer_validate, ret at 1.
  unfold bind at 1. unfold LogoutSerializer_save, try_except, bind at 1.
  unfold RefreshToken, bind at 1. unfold lift_option.
  destruct (refresh_token_payload self_token) as [[jti exp]|]; [|reflexivity].
  unfold ret at 1. cbn [fst snd].
  destruct (exp <=? now); [reflexivity|]. cbn [orb].
  unfold bind at 1. unfold get_world.
  destruct (existsb (String.eqb jti) (blacklist w)) eqn:E; [reflexivity|].
  unfold ret at 1. unfold token_blacklist, bind at 1. unfold get_world. rewrite E.
  reflexivity.
Qed.

Lemma existsb_eqb_In (x : string) (l : list string) :
  existsb (String.eqb x) l = true <-> In x l.
Proof.
  rewrite existsb_exists. split.
  - intros [y [Hy E]]. apply String.eqb_eq in E. now subst.
  - intros H. exists x. split; [exact H|apply String.eqb_refl].
Qed.

(** C4, amended: after a logout that succeeded, the [jti] of the token is on
    the blacklist, and a second logout with the same token, at any time,
    raises the validation error "Token expired" and leaves the blacklist as
    it is: the token stays revoked, but the second call is an error. *)
Theorem LogoutView_post_second_call (now1 now2 : Z) (token : string) (w : World) :
  succeeds (fst (LogoutView_post now1 token w)) = true ->
  (exists jti exp,
     refresh_token_payload (strip token) = Some (jti, exp) /\
     In jti (blacklist (snd (LogoutView_post now1 token w))))
  /\ LogoutView_post now2 token (snd (LogoutView_post now1 token w))
     = (Raise bad_token_error, snd (LogoutView_post now1 token w))
  /\ succeeds (fst (LogoutView_post now2 token (snd (LogoutView_post now1 token w))))
     = false.
Proof.
  intros Hok.
  rewrite (LogoutView_post_cases now1) in *.
  destruct (LogoutSerializer_to_internal_value token) as [errors|self_token] eqn:Ef;
    [simpl in Hok; discriminate|].
  destruct (LogoutSerializer_to_internal_value_inr _ _ Ef) as [Hself _].
  destruct (refresh_token_payload self_token) as [[jti exp]|] eqn:Epay;
    [|simpl in Hok; discriminate].
  destruct ((exp <=? now1) || existsb (String.eqb jti) (blacklist w)) eqn:Efirst;
    [simpl in Hok; discriminate|].
  cbn [snd].
  assert (Hin : In jti (blacklist (with_blacklist w (blacklist w ++ [jti])))).
  { cbn [blacklist with_blacklist]. apply in_or_app. right. now left. }
  assert (E2 : LogoutView_post now2 token (with_blacklist w (blacklist w ++ [jti]))
               = (Raise bad_token_error, with_blacklist w (blacklist w ++ [jti]))).
  { rewrite LogoutView_post_cases, Ef, Epay.
    rewrite (proj2 (existsb_eqb_In _ _) Hin). now rewrite orb_true_r. }
  split; [exists jti, exp; rewrite <- Hself; now split|].
  split; [exact E2|]. now rewrite E2.
Qed.

End LogoutProperties.

(** C4, as stated, fails: the first logout with a live token succeeds and
    the second logout with the same token raises a validation error. *)
Lemma LogoutView_post_not_idempotent :
  LogoutView_post (F := Reference.framework) Sample.t0 Sample.refresh_jo Sample.empty_world
  = (Ret (mkResponse JNull HTTP_200_OK), mkWorld [] ["refresh1"] [] [])
  /\ LogoutView_post (F := Reference.framework) Sample.t0 Sample.refresh_jo
       (mkWorld [] ["refresh1"] [] [])
     = (Raise (ValidationError "Token expired" (Some "bad_token")),
        mkWorld [] ["refresh1"] [] [])
  /\ succeeds (fst (LogoutView_post (F := Reference.framework) Sample.t0 Sample.refresh_jo
                      (mkWorld [] ["refresh1"] [] []))) = false.
Proof.
  split; [vm_compute; reflexivity|]. split; vm_compute; reflexivity.
Qed.

Lemma LogoutView_post_second_call_witness :
  succeeds (fst (LogoutView_post (F := Reference.framework) Sample.t0 Sample.refresh_jo
                   Sample.empty_world)) = true /\
  LogoutView_post (F := Reference.framework) (Sample.t0 + Sample.minutes 1)
    Sample.refresh_jo
    (snd (LogoutView_post (F := Reference.framework) Sample.t0 Sample.refresh_jo
            Sample.empty_world))
  = (Raise bad_token_error,
     snd (LogoutView_post (F := Reference.framework) Sample.t0 Sample.refresh_jo
            Sample.empty_world)).
Proof.
  assert (Hok : succeeds (fst (LogoutView_post (F := Reference.framework) Sample.t0
                                 Sample.refresh_jo Sample.empty_world)) = true)
    by (vm_compute; reflexivity).
  split; [exact Hok|].
  exact (proj1 (proj2
    (LogoutView_post_second_call (F := Reference.framework) Sample.t0
       (Sample.t0 + Sample.minutes 1) Sample.refresh_jo Sample.empty_world Hok))).
Defined.

(** ** Registration *)

(** Updating the row appended last, whose key no earlier row has *)
Lemma update_row_last (us : list User) (u u' : User) :
  (forall x, In x us -> id x <> id u) -> id u' = id u ->
  update_row u' (us ++ [u]) = (us ++ [u'])%list.
Proof.
  intros Hfresh Hid. unfold update_row. rewrite map_app. simpl.
  rewrite Hid, Z.eqb_refl. f_equal.
  rewrite <- (map_id us) at 2. apply map_ext_in. intros x Hx.
  destruct (Z.eqb_spec (id x) (id u)) as [E|_]; [|reflexivity].
  now destruct (Hfresh x Hx).
Qed.

Section RegisterProperties.

Context {F : Framework}.

(** The fields of a registration pass only when no row has the e-mail, and
    the values they give are not blank. *)
Lemma RegisterSerializer_accepted (us : list User) (data attrs : RegisterData) :
  RegisterSerializer_to_internal_value us data = inr attrs ->
  filter_email (rd_email attrs) us = [] /\ rd_email attrs <> "".
Proof.
  intros H. apply RegisterSerializer_to_internal_value_inr in H.
  destruct H as [_ [He _]]. apply CharField_run_validation_inr in He.
  destruct He as [_ [_ [Hne [Hunique _]]]]. split; [|exact Hne].
  unfold UniqueValidator in Hunique.
  destruct (filter_email (rd_email attrs) us); [reflexivity|discriminate].
Qed.

(** A registration that validates, up to the sending of the mail *)
Lemma RegisterView_post_valid (now pk : Z) (draw : nat -> nat) (salt : string)
    (delivered : bool) (user_data attrs : RegisterData) (w : World) :
  RegisterSerializer_to_internal_value (users w) user_data = inr attrs ->
  rd_password1 attrs = rd_password2 attrs ->
  (forall x, In x (users w) -> id x <> pk) ->
  RegisterView_post now pk draw salt delivered user_data w =
    let user := registered_user now pk draw salt attrs in
    let w' := with_users w (users w ++ [user]) in
    if delivered
    then (Ret (registered_response user),
          with_outbox w'
            (outbox w ++ [otp_mail (join (random_choices draw (ascii_uppercase ++ digits) 6))
                                   user]))
    else (Raise SMTPException, w').
Proof.
  intros Hfields Hpw Hkey.
  destruct (RegisterSerializer_accepted _ _ _ Hfields) as [Hfresh _].
  unfold RegisterView_post, bind at 1.
  unfold is_valid, RegisterSerializer_run_validation, bind at 1. unfold get_world.
  rewrite Hfields. cbn [run_validation]. unfold RegisterSerializer_validate.
  rewrite <- Hpw, String.eqb_refl. cbn [negb]. unfold ret at 1.
  unfold bind at 1. unfold RegisterSerializer_create, create_user, bind at 1.
  unfold get_world. rewrite Hfresh. cbn [queryset_exists].
  unfold bind at 1. unfold put_world, ret at 1.
  unfold bind at 1.
  rewrite save_existing.
  2:{ cbn [users with_users set_otp id].
      eexists. split; [apply in_or_app; right; left; reflexivity|reflexivity]. }
  cbn [users with_users].
  rewrite (update_row_last (users w) _ _).
  2:{ intros x Hx. cbn [id]. exact (Hkey x Hx). }
  2:{ reflexivity. }
  unfold bind at 1. unfold send. cbv zeta.
  destruct delivered.
  - unfold bind at 1. unfold get_world, put_world. cbn. reflexivity.
  - unfold raise. cbn. reflexivity.
Qed.

(** C9, amended: when the mail backend refuses the OTP mail of a
    registration that validated (its fields pass the validation of the
    serializer, no row has the e-mail and the two passwords agree), the
    exception of the backend leaves the view, so the caller gets no 201
    result; the record created for the user, unverified and with its OTP and
    [otp_created_at], stays in the table and no mail is recorded. *)
Theorem RegisterView_post_sink_failure (now pk : Z) (draw : nat -> nat) (salt : string)
    (user_data attrs : RegisterData) (w : World) :
  RegisterSerializer_to_internal_value (users w) user_data = inr attrs ->
  rd_password1 attrs = rd_password2 attrs ->
  (forall x, In x (users w) -> id x <> pk) ->
  RegisterView_post now pk draw salt false user_data w
  = (Raise SMTPException,
     with_users w (users w ++ [registered_user now pk draw salt attrs]))
  /\ succeeds (fst (RegisterView_post now pk draw salt false user_data w)) = false
  /\ is_APIException SMTPException = false
  /\ filter_email (rd_email attrs)
       (users (snd (RegisterView_post now pk draw salt false user_data w)))
     = [registered_user now pk draw salt attrs].
Proof.
  intros Hfields Hpw Hkey.
  destruct (RegisterSerializer_accepted _ _ _ Hfields) as [Hfresh _].
  rewrite (RegisterView_post_valid now pk draw salt false user_data attrs w
             Hfields Hpw Hkey).
  cbv zeta. cbn [fst snd users with_users].
  split; [reflexivity|]. split; [reflexivity|]. split; [reflexivity|].
  unfold filter_email in *. rewrite filter_app, Hfresh. simpl.
  now rewrite String.eqb_refl.
Qed.

End RegisterProperties.

(** C9, as stated, fails: with a mail backend that refuses the message, the
    registration of a new user ends with the exception of the backend
    instead of the 201 result, although the record is in the table. *)
Lemma RegisterView_post_fails_with_sink :
  fst (RegisterView_post (F := Reference.framework) Sample.t0 1 Sample.draw_7 "s1" false
         Sample.register_jo Sample.empty_world)
  = Raise SMTPException
  /\ succeeds (fst (RegisterView_post (F := Reference.framework) Sample.t0 1 Sample.draw_7
                      "s1" false Sample.register_jo Sample.empty_world)) = false
  /\ users (snd (RegisterView_post (F := Reference.framework) Sample.t0 1 Sample.draw_7
                   "s1" false Sample.register_jo Sample.empty_world))
     = [mkUser 1 "jo@x.com" "Jo" "s1$pw1234" false (Some "HHHHHH") (Some Sample.t0)].
Proof.
  split; [vm_compute; reflexivity|]. split; vm_compute; reflexivity.
Qed.

Lemma RegisterView_post_sink_failure_witness :
  RegisterSerializer_to_internal_value (F := Reference.framework)
    (users Sample.empty_world) Sample.register_jo = inr Sample.register_jo /\
  rd_password1 Sample.register_jo = rd_password2 Sample.register_jo /\
  (forall x, In x (users Sample.empty_world) -> id x <> 1) /\
  RegisterView_post (F := Reference.framework) Sample.t0 1 Sample.draw_7 "s1" false
    Sample.register_jo Sample.empty_world
  = (Raise SMTPException,
     mkWorld [mkUser 1 "jo@x.com" "Jo" "s1$pw1234" false (Some "HHHHHH") (Some Sample.t0)]
             [] [] []).
Proof.
  assert (Hf : RegisterSerializer_to_internal_value (F := Reference.framework)
                 (users Sample.empty_world) Sample.register_jo = inr Sample.register_jo)
    by (vm_compute; reflexivity).
  assert (Hkey : forall x, In x (users Sample.empty_world) -> id x <> 1)
    by (intros x []).
  split; [exact Hf|]. split; [reflexivity|]. split; [exact Hkey|].
  exact (proj1
    (RegisterView_post_sink_failure (F := Reference.framework) Sample.t0 1 Sample.draw_7
       "s1" Sample.register_jo Sample.register_jo Sample.empty_world Hf eq_refl Hkey)).
Defined.

(** ** Password reset *)

Lemma append_inv_head (a b c : string) : a ++ b = a ++ c -> b = c.
Proof.
  induction a as [|x a IH]; simpl; intros H; [exact H|].
  injection H as H. now apply IH.
Qed.

Lemma length_append (a b : string) :
  String.length (a ++ b) = (String.length a + String.length b)%nat.
Proof.
  induction a as [|x a IH]; simpl; [reflexivity|]. now rewrite IH.
Qed.

Lemma append_inv_tail (a b c : string) : a ++ c = b ++ c -> a = b.
Proof.
  revert b. induction a as [|x a IH]; intros [|y b] H; simpl in H.
  - reflexivity.
  - apply (f_equal String.length) in H. simpl in H. rewrite length_append in H. lia.
  - apply (f_equal String.length) in H. simpl in H. rewrite length_append in H. lia.
  - injection H as Hx H. subst. f_equal. now apply IH.
Qed.

Section ResetProperties.

Context {F : Framework}.

(** What the confirmation of a reset link answers, by the decoding of
    [uidb64] and the rows with the decoded key *)
Lemma ConfirmPasswordResetView_get_cases (now : Z) (uidb64 token : string) (w : World) :
  ConfirmPasswordResetView_get now uidb64 token w =
    match urlsafe_base64_decode uidb64 with
    | None => (Raise ValueError, w)
    | Some raw =>
        match force_str raw with
        | None => (Ret (mkResponse (JObj [("message", JStr "token has expired")])
                                   HTTP_401_UNAUTHORIZED), w)
        | Some user_id =>
            match pk_to_python user_id with
            | None => (Raise ValueError, w)
            | Some pk =>
                match filter_id pk (users w) with
                | [] => (Raise DoesNotExist, w)
                | [user] =>
                    if check_token user token now
                    then (Ret (mkResponse
                                 (JObj [("success", JBool true);
                                        ("message", JStr "The credentials are valid");
                                        ("uidb64", JStr uidb64); ("token", JStr token)])
                                 HTTP_200_OK), w)
                    else (Ret (mkResponse (JObj [("message", JStr "Token is expired")])
                                          HTTP_401_UNAUTHORIZED), w)
                | _ :: _ :: _ => (Raise MultipleObjectsReturned, w)
                end
            end
        end
    end.
Proof.
  unfold ConfirmPasswordResetView_get, try_except, bind at 1.
  unfold lift_option at 1.
  destruct (urlsafe_base64_decode uidb64) as [raw|]; [|reflexivity].
  unfold ret at 1. unfold bind at 1. unfold smart_str, lift_option at 1.
  destruct (force_str raw) as [user_id|]; [|reflexivity].
  unfold ret at 1. unfold bind at 1. unfold objects_get_id_str, bind at 1.
  unfold lift_option.
  destruct (pk_to_python user_id) as [pk|]; [|reflexivity].
  unfold ret at 1. unfold objects_get_id, bind at 1. unfold get_world.
  destruct (filter_id pk (users w)) as [|user [|user2 rows]]; try reflexivity.
  cbn [queryset_get]. unfold ret at 1.
  now destruct (check_token user token now).
Qed.

(** The confirmation of a reset link never changes the world. *)
Lemma ConfirmPasswordResetView_get_pure (now : Z) (uidb64 token : string) (w : World) :
  snd (ConfirmPasswordResetView_get now uidb64 token w) = w.
Proof.
  rewrite ConfirmPasswordResetView_get_cases.
  destruct (urlsafe_base64_decode uidb64) as [raw|]; [|reflexivity].
  destruct (force_str raw) as [user_id|]; [|reflexivity].
  destruct (pk_to_python user_id) as [pk|]; [|reflexivity].
  destruct (filter_id pk (users w)) as [|user [|user2 rows]]; try reflexivity.
  now destruct (check_token user token now).
Qed.

(** A token that does not verify against the user is answered with status
    401 and "Token is expired". *)
Lemma ConfirmPasswordResetView_get_bad_token (now : Z) (uidb64 token : string)
    (raw : list Byte.byte) (user_id : string) (pk : Z) (user : User) (w : World) :
  urlsafe_base64_decode uidb64 = Some raw ->
  force_str raw = Some user_id ->
  pk_to_python user_id = Some pk ->
  filter_id pk (users w) = [user] ->
  check_token user token now = false ->
  ConfirmPasswordResetView_get now uidb64 token w
  = (Ret (mkResponse (JObj [("message", JStr "Token is expired")]) HTTP_401_UNAUTHORIZED),
     w).
Proof.
  intros E1 E2 E3 E4 E5.
  now rewrite ConfirmPasswordResetView_get_cases, E1, E2, E3, E4, E5.
Qed.

(** A decoded key that no row has makes [DoesNotExist] leave the view. *)
Lemma ConfirmPasswordResetView_get_unknown_user (now : Z) (uidb64 token : string)
    (raw : list Byte.byte) (user_id : string) (pk : Z) (w : World) :
  urlsafe_base64_decode uidb64 = Some raw ->
  force_str raw = Some user_id ->
  pk_to_python user_id = Some pk ->
  filter_id pk (users w) = [] ->
  ConfirmPasswordResetView_get now uidb64 token w = (Raise DoesNotExist, w).
Proof.
  intros E1 E2 E3 E4.
  now rewrite ConfirmPasswordResetView_get_cases, E1, E2, E3, E4.
Qed.

(** What [NewPasswordSerializer.validate] returns: it never raises. *)
Lemma NewPasswordSerializer_validate_cases (now : Z) (salt : string)
    (attrs : NewPasswordAttrs) (w : World) :
  NewPasswordSerializer_validate now salt attrs w =
    let refused :=
      (Ret (ReturnedException (AuthenticationFailed "The link is invalid/expired" None)),
       w) in
    match urlsafe_base64_decode (np_uidb64 attrs) with
    | None => refused
    | Some raw =>
        match force_str raw with
        | None => refused
        | Some user_id =>
            match pk_to_python user_id with
            | None => refused
            | Some pk =>
                match filter_id pk (users w) with
                | [user] =>
                    if check_token user (np_token attrs) now
                    then
                      if String.eqb (np_password attrs) (np_password_confirm attrs)
                      then
                        (Ret (ReturnedUser (set_password salt user (np_password attrs))),
                         with_users w
                           (update_row (set_password salt user (np_password attrs))
                                       (users w)))
                      else refused
                    else refused
                | _ => refused
                end
            end
        end
    end.
Proof.
  unfold NewPasswordSerializer_validate, try_except. cbv zeta. unfold bind at 1.
  unfold lift_option at 1.
  destruct (urlsafe_base64_decode (np_uidb64 attrs)) as [raw|]; [|reflexivity].
  unfold ret at 1. unfold bind at 1. unfold lift_option at 1.
  destruct (force_str raw) as [user_id|]; [|reflexivity].
  unfold ret at 1. unfold bind at 1. unfold objects_get_id_str, bind at 1.
  unfold lift_option.
  destruct (pk_to_python user_id) as [pk|]; [|reflexivity].
  unfold ret at 1. unfold objects_get_id, bind at 1. unfold get_world.
  destruct (filter_id pk (users w)) as [|user [|user2 rows]] eqn:Erows; try reflexivity.
  cbn [queryset_get]. unfold ret at 1.
  destruct (check_token user (np_token attrs) now); [|reflexivity]. cbn [negb].
  destruct (String.eqb (np_password attrs) (np_password_confirm attrs)); [|reflexivity].
  cbn [negb]. unfold bind at 1.
  rewrite save_existing.
  - reflexivity.
  - exists user. split.
    + apply (filter_id_In pk). rewrite Erows. now left.
    + reflexivity.
Qed.

(** A request whose fields are refused does not reach [validate]. *)
Lemma NewPasswordView_patch_refused (now : Z) (salt : string)
    (request_data : NewPasswordAttrs) (errors : list (string * list string))
    (w : World) :
  NewPasswordSerializer_to_internal_value request_data = inl errors ->
  NewPasswordView_patch now salt request_data w = (Raise (ValidationErrorDict errors), w).
Proof.
  intros H. unfold NewPasswordView_patch, bind. now rewrite H.
Qed.

(** Whatever the request, once its fields pass, the view of the new password
    answers with the message of success. *)
Lemma NewPasswordView_patch_always_success (now : Z) (salt : string)
    (request_data attrs : NewPasswordAttrs) (w : World) :
  NewPasswordSerializer_to_internal_value request_data = inr attrs ->
  fst (NewPasswordView_patch now salt request_data w) = Ret password_reset_response.
Proof.
  intros Hf. unfold NewPasswordView_patch, bind. rewrite Hf.
  cbn [run_validation]. unfold is_valid.
  rewrite NewPasswordSerializer_validate_cases. cbv zeta.
  destruct (urlsafe_base64_decode (np_uidb64 attrs)) as [raw|]; [|reflexivity].
  destruct (force_str raw) as [user_id|]; [|reflexivity].
  destruct (pk_to_python user_id) as [pk|]; [|reflexivity].
  destruct (filter_id pk (users w)) as [|user [|user2 rows]]; try reflexivity.
  destruct (check_token user (np_token attrs) now); [|reflexivity].
  now destruct (String.eqb (np_password attrs) (np_password_confirm attrs)).
Qed.

Lemma NewPasswordView_patch_world (now : Z) (salt : string)
    (request_data attrs : NewPasswordAttrs) (w : World) :
  NewPasswordSerializer_to_internal_value request_data = inr attrs ->
  snd (NewPasswordView_patch now salt request_data w)
  = snd (NewPasswordSerializer_validate now salt attrs w).
Proof.
  intros Hf. unfold NewPasswordView_patch, bind. rewrite Hf.
  cbn [run_validation]. unfold is_valid.
  destruct (NewPasswordSerializer_validate now salt attrs w) as [[r|e] w'].
  - reflexivity.
  - now destruct e.
Qed.

(** A request whose token does not verify against the user leaves the world
    as it was. *)
Lemma NewPasswordView_patch_bad_token (now : Z) (salt : string)
    (request_data attrs : NewPasswordAttrs) (raw : list Byte.byte) (user_id : string)
    (pk : Z) (user : User) (w : World) :
  NewPasswordSerializer_to_internal_value request_data = inr attrs ->
  urlsafe_base64_decode (np_uidb64 attrs) = Some raw ->
  force_str raw = Some user_id ->
  pk_to_python user_id = Some pk ->
  filter_id pk (users w) = [user] ->
  check_token user (np_token attrs) now = false ->
  NewPasswordView_patch now salt request_data w = (Ret password_reset_response, w).
Proof.
  intros Hf E1 E2 E3 E4 E5.
  rewrite (surjective_pairing (NewPasswordView_patch now salt request_data w)).
  rewrite (NewPasswordView_patch_always_success now salt request_data attrs w Hf).
  rewrite (NewPasswordView_patch_world now salt request_data attrs w Hf).
  rewrite NewPasswordSerializer_validate_cases. cbv zeta.
  now rewrite E1, E2, E3, E4, E5.
Qed.

(** A request whose token verifies and whose two passwords differ leaves the
    world as it was, and is answered with the message of success. *)
Lemma NewPasswordView_patch_mismatch (now : Z) (salt : string)
    (request_data attrs : NewPasswordAttrs) (raw : list Byte.byte) (user_id : string)
    (pk : Z) (user : User) (w : World) :
  NewPasswordSerializer_to_internal_value request_data = inr attrs ->
  urlsafe_base64_decode (np_uidb64 attrs) = Some raw ->
  force_str raw = Some user_id ->
  pk_to_python user_id = Some pk ->
  filter_id pk (users w) = [user] ->
  check_token user (np_token attrs) now = true ->
  np_password attrs <> np_password_confirm attrs ->
  NewPasswordView_patch now salt request_data w = (Ret password_reset_response, w).
Proof.
  intros Hf E1 E2 E3 E4 E5 Hne.
  rewrite (surjective_pairing (NewPasswordView_patch now salt request_data w)).
  rewrite (NewPasswordView_patch_always_success now salt request_data attrs w Hf).
  rewrite (NewPasswordView_patch_world now salt request_data attrs w Hf).
  rewrite NewPasswordSerializer_validate_cases. cbv zeta.
  rewrite E1, E2, E3, E4, E5.
  apply String.eqb_neq in Hne. now rewrite Hne.
Qed.

(** A request whose token verifies and whose two passwords agree stores the
    hash of the new password on the user. *)
Lemma NewPasswordView_patch_stores_password (now : Z) (salt : string)
    (request_data attrs : NewPasswordAttrs) (raw : list Byte.byte) (user_id : string)
    (pk : Z) (user : User) (w : World) :
  NewPasswordSerializer_to_internal_value request_data = inr attrs ->
  urlsafe_base64_decode (np_uidb64 attrs) = Some raw ->
  force_str raw = Some user_id ->
  pk_to_python user_id = Some pk ->
  filter_id pk (users w) = [user] ->
  check_token user (np_token attrs) now = true ->
  np_password attrs = np_password_confirm attrs ->
  NewPasswordView_patch now salt request_data w
  = (Ret password_reset_response,
     with_users w
       (update_row
          (set_encoded_password user (make_password salt (np_password attrs)))
          (users w))).
Proof.
  intros Hf E1 E2 E3 E4 E5 Heq.
  rewrite (surjective_pairing (NewPasswordView_patch now salt request_data w)).
  rewrite (NewPasswordView_patch_always_success now salt request_data attrs w Hf).
  rewrite (NewPasswordView_patch_world now salt request_data attrs w Hf).
  rewrite NewPasswordSerializer_validate_cases. cbv zeta.
  rewrite E1, E2, E3, E4, E5, <- Heq, String.eqb_refl. reflexivity.
Qed.

(** A token that verified against a user does not verify against a user
    whose digest, at the timestamp of the token, is another one: so it is
    for the same user with another password hash, unless the two digests
    collide. *)
Lemma check_token_stale_at (u u' : User) (token : string) (now now' : Z) :
  (forall ts_b36 mac ts,
      split_on "-" token = [ts_b36; mac] -> base36_to_int ts_b36 = Some ts ->
      salted_hmac (_make_hash_value u' ts) <> salted_hmac (_make_hash_value u ts)) ->
  check_token u token now = true ->
  check_token u' token now' = false.
Proof.
  intros Hdiff Hok. unfold check_token in *.
  destruct (String.eqb token ""); [discriminate|].
  destruct (split_on "-" token) as [|ts_b36 [|mac [|x l]]] eqn:Esplit; try discriminate.
  destruct (base36_to_int ts_b36) as [ts|] eqn:Ets; [|reflexivity].
  destruct (String.eqb (_make_token_with_timestamp u ts) token) eqn:E; [|discriminate].
  apply String.eqb_eq in E.
  destruct (String.eqb (_make_token_with_timestamp u' ts) token) eqn:E'; [|reflexivity].
  apply String.eqb_eq in E'. exfalso.
  apply (Hdiff ts_b36 mac ts eq_refl Ets).
  rewrite <- E in E'. unfold _make_token_with_timestamp in E'.
  apply append_inv_head in E'. now apply append_inv_head in E'.
Qed.

End ResetProperties.

(** *** The reset flow on a concrete account

    The key of [jo] is 1, which is "MQ" in base64; "OTk5" is the key 999,
    which no row has. *)

(** C1: the code under test reports success for a stale token.  The token
    issued to [jo] verifies and the first request changes the password; the
    same token then no longer verifies and the second request leaves the
    password as it is, yet it is answered with "Your Password Reset
    Successfully" and status 200. *)
Theorem NewPasswordView_patch_stale_token_reports_success :
  check_token (F := Reference.framework) Sample.jo Sample.token_jo
              (Sample.t0 + Sample.minutes 1) = true
  /\ NewPasswordView_patch (F := Reference.framework) (Sample.t0 + Sample.minutes 1) "s2"
       (mkNewPasswordAttrs "newpass1" "newpass1" "MQ" Sample.token_jo) Sample.world_jo
     = (Ret password_reset_response, Sample.world_jo_changed)
  /\ check_token (F := Reference.framework) Sample.jo_changed Sample.token_jo
                 (Sample.t0 + Sample.minutes 2) = false
  /\ NewPasswordView_patch (F := Reference.framework) (Sample.t0 + Sample.minutes 2) "s3"
       (mkNewPasswordAttrs "evil5678" "evil5678" "MQ" Sample.token_jo)
       Sample.world_jo_changed
     = (Ret password_reset_response, Sample.world_jo_changed)
  /\ succeeds (Ret password_reset_response) = true.
Proof.
  split; [vm_compute; reflexivity|].
  split; [vm_compute; reflexivity|].
  split; [vm_compute; reflexivity|].
  split; vm_compute; reflexivity.
Qed.

(** C2: the code under test reports success when the two passwords differ.
    With a token that verifies, [validate] returns the exception object
    instead of raising it, the password of the user is left as it is, and the
    view answers with "Your Password Reset Successfully" and status 200. *)
Theorem NewPasswordView_patch_mismatch_reports_success :
  check_token (F := Reference.framework) Sample.jo Sample.token_jo
              (Sample.t0 + Sample.minutes 1) = true
  /\ NewPasswordSerializer_validate (F := Reference.framework)
       (Sample.t0 + Sample.minutes 1) "s2"
       (mkNewPasswordAttrs "newpass1" "different" "MQ" Sample.token_jo) Sample.world_jo
     = (Ret (ReturnedException (AuthenticationFailed "The link is invalid/expired" None)),
        Sample.world_jo)
  /\ NewPasswordView_patch (F := Reference.framework) (Sample.t0 + Sample.minutes 1) "s2"
       (mkNewPasswordAttrs "newpass1" "different" "MQ" Sample.token_jo) Sample.world_jo
     = (Ret password_reset_response, Sample.world_jo)
  /\ succeeds (Ret password_reset_response) = true.
Proof.
  split; [vm_compute; reflexivity|].
  split; [vm_compute; reflexivity|].
  split; vm_compute; reflexivity.
Qed.

(** C3: the code under test lets an exception escape for a link whose user
    does not exist.  "OTk5" decodes to the key 999; the lookup raises
    [DoesNotExist], which the [except] clause of the view does not name and
    which is not an exception of the REST framework.  An [uidb64] that is
    not base64 escapes in the same way with [ValueError]; only bytes that
    are not text are answered with status 401. *)
Theorem ConfirmPasswordResetView_get_unknown_user_escapes :
  ConfirmPasswordResetView_get (F := Reference.framework) Sample.t0 "OTk5"
    Sample.token_jo Sample.world_jo
  = (Raise DoesNotExist, Sample.world_jo)
  /\ is_APIException DoesNotExist = false
  /\ ConfirmPasswordResetView_get (F := Reference.framework) Sample.t0 "A"
       Sample.token_jo Sample.world_jo
     = (Raise ValueError, Sample.world_jo)
  /\ ConfirmPasswordResetView_get (F := Reference.framework) Sample.t0 "_w"
       Sample.token_jo Sample.world_jo
     = (Ret (mkResponse (JObj [("message", JStr "token has expired")])
                        HTTP_401_UNAUTHORIZED),
        Sample.world_jo).
Proof.
  split; [vm_compute; reflexivity|].
  split; [reflexivity|].
  split; vm_compute; reflexivity.
Qed.

(** ** A run of the whole flow *)

Lemma random_choices_length (draw : nat -> nat) (population : string) (k : nat) :
  String.length (join (random_choices draw population k)) = k.
Proof.
  unfold random_choices.
  transitivity (List.length (seq 0 k)); [|apply length_seq].
  generalize (seq 0 k) as l.
  induction l as [|i l IH]; simpl; [reflexivity|]. now rewrite IH.
Qed.

(** Registration stores an unverified user with a code of six characters; a
    login is refused until the account is verified; a wrong code is refused,
    the right code within the window verifies the account, and the login
    then returns the pair of tokens. *)
Example register_verify_login :
  RegisterView_post (F := Reference.framework) Sample.t0 1 Sample.draw_7 "s1" true
    Sample.register_joanna Sample.empty_world
  = (Ret (registered_response
            (mkUser 1 "joanna@x.com" "Joanna" "s1$pw1234" false (Some "HHHHHH")
                    (Some Sample.t0))),
     mkWorld [mkUser 1 "joanna@x.com" "Joanna" "s1$pw1234" false (Some "HHHHHH")
                     (Some Sample.t0)]
             []
             [otp_mail "HHHHHH"
                (mkUser 1 "joanna@x.com" "Joanna" "s1$pw1234" false (Some "HHHHHH")
                        (Some Sample.t0))]
             [])
  /\ fst (LoginView_post (F := Reference.framework) (Sample.t0 + Sample.minutes 1)
            (mkLoginAttrs "joanna@x.com" "pw1234")
            (mkWorld [mkUser 1 "joanna@x.com" "Joanna" "s1$pw1234" false (Some "HHHHHH")
                             (Some Sample.t0)] [] [] []))
     = Raise not_verified
  /\ fst (VerifyEmail_post (Sample.t0 + Sample.minutes 2)
            (mkVerifyRequest (Some "ZZZZZZ") (Some "joanna@x.com"))
            (mkWorld [mkUser 1 "joanna@x.com" "Joanna" "s1$pw1234" false (Some "HHHHHH")
                             (Some Sample.t0)] [] [] []))
     = Ret otp_invalid_response
  /\ VerifyEmail_post (Sample.t0 + Sample.minutes 2)
       (mkVerifyRequest (Some "HHHHHH") (Some "joanna@x.com"))
       (mkWorld [mkUser 1 "joanna@x.com" "Joanna" "s1$pw1234" false (Some "HHHHHH")
                        (Some Sample.t0)] [] [] [])
     = (Ret otp_verified_response,
        mkWorld [mkUser 1 "joanna@x.com" "Joanna" "s1$pw1234" true (Some "HHHHHH")
                        (Some Sample.t0)] [] [] [])
  /\ fst (LoginView_post (F := Reference.framework) (Sample.t0 + Sample.minutes 3)
            (mkLoginAttrs "joanna@x.com" "pw1234")
            (mkWorld [mkUser 1 "joanna@x.com" "Joanna" "s1$pw1234" true (Some "HHHHHH")
                             (Some Sample.t0)] [] [] []))
     = Ret (mkResponse
              (JObj [("email", JStr "joanna@x.com"); ("full_name", JStr "Joanna");
                     ("token", JStr "1700086580.access1");
                     ("refresh_token", JStr "1700086580.refresh1")])
              HTTP_200_OK).
Proof.
  split; [vm_compute; reflexivity|].
  split; [vm_compute; reflexivity|].
  split; [vm_compute; reflexivity|].
  split; vm_compute; reflexivity.
Qed.

(** * Further properties of the views *)

(** ** OTP verification: missing fields and what is never changed *)

(** X1: a verification request without a code or without an e-mail (absent
    or empty) is answered with status 400 and "OTP and email are required.";
    no user is looked up, nothing is logged and nothing changes. *)
Theorem VerifyEmail_post_missing_field (now : Z) (request : VerifyRequest) (w : World) :
  falsy (vr_otp request) = true \/ falsy (vr_email request) = true ->
  VerifyEmail_post now request w = (Ret otp_required_response, w).
Proof.
  intros H. unfold VerifyEmail_post.
  assert (E : falsy (vr_otp request) || falsy (vr_email request) = true).
  { apply orb_true_iff. exact H. }
  now rewrite E.
Qed.

Lemma VerifyEmail_post_missing_field_witness :
  (falsy (vr_otp (mkVerifyRequest (Some "AB12CD") None)) = true
   \/ falsy (vr_email (mkVerifyRequest (Some "AB12CD") None)) = true) /\
  VerifyEmail_post Sample.t0 (mkVerifyRequest (Some "AB12CD") None) Sample.world_jo
  = (Ret otp_required_response, Sample.world_jo).
Proof.
  assert (H : falsy (vr_otp (mkVerifyRequest (Some "AB12CD") None)) = true
              \/ falsy (vr_email (mkVerifyRequest (Some "AB12CD") None)) = true)
    by (right; reflexivity).
  split; [exact H|].
  exact (VerifyEmail_post_missing_field Sample.t0 (mkVerifyRequest (Some "AB12CD") None)
           Sample.world_jo H).
Defined.

Lemma falsy_false (x : option string) :
  falsy x = false -> exists s, x = Some s /\ s <> "".
Proof.
  destruct x as [s|]; simpl; intros H; [|discriminate].
  exists s. split; [reflexivity|]. now apply String.eqb_neq.
Qed.

Lemma VerifyEmail_post_not_found (now : Z) (submitted email_ : string) (w : World) :
  submitted <> "" -> email_ <> "" ->
  filter_email email_ (users w) = [] ->
  VerifyEmail_post now (mkVerifyRequest (Some submitted) (Some email_)) w
  = (Ret user_missing_response,
     with_log w (log w ++ ["User with email " ++ email_ ++ " does not exist."])).
Proof.
  intros Hs He Hnone. unfold VerifyEmail_post. cbn [vr_otp vr_email].
  rewrite (falsy_Some _ Hs), (falsy_Some _ He). cbn [orb].
  unfold try_except, bind at 1.
  now rewrite (objects_get_email_missing _ _ Hnone).
Qed.

Lemma VerifyEmail_post_ambiguous (now : Z) (submitted email_ : string)
    (u u2 : User) (rows : list User) (w : World) :
  submitted <> "" -> email_ <> "" ->
  filter_email email_ (users w) = u :: u2 :: rows ->
  VerifyEmail_post now (mkVerifyRequest (Some submitted) (Some email_)) w
  = (Raise MultipleObjectsReturned, w).
Proof.
  intros Hs He Hrows. unfold VerifyEmail_post. cbn [vr_otp vr_email].
  rewrite (falsy_Some _ Hs), (falsy_Some _ He). cbn [orb].
  unfold try_except, bind at 1. unfold objects_get_email, bind, get_world.
  now rewrite Hrows.
Qed.

(** X2: whatever the request, a verification leaves the blacklist and the
    mail alone, and every row of the table is either untouched or has
    [is_verified] set to true: no verification ever changes an e-mail, a
    password or a code, unverifies an account, or adds or removes a row. *)
Theorem VerifyEmail_post_frame (now : Z) (request : VerifyRequest) (w : World) :
  NoDup (map id (users w)) ->
  blacklist (snd (VerifyEmail_post now request w)) = blacklist w
  /\ outbox (snd (VerifyEmail_post now request w)) = outbox w
  /\ exists g : User -> User,
       users (snd (VerifyEmail_post now request w)) = map g (users w)
       /\ forall x, g x = x \/ g x = set_is_verified x true.
Proof.
  intros Hnd.
  assert (Hsame : forall w', blacklist w' = blacklist w -> outbox w' = outbox w ->
            users w' = users w ->
            blacklist w' = blacklist w /\ outbox w' = outbox w /\
            exists g : User -> User,
              users w' = map g (users w) /\ forall x, g x = x \/ g x = set_is_verified x true).
  { intros w' Hb Ho Hu. split; [exact Hb|]. split; [exact Ho|].
    exists (fun x => x). split; [now rewrite map_id|]. intros x. now left. }
  destruct (falsy (vr_otp request) || falsy (vr_email request)) eqn:Emiss.
  - apply orb_true_iff in Emiss.
    rewrite (VerifyEmail_post_missing_field now request w Emiss). now apply Hsame.
  - apply orb_false_iff in Emiss. destruct Emiss as [Eo Ee].
    destruct (falsy_false _ Eo) as [submitted [Hsub Hs]].
    destruct (falsy_false _ Ee) as [email_ [Hem He]].
    destruct request as [ro re]. cbn [vr_otp vr_email] in Hsub, Hem. subst ro re.
    destruct (filter_email email_ (users w)) as [|u [|u2 rows]] eqn:Erows.
    + rewrite (VerifyEmail_post_not_found now submitted email_ w Hs He Erows).
      now apply Hsame.
    + rewrite (VerifyEmail_post_found now submitted email_ u w Hs He Erows).
      assert (Hin : In u (users w)).
      { apply (filter_email_In email_). rewrite Erows. now left. }
      destruct (otp_condition now u (Some submitted) w) as [[[|]|e] w1].
      * rewrite (save_verified u w Hnd Hin). cbn [snd users blacklist outbox with_users].
        split; [reflexivity|]. split; [reflexivity|].
        exists (mark_verified u). split; [reflexivity|].
        intros x. unfold mark_verified. destruct (Z.eqb (id x) (id u)); [now right|now left].
      * now apply Hsame.
      * now apply Hsame.
    + rewrite (VerifyEmail_post_ambiguous now submitted email_ u u2 rows w Hs He Erows).
      now apply Hsame.
Qed.

Lemma VerifyEmail_post_frame_witness :
  NoDup (map id (users Sample.world_jo)) /\
  blacklist (snd (VerifyEmail_post (Sample.t0 + Sample.minutes 5)
                    (mkVerifyRequest (Some "AB12CD") (Some "jo@x.com")) Sample.world_jo))
  = blacklist Sample.world_jo.
Proof.
  assert (Hnd : NoDup (map id (users Sample.world_jo))).
  { simpl. constructor; [intros []|constructor]. }
  split; [exact Hnd|].
  exact (proj1 (VerifyEmail_post_frame (Sample.t0 + Sample.minutes 5)
                  (mkVerifyRequest (Some "AB12CD") (Some "jo@x.com")) Sample.world_jo Hnd)).
Defined.

(** ** Registration: refusal, the stored record and the first verification *)

Lemma get_In (s : string) (n : nat) (c : ascii) :
  String.get n s = Some c -> In c (list_ascii_of_string s).
Proof.
  revert n. induction s as [|a s IH]; intros n H; simpl in *; [discriminate|].
  destruct n as [|n].
  - injection H as ->. now left.
  - right. exact (IH n H).
Qed.

Lemma get_below (s : string) (n : nat) :
  (n < String.length s)%nat -> exists c, String.get n s = Some c.
Proof.
  revert n. induction s as [|a s IH]; intros n H; simpl in *; [lia|].
  destruct n as [|n].
  - now exists a.
  - apply IH. lia.
Qed.

Lemma list_ascii_of_join (chars : list ascii) :
  list_ascii_of_string (join chars) = chars.
Proof.
  induction chars as [|c chars IH]; simpl; [reflexivity|]. now rewrite IH.
Qed.

(** Every character drawn comes from the population. *)
Lemma random_choices_In (draw : nat -> nat) (population : string) (k : nat) (c : ascii) :
  population <> "" ->
  In c (random_choices draw population k) -> In c (list_ascii_of_string population).
Proof.
  intros Hne Hin. unfold random_choices in Hin.
  apply in_map_iff in Hin. destruct Hin as [i [Hc _]].
  assert (Hlen : (0 < String.length population)%nat).
  { destruct population; [congruence|simpl; lia]. }
  destruct (get_below population (Nat.modulo (draw i) (String.length population)))
    as [c' Hc'].
  { apply Nat.mod_upper_bound. lia. }
  rewrite Hc' in Hc. subst c'. exact (get_In _ _ _ Hc').
Qed.

Section RegisterFlow.

Context {F : Framework}.


(** A registration with a refused field raises the errors of the fields and
    changes nothing. *)
Lemma RegisterView_post_refused (now pk : Z) (draw : nat -> nat) (salt : string)
    (delivered : bool) (user_data : RegisterData) (errors : list (string * list string))
    (w : World) :
  RegisterSerializer_to_internal_value (users w) user_data = inl errors ->
  RegisterView_post now pk draw salt delivered user_data w
  = (Raise (ValidationErrorDict errors), w).
Proof.
  intros Hfields.
  unfold RegisterView_post, bind at 1.
  unfold is_valid, RegisterSerializer_run_validation, bind at 1. unfold get_world.
  now rewrite Hfields.
Qed.

(** X4: a registration that validates (its fields pass, the two passwords
    agree), with a mail backend that accepts the message and a key from the
    database that no row has, is answered with status 201 and leaves exactly
    one new row: an unverified user with the values of the fields, the hash
    of the password, [otp_created_at] at the time of the request and a code
    of six characters, each an upper-case letter or a digit.  One mail is
    recorded, the one that carries this code to the address of the user; no
    row had that address before. *)
Theorem RegisterView_post_created (now pk : Z) (draw : nat -> nat) (salt : string)
    (user_data attrs : RegisterData) (w : World) :
  RegisterSerializer_to_internal_value (users w) user_data = inr attrs ->
  rd_password1 attrs = rd_password2 attrs ->
  (forall x, In x (users w) -> id x <> pk) ->
  exists code : string,
    RegisterView_post now pk draw salt true user_data w
    = (Ret (registered_response
              (mkUser pk (rd_email attrs) (rd_full_name attrs)
                      (make_password salt (rd_password1 attrs)) false
                      (Some code) (Some now))),
       mkWorld
         (users w ++
            [mkUser pk (rd_email attrs) (rd_full_name attrs)
                    (make_password salt (rd_password1 attrs)) false
                    (Some code) (Some now)])
         (blacklist w)
         (outbox w ++
            [mkEmail "Techplaza OTP for Registration Verification"
                     (body (otp_mail code
                              (mkUser pk (rd_email attrs) (rd_full_name attrs)
                                      (make_password salt (rd_password1 attrs)) false
                                      (Some code) (Some now))))
                     "techplaza1@hotmail.com" [rd_email attrs]])
         (log w))
    /\ status (registered_response
                 (mkUser pk (rd_email attrs) (rd_full_name attrs)
                         (make_password salt (rd_password1 attrs)) false
                         (Some code) (Some now))) = 201
    /\ String.length code = 6%nat
    /\ (forall c, In c (list_ascii_of_string code) ->
                  In c (list_ascii_of_string "ABCDEFGHIJKLMNOPQRSTUVWXYZ0123456789"))
    /\ filter_email (rd_email attrs) (users w) = [].
Proof.
  intros Hfields Hpw Hkey.
  exists (join (random_choices draw (ascii_uppercase ++ digits) 6)).
  split; [|split; [reflexivity|split; [apply random_choices_length|split]]].
  - rewrite (RegisterView_post_valid now pk draw salt true user_data attrs w
               Hfields Hpw Hkey).
    reflexivity.
  - intros c Hc. rewrite list_ascii_of_join in Hc.
    apply (random_choices_In draw (ascii_uppercase ++ digits) 6 c); [discriminate|exact Hc].
  - exact (proj1 (RegisterSerializer_accepted _ _ _ Hfields)).
Qed.

(** X5: the code stored by a registration verifies the account.  Whether or
    not the mail went out, after a registration that validated a
    verification with the e-mail of the new record and the stored code, at
    most 15 minutes later, is answered with "Email successfully verified"
    and sets [is_verified] on the new row, and on nothing else. *)
Theorem RegisterView_post_then_verify (now now2 pk : Z) (draw : nat -> nat)
    (salt : string) (delivered : bool) (user_data attrs : RegisterData) (w : World) :
  RegisterSerializer_to_internal_value (users w) user_data = inr attrs ->
  rd_password1 attrs = rd_password2 attrs ->
  (forall x, In x (users w) -> id x <> pk) ->
  now2 - now <= timedelta_minutes 15 ->
  VerifyEmail_post now2
    (mkVerifyRequest (otp (registered_user now pk draw salt attrs))
                     (Some (rd_email attrs)))
    (snd (RegisterView_post now pk draw salt delivered user_data w))
  = (Ret otp_verified_response,
     with_users (snd (RegisterView_post now pk draw salt delivered user_data w))
       (users w ++ [set_is_verified (registered_user now pk draw salt attrs) true])).
Proof.
  intros Hfields Hpw Hkey Hwin.
  destruct (RegisterSerializer_accepted _ _ _ Hfields) as [Hfresh He].
  set (user := registered_user now pk draw salt attrs).
  set (code := join (random_choices draw (ascii_uppercase ++ digits) 6)).
  assert (Hcode : code <> "").
  { intros E. pose proof (random_choices_length draw (ascii_uppercase ++ digits) 6) as L.
    fold code in L. rewrite E in L. discriminate. }
  assert (Hw1 : exists ob, snd (RegisterView_post now pk draw salt delivered user_data w)
                           = mkWorld (users w ++ [user]) (blacklist w) ob (log w)).
  { rewrite (RegisterView_post_valid now pk draw salt delivered user_data attrs w
               Hfields Hpw Hkey).
    cbv zeta. destruct delivered; eexists; reflexivity. }
  destruct Hw1 as [ob Hw1]. rewrite Hw1.
  assert (Hrows : filter_email (rd_email attrs)
                    (users (mkWorld (users w ++ [user]) (blacklist w) ob (log w))) = [user]).
  { cbn [users]. unfold filter_email in *. rewrite filter_app, Hfresh. simpl.
    now rewrite String.eqb_refl. }
  change (otp user) with (Some code).
  rewrite (VerifyEmail_post_found now2 code (rd_email attrs) user _ Hcode He Hrows).
  unfold otp_condition, otp_valid_duration.
  change (otp user) with (Some code). cbn [option_string_eqb].
  rewrite String.eqb_refl.
  change (otp_created_at user) with (Some now). unfold ret.
  apply Z.leb_le in Hwin. rewrite Hwin.
  f_equal. rewrite save_existing.
  - cbn [snd users with_users blacklist outbox log]. f_equal.
    apply update_row_last; [|reflexivity].
    intros x Hx. unfold user, registered_user. cbn [id]. exact (Hkey x Hx).
  - exists user. split; [|reflexivity].
    cbn [users]. apply in_or_app. right. now left.
Qed.

End RegisterFlow.


Lemma RegisterView_post_created_witness :
  RegisterSerializer_to_internal_value (F := Reference.framework)
    (users Sample.empty_world) Sample.register_jo = inr Sample.register_jo /\
  rd_password1 Sample.register_jo = rd_password2 Sample.register_jo /\
  (forall x, In x (users Sample.empty_world) -> id x <> 1) /\
  exists code : string,
    fst (RegisterView_post (F := Reference.framework) Sample.t0 1 Sample.draw_7 "s1" true
           Sample.register_jo Sample.empty_world)
    = Ret (registered_response
             (mkUser 1 "jo@x.com" "Jo" "s1$pw1234" false (Some code) (Some Sample.t0)))
    /\ String.length code = 6%nat.
Proof.
  assert (Hf : RegisterSerializer_to_internal_value (F := Reference.framework)
                 (users Sample.empty_world) Sample.register_jo = inr Sample.register_jo)
    by (vm_compute; reflexivity).
  assert (Hkey : forall x, In x (users Sample.empty_world) -> id x <> 1)
    by (intros x []).
  split; [exact Hf|]. split; [reflexivity|]. split; [exact Hkey|].
  destruct (RegisterView_post_created (F := Reference.framework) Sample.t0 1 Sample.draw_7
              "s1" Sample.register_jo Sample.register_jo Sample.empty_world
              Hf eq_refl Hkey)
    as [code [Hrun [_ [Hlen _]]]].
  exists code. split; [|exact Hlen].
  rewrite Hrun. reflexivity.
Defined.

Lemma RegisterView_post_then_verify_witness :
  RegisterSerializer_to_internal_value (F := Reference.framework)
    (users Sample.empty_world) Sample.register_jo = inr Sample.register_jo /\
  rd_password1 Sample.register_jo = rd_password2 Sample.register_jo /\
  (forall x, In x (users Sample.empty_world) -> id x <> 1) /\
  (Sample.t0 + Sample.minutes 10) - Sample.t0 <= timedelta_minutes 15 /\
  VerifyEmail_post (Sample.t0 + Sample.minutes 10)
    (mkVerifyRequest (Some "HHHHHH") (Some "jo@x.com"))
    (snd (RegisterView_post (F := Reference.framework) Sample.t0 1 Sample.draw_7 "s1"
            false Sample.register_jo Sample.empty_world))
  = (Ret otp_verified_response,
     mkWorld [mkUser 1 "jo@x.com" "Jo" "s1$pw1234" true (Some "HHHHHH") (Some Sample.t0)]
             [] [] []).
Proof.
  assert (Hf : RegisterSerializer_to_internal_value (F := Reference.framework)
                 (users Sample.empty_world) Sample.register_jo = inr Sample.register_jo)
    by (vm_compute; reflexivity).
  assert (Hkey : forall x, In x (users Sample.empty_world) -> id x <> 1)
    by (intros x []).
  assert (Hwin : (Sample.t0 + Sample.minutes 10) - Sample.t0 <= timedelta_minutes 15)
    by (vm_compute; discriminate).
  split; [exact Hf|]. split; [reflexivity|]. split; [exact Hkey|]. split; [exact Hwin|].
  exact (RegisterView_post_then_verify (F := Reference.framework) Sample.t0
           (Sample.t0 + Sample.minutes 10) 1 Sample.draw_7 "s1" false Sample.register_jo
           Sample.register_jo Sample.empty_world Hf eq_refl Hkey Hwin).
Defined.

(** ** Login: when it succeeds *)

Section LoginFlow.

Context {F : Framework}.

Lemma LoginView_post_cases (now : Z) (data : LoginAttrs) (w : World) :
  LoginView_post now data w =
    match LoginSerializer_to_internal_value data with
    | inl errors => (Raise (ValidationErrorDict errors), w)
    | inr attrs =>
        match filter_email (la_email attrs) (users w) with
        | [] => (Raise invalid_credentials, w)
        | [u] =>
            if check_password (la_password attrs) (password u) then
              if is_verified u then
                (Ret (mkResponse
                        (JObj [("email", JStr (email u)); ("full_name", JStr (full_name u));
                               ("token", JStr (snd (user_tokens u now)));
                               ("refresh_token", JStr (fst (user_tokens u now)))])
                        HTTP_200_OK), w)
              else (Raise not_verified, w)
            else (Raise invalid_credentials, w)
        | _ :: _ :: _ => (Raise MultipleObjectsReturned, w)
        end
    end.
Proof.
  destruct (LoginSerializer_to_internal_value data) as [errors|attrs] eqn:Hf.
  { now apply LoginView_post_refused. }
  destruct (filter_email (la_email attrs) (users w)) as [|u [|u2 rows]] eqn:Erows.
  - apply (LoginView_post_raises now data attrs w _ Hf).
    unfold LoginSerializer_validate, bind at 1.
    now rewrite (authenticate_unknown _ _ _ Erows).
  - destruct (check_password (la_password attrs) (password u)) eqn:Epw.
    + destruct (is_verified u) eqn:Ev.
      * unfold LoginView_post, bind at 1. rewrite Hf. cbn [run_validation].
        unfold is_valid.
        unfold LoginSerializer_validate, bind at 1.
        rewrite (authenticate_known _ _ _ _ Erows), Epw, Ev. reflexivity.
      * apply (LoginView_post_raises now data attrs w _ Hf).
        unfold LoginSerializer_validate, bind at 1.
        now rewrite (authenticate_known _ _ _ _ Erows), Epw, Ev.
    + apply (LoginView_post_raises now data attrs w _ Hf).
      unfold LoginSerializer_validate, bind at 1.
      now rewrite (authenticate_known _ _ _ _ Erows), Epw.
  - apply (LoginView_post_raises now data attrs w _ Hf).
    unfold LoginSerializer_validate, bind at 1.
    unfold authenticate, try_except, bind at 1. unfold objects_get_email, bind, get_world.
    now rewrite Erows.
Qed.

(** X6: a login succeeds exactly when its two fields pass the validation of
    the serializer, one row has the e-mail that the field returns, the
    password that the field returns checks against the hash of that row and
    the row is verified; the response then carries the e-mail, the full name
    and the pair of tokens issued for that user.  No login, successful or
    not, changes the world. *)
Theorem LoginView_post_succeeds_iff (now : Z) (data : LoginAttrs) (w : World) :
  (succeeds (fst (LoginView_post now data w)) = true
   <-> exists attrs u,
         LoginSerializer_to_internal_value data = inr attrs
         /\ filter_email (la_email attrs) (users w) = [u]
         /\ check_password (la_password attrs) (password u) = true
         /\ is_verified u = true)
  /\ (forall attrs u,
        LoginSerializer_to_internal_value data = inr attrs ->
        filter_email (la_email attrs) (users w) = [u] ->
        check_password (la_password attrs) (password u) = true ->
        is_verified u = true ->
        fst (LoginView_post now data w)
        = Ret (mkResponse
                 (JObj [("email", JStr (email u)); ("full_name", JStr (full_name u));
                        ("token", JStr (snd (user_tokens u now)));
                        ("refresh_token", JStr (fst (user_tokens u now)))])
                 HTTP_200_OK))
  /\ snd (LoginView_post now data w) = w.
Proof.
  rewrite LoginView_post_cases.
  destruct (LoginSerializer_to_internal_value data) as [errors|attrs].
  { split; [split|split].
    - simpl. discriminate.
    - intros [a [u [Ha _]]]. discriminate.
    - intros a u Ha. discriminate.
    - reflexivity. }
  destruct (filter_email (la_email attrs) (users w)) as [|u [|u2 rows]] eqn:Erows.
  - split; [split|split].
    + simpl. discriminate.
    + intros [a [u [Ha [Hu _]]]]. injection Ha as <-. congruence.
    + intros a u Ha Hu. injection Ha as <-. congruence.
    + reflexivity.
  - destruct (check_password (la_password attrs) (password u)) eqn:Epw;
      [destruct (is_verified u) eqn:Ev|].
    + split; [split|split].
      * intros _. exists attrs, u. now repeat split.
      * reflexivity.
      * intros a u' Ha Hu' _ _. injection Ha as <-.
        rewrite Erows in Hu'. injection Hu' as <-. reflexivity.
      * reflexivity.
    + split; [split|split].
      * simpl. discriminate.
      * intros [a [u' [Ha [Hu' [_ Hv]]]]]. injection Ha as <-.
        rewrite Erows in Hu'. injection Hu' as <-. congruence.
      * intros a u' Ha Hu' _ Hv. injection Ha as <-.
        rewrite Erows in Hu'. injection Hu' as <-. congruence.
      * reflexivity.
    + split; [split|split].
      * simpl. discriminate.
      * intros [a [u' [Ha [Hu' [Hp _]]]]]. injection Ha as <-.
        rewrite Erows in Hu'. injection Hu' as <-. congruence.
      * intros a u' Ha Hu' Hp _. injection Ha as <-.
        rewrite Erows in Hu'. injection Hu' as <-. congruence.
      * reflexivity.
  - split; [split|split].
    + simpl. discriminate.
    + intros [a [u' [Ha [Hu' _]]]]. injection Ha as <-. congruence.
    + intros a u' Ha Hu'. injection Ha as <-. congruence.
    + reflexivity.
Qed.

End LoginFlow.

(** ** Password reset: the request, the link and the new password *)

Lemma split_on_absent (c : ascii) (s : string) :
  contains c s = false -> split_on c s = [s].
Proof.
  induction s as [|a s IH]; simpl; intros H; [reflexivity|].
  apply orb_false_iff in H. destruct H as [Ha Hs].
  rewrite Ha, (IH Hs). reflexivity.
Qed.

Lemma split_on_join (c : ascii) (a b : string) :
  contains c a = false -> contains c b = false ->
  split_on c (a ++ String c b) = [a; b].
Proof.
  intros Ha Hb. induction a as [|x a IH]; simpl.
  - rewrite Ascii.eqb_refl. now rewrite (split_on_absent c b Hb).
  - simpl in Ha. apply orb_false_iff in Ha. destruct Ha as [Hx Ha].
    rewrite Hx, (IH Ha). reflexivity.
Qed.

Lemma append_not_empty (a b : string) (c : ascii) :
  String.eqb (a ++ String c b) "" = false.
Proof.
  apply String.eqb_neq. destruct a; discriminate.
Qed.

Lemma filter_id_only (pk : Z) (user : User) (g : User -> User) (us : list User) :
  filter_id pk us = [user] ->
  (forall x, id (g x) = id x) ->
  update_row (g user) us = map (fun x => if Z.eqb (id x) pk then g x else x) us.
Proof.
  intros Hrows Hg.
  assert (Hid : id user = pk).
  { apply (filter_id_In pk user us). rewrite Hrows. now left. }
  unfold update_row. rewrite Hg, Hid. apply map_ext_in. intros x Hx.
  destruct (Z.eqb_spec (id x) pk) as [E|_]; [|reflexivity].
  assert (Hin : In x (filter_id pk us)) by now apply filter_id_In.
  rewrite Hrows in Hin. destruct Hin as [<-|[]]. reflexivity.
Qed.

Section ResetFlow.

Context {F : Framework}.

(** A reset request with a refused e-mail raises the errors of the field;
    no mail is sent. *)
Lemma PasswordResetView_post_refused (now : Z) (uidb64_of : Z -> string)
    (current_site : outcome string) (delivered : bool) (data : string)
    (errors : list (string * list string)) (w : World) :
  PasswordResetSerializer_to_internal_value data = inl errors ->
  PasswordResetView_post now uidb64_of current_site delivered data w
  = (Raise (ValidationErrorDict errors), w).
Proof.
  intros H. unfold PasswordResetView_post, bind. now rewrite H.
Qed.

Lemma PasswordResetView_post_cases (now : Z) (uidb64_of : Z -> string) (d : string)
    (delivered : bool) (data email_ : string) (w : World) :
  PasswordResetSerializer_to_internal_value data = inr email_ ->
  PasswordResetView_post now uidb64_of (Ret d) delivered data w =
    match filter_email email_ (users w) with
    | [] =>
        if delivered
        then (Ret reset_requested_response,
              with_outbox w (outbox w ++ [invitation_mail email_]))
        else (Raise SMTPException, w)
    | [u] =>
        if delivered
        then (Ret reset_requested_response,
              with_outbox w
                (outbox w ++ [reset_mail u (uidb64_of (id u)) (make_token u now)]))
        else (Raise SMTPException, w)
    | _ :: _ :: _ => (Raise MultipleObjectsReturned, w)
    end.
Proof.
  intros Hf. unfold PasswordResetView_post, bind at 1. rewrite Hf.
  cbn [run_validation]. unfold is_valid.
  unfold PasswordResetSerializer_validate, bind at 1. unfold bind at 1. unfold get_world.
  unfold bind at 1.
  destruct (filter_email email_ (users w)) as [|u [|u2 rows]] eqn:Erows.
  - cbn [queryset_exists]. unfold ret at 1. unfold bind at 1. unfold send.
    destruct delivered; reflexivity.
  - cbn [queryset_exists]. unfold bind at 1.
    rewrite (objects_get_email_unique _ _ _ Erows). unfold ret at 1.
    unfold bind at 1. unfold send.
    destruct delivered; reflexivity.
  - cbn [queryset_exists]. unfold bind at 1. unfold objects_get_email, bind, get_world.
    rewrite Erows. reflexivity.
Qed.

(** X7: a reset request whose e-mail passes the validation of the field,
    for an e-mail that at most one row has, is answered with the same
    response whether or not the e-mail is registered.  Exactly one mail is
    recorded, addressed to the e-mail that the field returns: the invitation
    to register when no row has it, the reset link of the user otherwise.
    Nothing else changes.  When the mail backend refuses the message, or
    when the current site cannot be found, the exception leaves the view and
    nothing changes at all. *)
Theorem PasswordResetView_post_uniform (now : Z) (uidb64_of : Z -> string) (d : string)
    (data email_ : string) (w : World) :
  PasswordResetSerializer_to_internal_value data = inr email_ ->
  (List.length (filter_email email_ (users w)) <= 1)%nat ->
  (exists m,
     PasswordResetView_post now uidb64_of (Ret d) true data w
     = (Ret reset_requested_response, with_outbox w (outbox w ++ [m]))
     /\ to m = [email_]
     /\ (filter_email email_ (users w) = [] -> m = invitation_mail email_)
     /\ (forall u, filter_email email_ (users w) = [u] ->
                   m = reset_mail u (uidb64_of (id u)) (make_token u now)))
  /\ PasswordResetView_post now uidb64_of (Ret d) false data w = (Raise SMTPException, w)
  /\ (forall e delivered,
        PasswordResetView_post now uidb64_of (Raise e) delivered data w = (Raise e, w)).
Proof.
  intros Hf Hlen.
  rewrite !(PasswordResetView_post_cases now uidb64_of d _ data email_ w Hf).
  split; [|split].
  - destruct (filter_email email_ (users w)) as [|u [|u2 rows]] eqn:Erows.
    + exists (invitation_mail email_). repeat split. intros u Hu. discriminate.
    + exists (reset_mail u (uidb64_of (id u)) (make_token u now)).
      assert (Hu : email u = email_).
      { apply (filter_email_In email_ u (users w)). rewrite Erows. now left. }
      split; [reflexivity|]. split; [cbn [to reset_mail]; now rewrite Hu|].
      split; [discriminate|]. intros u' Hu'. now injection Hu' as <-.
    + simpl in Hlen. lia.
  - destruct (filter_email email_ (users w)) as [|u [|u2 rows]]; try reflexivity.
    simpl in Hlen. lia.
  - intros e delivered. unfold PasswordResetView_post, bind at 1. rewrite Hf.
    cbn [run_validation]. unfold is_valid.
    unfold PasswordResetSerializer_validate, bind. now destruct e.
Qed.

(** A token checked against the user it was made for depends on the time
    only. *)
Lemma check_token_make_token (u : User) (now now2 : Z) :
  base36_to_int (int_to_base36 (_num_seconds now)) = Some (_num_seconds now) ->
  contains "-" (int_to_base36 (_num_seconds now)) = false ->
  contains "-" (salted_hmac (_make_hash_value u (_num_seconds now))) = false ->
  check_token u (make_token u now) now2
  = negb (PASSWORD_RESET_TIMEOUT <? _num_seconds now2 - _num_seconds now).
Proof.
  intros Hb36 Hts Hmac. unfold check_token, make_token, _make_token_with_timestamp.
  change ("-" ++ salted_hmac (_make_hash_value u (_num_seconds now)))
    with (String "-" (salted_hmac (_make_hash_value u (_num_seconds now)))).
  rewrite append_not_empty, (split_on_join _ _ _ Hts Hmac), Hb36.
  change ("-" ++ salted_hmac (_make_hash_value u (_num_seconds now)))
    with (String "-" (salted_hmac (_make_hash_value u (_num_seconds now)))).
  now rewrite String.eqb_refl.
Qed.

(** X8: the link mailed to a registered user opens the confirmation.  When
    the stored e-mail passes the field of the request unchanged, the codecs
    of the library invert each other on the key and the timestamp and
    neither part of the token holds a dash, the [uidb64] and the token of
    the mailed link are answered with status 200 by the confirmation as long
    as at most [PASSWORD_RESET_TIMEOUT] seconds have passed, and with status
    401 and "Token is expired" afterwards. *)
Theorem reset_link_confirms (now now2 : Z) (uidb64_of : Z -> string) (d : string)
    (u : User) (raw : list Byte.byte) (user_id : string) (w : World) :
  PasswordResetSerializer_to_internal_value (email u) = inr (email u) ->
  filter_email (email u) (users w) = [u] ->
  filter_id (id u) (users w) = [u] ->
  urlsafe_base64_decode (uidb64_of (id u)) = Some raw ->
  force_str raw = Some user_id ->
  pk_to_python user_id = Some (id u) ->
  base36_to_int (int_to_base36 (_num_seconds now)) = Some (_num_seconds now) ->
  contains "-" (int_to_base36 (_num_seconds now)) = false ->
  contains "-" (salted_hmac (_make_hash_value u (_num_seconds now))) = false ->
  snd (PasswordResetView_post now uidb64_of (Ret d) true (email u) w)
  = with_outbox w (outbox w ++ [reset_mail u (uidb64_of (id u)) (make_token u now)])
  /\ (_num_seconds now2 - _num_seconds now <= PASSWORD_RESET_TIMEOUT ->
      ConfirmPasswordResetView_get now2 (uidb64_of (id u)) (make_token u now)
        (snd (PasswordResetView_post now uidb64_of (Ret d) true (email u) w))
      = (Ret (mkResponse
                (JObj [("success", JBool true);
                       ("message", JStr "The credentials are valid");
                       ("uidb64", JStr (uidb64_of (id u)));
                       ("token", JStr (make_token u now))])
                HTTP_200_OK),
         snd (PasswordResetView_post now uidb64_of (Ret d) true (email u) w)))
  /\ (PASSWORD_RESET_TIMEOUT < _num_seconds now2 - _num_seconds now ->
      ConfirmPasswordResetView_get now2 (uidb64_of (id u)) (make_token u now)
        (snd (PasswordResetView_post now uidb64_of (Ret d) true (email u) w))
      = (Ret (mkResponse (JObj [("message", JStr "Token is expired")])
                         HTTP_401_UNAUTHORIZED),
         snd (PasswordResetView_post now uidb64_of (Ret d) true (email u) w))).
Proof.
  intros Hf Hmail Hrow Hdec Hstr Hpk Hb36 Hts Hmac.
  rewrite (PasswordResetView_post_cases now uidb64_of d true (email u) (email u) w Hf).
  rewrite Hmail. cbn [snd].
  split; [reflexivity|].
  rewrite ConfirmPasswordResetView_get_cases, Hdec, Hstr, Hpk.
  cbn [users with_outbox]. rewrite Hrow.
  rewrite (check_token_make_token u now now2 Hb36 Hts Hmac).
  split; intros Htime.
  - apply Z.ltb_ge in Htime. now rewrite Htime.
  - apply Z.ltb_lt in Htime. now rewrite Htime.
Qed.

(** X9: the confirmation and the change of password agree on every link.
    For the same [uidb64], token, time and table, the confirmation answers
    with status 200 exactly when [validate], given two equal passwords,
    returns a user instead of the exception object. *)
Theorem confirm_agrees_with_validate (now : Z) (salt raw_password uidb64 token : string)
    (w : World) :
  succeeds (fst (ConfirmPasswordResetView_get now uidb64 token w)) = true
  <-> exists user,
        fst (NewPasswordSerializer_validate now salt
               (mkNewPasswordAttrs raw_password raw_password uidb64 token) w)
        = Ret (ReturnedUser user).
Proof.
  rewrite ConfirmPasswordResetView_get_cases, NewPasswordSerializer_validate_cases.
  cbv zeta. cbn [np_uidb64 np_token np_password np_password_confirm].
  rewrite String.eqb_refl.
  destruct (urlsafe_base64_decode uidb64) as [raw|];
    [|split; [discriminate|intros [u Hu]; discriminate]].
  destruct (force_str raw) as [user_id|];
    [|split; [discriminate|intros [u Hu]; discriminate]].
  destruct (pk_to_python user_id) as [pk|];
    [|split; [discriminate|intros [u Hu]; discriminate]].
  destruct (filter_id pk (users w)) as [|user [|user2 rows]];
    try (split; [discriminate|intros [u Hu]; discriminate]).
  destruct (check_token user token now);
    [|split; [discriminate|intros [u Hu]; discriminate]].
  split; [intros _; eexists; reflexivity|reflexivity].
Qed.

(** X10: the change of password touches one thing at most.  Either the
    world is left as it was, or the fields of the request pass, [uidb64]
    decodes to a key that exactly one row has, the token verifies against
    that row, the two passwords agree, and the world differs in the password
    hash of that row alone. *)
Theorem NewPasswordView_patch_frame (now : Z) (salt : string)
    (request_data : NewPasswordAttrs) (w : World) :
  snd (NewPasswordView_patch now salt request_data w) = w
  \/ exists attrs raw user_id pk user,
       NewPasswordSerializer_to_internal_value request_data = inr attrs
       /\ urlsafe_base64_decode (np_uidb64 attrs) = Some raw
       /\ force_str raw = Some user_id
       /\ pk_to_python user_id = Some pk
       /\ filter_id pk (users w) = [user]
       /\ check_token user (np_token attrs) now = true
       /\ np_password attrs = np_password_confirm attrs
       /\ snd (NewPasswordView_patch now salt request_data w)
          = with_users w
              (map (with_new_password pk (make_password salt (np_password attrs)))
                   (users w)).
Proof.
  destruct (NewPasswordSerializer_to_internal_value request_data) as [errors|attrs]
    eqn:Hf.
  { left. now rewrite (NewPasswordView_patch_refused now salt request_data errors w Hf). }
  rewrite (NewPasswordView_patch_world now salt request_data attrs w Hf).
  rewrite NewPasswordSerializer_validate_cases. cbv zeta.
  destruct (urlsafe_base64_decode (np_uidb64 attrs)) as [raw|] eqn:Edec;
    [|now left].
  destruct (force_str raw) as [user_id|] eqn:Estr; [|now left].
  destruct (pk_to_python user_id) as [pk|] eqn:Epk; [|now left].
  destruct (filter_id pk (users w)) as [|user [|user2 rows]] eqn:Erows; try now left.
  destruct (check_token user (np_token attrs) now) eqn:Etok; [|now left].
  destruct (String.eqb_spec (np_password attrs) (np_password_confirm attrs))
    as [Epw|_]; [|now left].
  right. exists attrs, raw, user_id, pk, user.
  do 7 (split; [first [assumption|reflexivity]|]).
  cbn [snd]. f_equal. unfold set_password.
  exact (filter_id_only pk user
           (fun x => set_encoded_password x (make_password salt (np_password attrs)))
           (users w) Erows (fun x => eq_refl)).
Qed.

(** X11: a new password opens the account.  After a change of password
    that went through for a verified user, a login whose fields return the
    e-mail of the user and the new password succeeds whenever the hasher
    accepts the password it encoded, and a login whose fields return that
    e-mail and a password the hasher refuses against the new hash fails as
    bad credentials. *)
Theorem NewPasswordView_patch_then_login (now now2 : Z) (salt : string)
    (request_data attrs : NewPasswordAttrs) (raw : list Byte.byte) (user_id : string)
    (pk : Z) (user : User) (w : World) :
  NewPasswordSerializer_to_internal_value request_data = inr attrs ->
  urlsafe_base64_decode (np_uidb64 attrs) = Some raw ->
  force_str raw = Some user_id ->
  pk_to_python user_id = Some pk ->
  filter_id pk (users w) = [user] ->
  filter_email (email user) (users w) = [user] ->
  check_token user (np_token attrs) now = true ->
  np_password attrs = np_password_confirm attrs ->
  check_password (np_password attrs) (make_password salt (np_password attrs)) = true ->
  is_verified user = true ->
  (forall login,
     LoginSerializer_to_internal_value login
     = inr (mkLoginAttrs (email user) (np_password attrs)) ->
     succeeds (fst (LoginView_post now2 login
                      (snd (NewPasswordView_patch now salt request_data w)))) = true)
  /\ (forall login other,
        LoginSerializer_to_internal_value login = inr (mkLoginAttrs (email user) other) ->
        check_password other (make_password salt (np_password attrs)) = false ->
        fst (LoginView_post now2 login
               (snd (NewPasswordView_patch now salt request_data w)))
        = Raise invalid_credentials).
Proof.
  intros Hf Hdec Hstr Hpk Hrow Hmail Htok Hpw Hhash Hv.
  rewrite (NewPasswordView_patch_stores_password now salt request_data attrs raw user_id
             pk user w Hf Hdec Hstr Hpk Hrow Htok Hpw).
  cbn [snd].
  set (enc := make_password salt (np_password attrs)) in *.
  assert (Hid : id user = pk).
  { apply (filter_id_In pk user (users w)). rewrite Hrow. now left. }
  assert (Hrows' : filter_email (email user)
                     (users (with_users w (update_row (set_encoded_password user enc)
                                                      (users w))))
                   = [set_encoded_password user enc]).
  { cbn [users with_users].
    rewrite (filter_id_only pk user (fun x => set_encoded_password x enc) (users w) Hrow
               (fun x => eq_refl)).
    rewrite (filter_email_map
               (fun x => if Z.eqb (id x) pk then set_encoded_password x enc else x)).
    - rewrite Hmail. cbn [map]. now rewrite Hid, Z.eqb_refl.
    - intros x. now destruct (Z.eqb (id x) pk). }
  split.
  - intros login Hlogin. rewrite LoginView_post_cases, Hlogin.
    cbn [la_email la_password]. rewrite Hrows'.
    cbn [password set_encoded_password is_verified].
    rewrite Hhash, Hv. reflexivity.
  - intros login other Hlogin Hother. rewrite LoginView_post_cases, Hlogin.
    cbn [la_email la_password]. rewrite Hrows'.
    cbn [password set_encoded_password]. now rewrite Hother.
Qed.

End ResetFlow.

Lemma PasswordResetView_post_uniform_witness :
  PasswordResetSerializer_to_internal_value (F := Reference.framework) "no@x.com"
  = inr "no@x.com" /\
  (List.length (filter_email "no@x.com" (users Sample.world_jo)) <= 1)%nat /\
  fst (PasswordResetView_post (F := Reference.framework) Sample.t0 Reference.uidb64_of
         (Ret "example.com") true "no@x.com" Sample.world_jo)
  = fst (PasswordResetView_post (F := Reference.framework) Sample.t0 Reference.uidb64_of
           (Ret "example.com") true "jo@x.com" Sample.world_jo).
Proof.
  assert (F1 : PasswordResetSerializer_to_internal_value (F := Reference.framework)
                 "no@x.com" = inr "no@x.com") by (vm_compute; reflexivity).
  assert (F2 : PasswordResetSerializer_to_internal_value (F := Reference.framework)
                 "jo@x.com" = inr "jo@x.com") by (vm_compute; reflexivity).
  assert (H1 : (List.length (filter_email "no@x.com" (users Sample.world_jo)) <= 1)%nat)
    by (simpl; lia).
  assert (H2 : (List.length (filter_email "jo@x.com" (users Sample.world_jo)) <= 1)%nat)
    by (simpl; lia).
  split; [exact F1|]. split; [exact H1|].
  destruct (proj1 (PasswordResetView_post_uniform (F := Reference.framework) Sample.t0
                     Reference.uidb64_of "example.com" "no@x.com" "no@x.com"
                     Sample.world_jo F1 H1))
    as [m1 [E1 _]].
  destruct (proj1 (PasswordResetView_post_uniform (F := Reference.framework) Sample.t0
                     Reference.uidb64_of "example.com" "jo@x.com" "jo@x.com"
                     Sample.world_jo F2 H2))
    as [m2 [E2 _]].
  rewrite E1, E2. reflexivity.
Defined.

Lemma reset_link_confirms_witness :
  Reference.uidb64_of 1 = "MQ" /\
  PasswordResetSerializer_to_internal_value (F := Reference.framework) (email Sample.jo)
  = inr (email Sample.jo) /\
  filter_email (email Sample.jo) (users Sample.world_jo) = [Sample.jo] /\
  filter_id (id Sample.jo) (users Sample.world_jo) = [Sample.jo] /\
  succeeds
    (fst (ConfirmPasswordResetView_get (F := Reference.framework)
            (Sample.t0 + Sample.minutes 30) (Reference.uidb64_of (id Sample.jo))
            (make_token (F := Reference.framework) Sample.jo Sample.t0)
            (snd (PasswordResetView_post (F := Reference.framework) Sample.t0
                    Reference.uidb64_of (Ret "example.com") true (email Sample.jo)
                    Sample.world_jo)))) = true.
Proof.
  assert (Hf : PasswordResetSerializer_to_internal_value (F := Reference.framework)
                 (email Sample.jo) = inr (email Sample.jo)) by (vm_compute; reflexivity).
  split; [reflexivity|]. split; [exact Hf|]. split; [reflexivity|]. split; [reflexivity|].
  assert (Htime : _num_seconds (Sample.t0 + Sample.minutes 30) - _num_seconds Sample.t0
                  <= PASSWORD_RESET_TIMEOUT (Framework := Reference.framework))
    by (vm_compute; discriminate).
  rewrite (proj1 (proj2
    (reset_link_confirms (F := Reference.framework) Sample.t0
       (Sample.t0 + Sample.minutes 30) Reference.uidb64_of "example.com" Sample.jo
       [Byte.x31] "1" Sample.world_jo
       Hf eq_refl eq_refl eq_refl eq_refl eq_refl eq_refl eq_refl eq_refl)) Htime).
  reflexivity.
Defined.

Lemma NewPasswordView_patch_then_login_witness :
  NewPasswordSerializer_to_internal_value (F := Reference.framework)
    (mkNewPasswordAttrs "newpass1" "newpass1" "Mg" Sample.token_joanna)
  = inr (mkNewPasswordAttrs "newpass1" "newpass1" "Mg" Sample.token_joanna) /\
  filter_id 2 (users Sample.world_joanna) = [Sample.joanna] /\
  check_token (F := Reference.framework) Sample.joanna Sample.token_joanna
              (Sample.t0 + Sample.minutes 1) = true /\
  succeeds
    (fst (LoginView_post (F := Reference.framework) (Sample.t0 + Sample.minutes 2)
            (mkLoginAttrs "joanna@x.com" "newpass1")
            (snd (NewPasswordView_patch (F := Reference.framework)
                    (Sample.t0 + Sample.minutes 1) "s2"
                    (mkNewPasswordAttrs "newpass1" "newpass1" "Mg" Sample.token_joanna)
                    Sample.world_joanna)))) = true /\
  fst (LoginView_post (F := Reference.framework) (Sample.t0 + Sample.minutes 2)
         (mkLoginAttrs "joanna@x.com" "pw1234")
         (snd (NewPasswordView_patch (F := Reference.framework)
                 (Sample.t0 + Sample.minutes 1) "s2"
                 (mkNewPasswordAttrs "newpass1" "newpass1" "Mg" Sample.token_joanna)
                 Sample.world_joanna)))
  = Raise invalid_credentials.
Proof.
  assert (Hf : NewPasswordSerializer_to_internal_value (F := Reference.framework)
                 (mkNewPasswordAttrs "newpass1" "newpass1" "Mg" Sample.token_joanna)
               = inr (mkNewPasswordAttrs "newpass1" "newpass1" "Mg" Sample.token_joanna))
    by (vm_compute; reflexivity).
  assert (Htok : check_token (F := Reference.framework) Sample.joanna Sample.token_joanna
                             (Sample.t0 + Sample.minutes 1) = true)
    by (vm_compute; reflexivity).
  assert (L1 : LoginSerializer_to_internal_value (F := Reference.framework)
                 (mkLoginAttrs "joanna@x.com" "newpass1")
               = inr (mkLoginAttrs "joanna@x.com" "newpass1")) by (vm_compute; reflexivity).
  assert (L2 : LoginSerializer_to_internal_value (F := Reference.framework)
                 (mkLoginAttrs "joanna@x.com" "pw1234")
               = inr (mkLoginAttrs "joanna@x.com" "pw1234")) by (vm_compute; reflexivity).
  split; [exact Hf|]. split; [reflexivity|]. split; [exact Htok|].
  pose proof (NewPasswordView_patch_then_login (F := Reference.framework)
                (Sample.t0 + Sample.minutes 1) (Sample.t0 + Sample.minutes 2) "s2"
                (mkNewPasswordAttrs "newpass1" "newpass1" "Mg" Sample.token_joanna)
                (mkNewPasswordAttrs "newpass1" "newpass1" "Mg" Sample.token_joanna)
                [Byte.x32] "2" 2 Sample.joanna Sample.world_joanna
                Hf eq_refl eq_refl eq_refl eq_refl eq_refl Htok eq_refl eq_refl eq_refl)
    as [Hnew Hold].
  split; [exact (Hnew _ L1)|]. exact (Hold _ "pw1234" L2 eq_refl).
Defined.

(** ** Logout: when it succeeds and what it keeps *)

Section LogoutFlow.

Context {F : Framework}.

(** X12: a logout succeeds exactly when the field accepts the token and the
    token it returns decodes, has not expired and has a [jti] that is not on
    the blacklist.  Every other logout raises a validation error, the
    errors of the field for a blank token and "Token expired" otherwise, and
    changes nothing.  A logout never touches the table, the mail or the log,
    never takes a [jti] off the blacklist, and never lists a [jti] twice. *)
Theorem LogoutView_post_succeeds_iff (now : Z) (token : string) (w : World) :
  (succeeds (fst (LogoutView_post now token w)) = true
   <-> exists self_token jti exp,
         LogoutSerializer_to_internal_value token = inr self_token
         /\ refresh_token_payload self_token = Some (jti, exp)
         /\ now < exp /\ ~ In jti (blacklist w))
  /\ (succeeds (fst (LogoutView_post now token w)) = false ->
      LogoutView_post now token w = (Raise bad_token_error, w)
      \/ exists errors,
           LogoutSerializer_to_internal_value token = inl errors
           /\ LogoutView_post now token w = (Raise (ValidationErrorDict errors), w))
  /\ users (snd (LogoutView_post now token w)) = users w
  /\ outbox (snd (LogoutView_post now token w)) = outbox w
  /\ log (snd (LogoutView_post now token w)) = log w
  /\ (forall j, In j (blacklist w) -> In j (blacklist (snd (LogoutView_post now token w))))
  /\ (NoDup (blacklist w) -> NoDup (blacklist (snd (LogoutView_post now token w)))).
Proof.
  rewrite LogoutView_post_cases.
  destruct (LogoutSerializer_to_internal_value token) as [errors|self_token].
  { split; [split; [discriminate|]|].
    - intros [t [j [e [Ht _]]]]. discriminate.
    - split; [intros _; right; exists errors; now split|now repeat split]. }
  destruct (refresh_token_payload self_token) as [[jti exp]|] eqn:Epay.
  - destruct (exp <=? now) eqn:Eexp; cbn [orb].
    + apply Z.leb_le in Eexp.
      split; [split; [discriminate|]|split; [intros _; now left|now repeat split]].
      intros [t [j [e [Ht [Hp [Hlt _]]]]]]. injection Ht as <-.
      rewrite Epay in Hp. injection Hp as <- <-. lia.
    + apply Z.leb_gt in Eexp.
      destruct (existsb (String.eqb jti) (blacklist w)) eqn:Ebl.
      * apply existsb_eqb_In in Ebl.
        split; [split; [discriminate|]|split; [intros _; now left|now repeat split]].
        intros [t [j [e [Ht [Hp [_ Hnot]]]]]]. injection Ht as <-.
        rewrite Epay in Hp. injection Hp as <- <-. contradiction.
      * assert (Hnot : ~ In jti (blacklist w)).
        { intros Hin. apply existsb_eqb_In in Hin. congruence. }
        cbn [fst snd users outbox log blacklist with_blacklist].
        split; [split; [intros _; exists self_token, jti, exp; now repeat split
                       |reflexivity]|].
        split; [discriminate|]. split; [reflexivity|]. split; [reflexivity|].
        split; [reflexivity|]. split.
        -- intros j Hj. apply in_or_app. now left.
        -- intros Hnd. apply NoDup_app; [exact Hnd|constructor; [intros []|constructor]|].
           intros j Hj [<-|[]]. exact (Hnot Hj).
  - split; [split; [discriminate|]|split; [intros _; now left|now repeat split]].
    intros [t [j [e [Ht [Hp _]]]]]. injection Ht as <-. congruence.
Qed.

End LogoutFlow.

(** ** Account update and deletion *)

Lemma UpdateAccountInfoSerializer_update_id (x : User) (d : UpdateData) :
  id (UpdateAccountInfoSerializer_update x d) = id x.
Proof.
  unfold UpdateAccountInfoSerializer_update.
  now destruct (ud_full_name d), (ud_email d).
Qed.

Lemma save_account_info (caller : User) (d : UpdateData) (w : World) :
  NoDup (map id (users w)) -> In caller (users w) ->
  snd (save (UpdateAccountInfoSerializer_update caller d) w)
  = with_users w (map (with_account_info (id caller) d) (users w)).
Proof.
  intros Hnd Hin. rewrite save_existing.
  - cbn [snd]. f_equal.
    exact (update_row_pointwise caller (fun x => UpdateAccountInfoSerializer_update x d)
             (users w) Hnd Hin (UpdateAccountInfoSerializer_update_id caller d)).
  - exists caller. split; [exact Hin|].
    symmetry. apply UpdateAccountInfoSerializer_update_id.
Qed.

(** Giving one row a fresh e-mail keeps the e-mails distinct. *)
Lemma NoDup_email_replaced (pk : Z) (v : string) (us : list User) :
  NoDup (map id us) -> NoDup (map email us) -> ~ In v (map email us) ->
  NoDup (map (fun x => if Z.eqb (id x) pk then v else email x) us).
Proof.
  induction us as [|x us IH]; cbn [map]; intros Hid Hem Hv; [constructor|].
  inversion Hid as [|? ? Hidx Hid']; subst.
  inversion Hem as [|? ? Hemx Hem']; subst.
  constructor.
  - intros Hin. apply in_map_iff in Hin. destruct Hin as [y [Hy Hyin]].
    destruct (Z.eqb_spec (id x) pk) as [Ex|Ex];
      destruct (Z.eqb_spec (id y) pk) as [Ey|Ey].
    + apply Hidx. rewrite Ex, <- Ey. now apply in_map.
    + apply Hv. right. rewrite <- Hy. now apply in_map.
    + apply Hv. left. now symmetry.
    + apply Hemx. rewrite <- Hy. now apply in_map.
  - apply IH; [exact Hid'|exact Hem'|]. intros Hin. apply Hv. now right.
Qed.

Section UpdateFlow.

Context {F : Framework}.

(** An e-mail that the fields of an update return is one that no row has. *)
Lemma update_fields_result_email (us : list User) (caller : User) (d attrs : UpdateData) :
  update_fields_result us caller d = inr attrs ->
  forall value, ud_email attrs = Some value -> filter_email value us = [].
Proof.
  unfold update_fields_result. intros H value Hv.
  destruct (ud_email d) as [data|]; cbn [option_map] in H.
  - destruct (update_email_result us caller data) as [errors|v] eqn:Ee.
    + destruct (ud_full_name d) as [n|]; cbn [option_map] in H;
        [destruct (CharField_run_validation model_full_name_field _ n)|];
        cbn in H; discriminate.
    + assert (Hattrs : ud_email attrs = Some v).
      { destruct (ud_full_name d) as [n|]; cbn [option_map] in H;
          [destruct (CharField_run_validation model_full_name_field _ n)|];
          cbn in H; try discriminate; now injection H as <-. }
      rewrite Hattrs in Hv. injection Hv as <-.
      unfold update_email_result in Ee.
      destruct (CharField_run_validation model_email_field _ data) as [e|v'];
        [discriminate|].
      destruct (filter_email v' us) eqn:Ef; cbn [queryset_exists] in Ee;
        [|discriminate].
      now injection Ee as <-.
  - assert (Hattrs : ud_email attrs = None).
    { destruct (ud_full_name d) as [n|]; cbn [option_map] in H;
        [destruct (CharField_run_validation model_full_name_field _ n)|];
        cbn in H; try discriminate; now injection H as <-. }
    congruence.
Qed.

(** X13: an update whose fields pass the validation of the serializer is
    answered with status 200 and the new values of [full_name] and [email];
    the values that the fields return are set on the row of the caller and
    every other row is left as it was.  An e-mail set this way is one that
    no row had. *)
Theorem UpdateInformationView_patch_updates (caller : User) (d attrs : UpdateData)
    (w : World) :
  NoDup (map id (users w)) -> In caller (users w) ->
  UpdateAccountInfoSerializer_to_internal_value caller d w = (Ret (inr attrs), w) ->
  UpdateInformationView_patch caller d w
  = (Ret (mkResponse
            (JObj [("full_name",
                    JStr (match ud_full_name attrs with
                          | Some n => n
                          | None => full_name caller
                          end));
                   ("email",
                    JStr (match ud_email attrs with
                          | Some e => e
                          | None => email caller
                          end))])
            HTTP_200_OK),
     with_users w (map (with_account_info (id caller) attrs) (users w)))
  /\ with_account_info (id caller) attrs caller
     = mkUser (id caller)
              (match ud_email attrs with Some e => e | None => email caller end)
              (match ud_full_name attrs with Some n => n | None => full_name caller end)
              (password caller) (is_verified caller) (otp caller) (otp_created_at caller)
  /\ (forall x, In x (users w) -> x <> caller -> with_account_info (id caller) attrs x = x)
  /\ (forall value, ud_email attrs = Some value -> filter_email value (users w) = []).
Proof.
  intros Hnd Hin Hfields.
  rewrite UpdateAccountInfoSerializer_to_internal_value_pure in Hfields.
  injection Hfields as Hfields.
  split; [|split; [|split]].
  - rewrite UpdateInformationView_patch_cases, Hfields.
    rewrite (save_account_info caller attrs w Hnd Hin).
    destruct attrs as [[n|] [e|]]; cbn; first [reflexivity|now destruct caller].
  - unfold with_account_info. rewrite Z.eqb_refl.
    destruct attrs as [[n|] [e|]]; cbn; now destruct caller.
  - intros x Hx Hne. unfold with_account_info.
    destruct (Z.eqb_spec (id x) (id caller)) as [E|_]; [|reflexivity].
    destruct Hne. exact (NoDup_map_id_eq caller x (users w) Hnd Hin Hx E).
  - exact (update_fields_result_email (users w) caller d attrs Hfields).
Qed.

(** X14: no update makes two rows share an e-mail.  Starting from a table
    with distinct keys and distinct e-mails, whatever the request of the
    caller, the table after the update has the same keys in the same order
    and its e-mails are still distinct. *)
Theorem UpdateInformationView_patch_keeps_emails_distinct (caller : User) (d : UpdateData)
    (w : World) :
  NoDup (map id (users w)) -> NoDup (map email (users w)) -> In caller (users w) ->
  NoDup (map email (users (snd (UpdateInformationView_patch caller d w))))
  /\ map id (users (snd (UpdateInformationView_patch caller d w))) = map id (users w).
Proof.
  intros Hnd Hem Hin.
  rewrite UpdateInformationView_patch_cases.
  destruct (update_fields_result (users w) caller d) as [errors|attrs] eqn:Hfields.
  { now split. }
  assert (Hids : map id (map (with_account_info (id caller) attrs) (users w))
                 = map id (users w)).
  { apply map_id_preserved. intros x. unfold with_account_info.
    destruct (Z.eqb (id x) (id caller)); [|reflexivity].
    apply UpdateAccountInfoSerializer_update_id. }
  rewrite (save_account_info caller attrs w Hnd Hin).
  cbn [snd users with_users]. split; [|exact Hids].
  destruct (ud_email attrs) as [value|] eqn:Ed.
  - assert (Hv : ~ In value (map email (users w))).
    { intros Hv. apply in_map_iff in Hv. destruct Hv as [y [Hy Hyin]].
      pose proof (update_fields_result_email (users w) caller d attrs Hfields value Ed)
        as Hnone.
      assert (Hy' : In y (filter_email value (users w))) by now apply filter_email_In.
      rewrite Hnone in Hy'. exact Hy'. }
    rewrite map_map.
    rewrite (map_ext _ (fun x => if Z.eqb (id x) (id caller) then value else email x)).
    + exact (NoDup_email_replaced (id caller) value (users w) Hnd Hem Hv).
    + intros x. unfold with_account_info, UpdateAccountInfoSerializer_update.
      rewrite Ed. destruct (Z.eqb (id x) (id caller)); [|reflexivity].
      now destruct (ud_full_name attrs).
  - rewrite map_map. rewrite (map_ext _ email); [exact Hem|].
    intros x. unfold with_account_info, UpdateAccountInfoSerializer_update.
    rewrite Ed. destruct (Z.eqb (id x) (id caller)); [|reflexivity].
    now destruct (ud_full_name attrs).
Qed.

End UpdateFlow.

Lemma delete_users (caller : User) (w : World) :
  DeleteAccountView_delete caller w
  = (Ret account_deleted_response,
     with_users w (filter (fun r => negb (Z.eqb (id r) (id caller))) (users w))).
Proof. reflexivity. Qed.

Section DeleteFlow.

Context {F : Framework}.

(** X15: deleting an account removes the rows with the key of the caller
    and nothing else, and is answered with status 204.  When the caller was
    the only row with its e-mail, the e-mail is unknown afterwards: a login
    whose fields pass and return that e-mail fails as bad credentials
    whatever the password, and a verification with it is answered "User does
    not exist.".  The blacklist is left as it was: no refresh token is
    revoked by the deletion. *)
Theorem DeleteAccountView_delete_removes (caller : User) (w : World) :
  filter_email (email caller) (users w) = [caller] ->
  fst (DeleteAccountView_delete caller w) = Ret account_deleted_response
  /\ filter_id (id caller) (users (snd (DeleteAccountView_delete caller w))) = []
  /\ (forall x, In x (users (snd (DeleteAccountView_delete caller w)))
                <-> In x (users w) /\ id x <> id caller)
  /\ blacklist (snd (DeleteAccountView_delete caller w)) = blacklist w
  /\ (forall now login attrs,
        LoginSerializer_to_internal_value login = inr attrs ->
        la_email attrs = email caller ->
        LoginView_post now login (snd (DeleteAccountView_delete caller w))
        = (Raise invalid_credentials, snd (DeleteAccountView_delete caller w)))
  /\ (forall now code,
        code <> "" -> email caller <> "" ->
        fst (VerifyEmail_post now (mkVerifyRequest (Some code) (Some (email caller)))
                              (snd (DeleteAccountView_delete caller w)))
        = Ret user_missing_response).
Proof.
  intros Hrows. rewrite delete_users. cbn [fst snd users blacklist with_users].
  set (rest := filter (fun r => negb (Z.eqb (id r) (id caller))) (users w)).
  assert (Hrest : forall x, In x rest <-> In x (users w) /\ id x <> id caller).
  { intros x. unfold rest. rewrite filter_In, negb_true_iff, Z.eqb_neq. reflexivity. }
  assert (Hnoid : filter_id (id caller) rest = []).
  { destruct (filter_id (id caller) rest) as [|y l] eqn:E; [reflexivity|].
    assert (Hy : In y (filter_id (id caller) rest)) by (rewrite E; now left).
    apply filter_id_In in Hy. destruct Hy as [Hy Hid].
    apply Hrest in Hy. now destruct Hy. }
  assert (Hnomail : filter_email (email caller) rest = []).
  { destruct (filter_email (email caller) rest) as [|y l] eqn:E; [reflexivity|].
    assert (Hy : In y (filter_email (email caller) rest)) by (rewrite E; now left).
    apply filter_email_In in Hy. destruct Hy as [Hy Hm].
    apply Hrest in Hy. destruct Hy as [Hy Hid].
    assert (Hin : In y (filter_email (email caller) (users w)))
      by now apply filter_email_In.
    rewrite Hrows in Hin. destruct Hin as [<-|[]]. now destruct Hid. }
  split; [reflexivity|]. split; [exact Hnoid|]. split; [exact Hrest|].
  split; [reflexivity|]. split.
  - intros now login attrs Hlogin Hmail. rewrite LoginView_post_cases, Hlogin, Hmail.
    cbn [users with_users]. fold rest. now rewrite Hnomail.
  - intros now code Hc He.
    rewrite (VerifyEmail_post_not_found now code (email caller)
               (with_users w rest) Hc He Hnomail).
    reflexivity.
Qed.

End DeleteFlow.

Lemma UpdateInformationView_patch_updates_witness :
  NoDup (map id (users Sample.world_jo)) /\ In Sample.jo (users Sample.world_jo) /\
  UpdateAccountInfoSerializer_to_internal_value (F := Reference.framework) Sample.jo
    (mkUpdateData (Some " Joanna ") (Some "joanna@x.com")) Sample.world_jo
  = (Ret (inr (mkUpdateData (Some "Joanna") (Some "joanna@x.com"))), Sample.world_jo) /\
  UpdateInformationView_patch (F := Reference.framework) Sample.jo
    (mkUpdateData (Some " Joanna ") (Some "joanna@x.com")) Sample.world_jo
  = (Ret (mkResponse (JObj [("full_name", JStr "Joanna"); ("email", JStr "joanna@x.com")])
                     HTTP_200_OK),
     mkWorld [mkUser 1 "joanna@x.com" "Joanna" "s1$pw1234" false (Some "AB12CD")
                     (Some Sample.t0)] [] [] []).
Proof.
  assert (Hnd : NoDup (map id (users Sample.world_jo))).
  { simpl. constructor; [intros []|constructor]. }
  assert (Hin : In Sample.jo (users Sample.world_jo)) by (now left).
  assert (Hf : UpdateAccountInfoSerializer_to_internal_value (F := Reference.framework)
                 Sample.jo (mkUpdateData (Some " Joanna ") (Some "joanna@x.com"))
                 Sample.world_jo
               = (Ret (inr (mkUpdateData (Some "Joanna") (Some "joanna@x.com"))),
                  Sample.world_jo)) by (vm_compute; reflexivity).
  split; [exact Hnd|]. split; [exact Hin|]. split; [exact Hf|].
  exact (proj1 (UpdateInformationView_patch_updates (F := Reference.framework) Sample.jo
                  (mkUpdateData (Some " Joanna ") (Some "joanna@x.com"))
                  (mkUpdateData (Some "Joanna") (Some "joanna@x.com")) Sample.world_jo
                  Hnd Hin Hf)).
Defined.

Lemma UpdateInformationView_patch_keeps_emails_distinct_witness :
  NoDup (map id (users Sample.world_jo)) /\ NoDup (map email (users Sample.world_jo)) /\
  In Sample.jo (users Sample.world_jo) /\
  NoDup (map email
           (users (snd (UpdateInformationView_patch (F := Reference.framework) Sample.jo
                          (mkUpdateData None (Some "joanna@x.com")) Sample.world_jo)))).
Proof.
  assert (Hnd : NoDup (map id (users Sample.world_jo))).
  { simpl. constructor; [intros []|constructor]. }
  assert (Hem : NoDup (map email (users Sample.world_jo))).
  { simpl. constructor; [intros []|constructor]. }
  assert (Hin : In Sample.jo (users Sample.world_jo)) by (now left).
  split; [exact Hnd|]. split; [exact Hem|]. split; [exact Hin|].
  exact (proj1 (UpdateInformationView_patch_keeps_emails_distinct
                  (F := Reference.framework) Sample.jo
                  (mkUpdateData None (Some "joanna@x.com")) Sample.world_jo Hnd Hem Hin)).
Defined.

Lemma DeleteAccountView_delete_removes_witness :
  filter_email (email Sample.joanna) (users Sample.world_joanna) = [Sample.joanna] /\
  snd (DeleteAccountView_delete Sample.joanna Sample.world_joanna) = Sample.empty_world /\
  LoginView_post (F := Reference.framework) Sample.t0
    (mkLoginAttrs "joanna@x.com" "pw1234")
    (snd (DeleteAccountView_delete Sample.joanna Sample.world_joanna))
  = (Raise invalid_credentials,
     snd (DeleteAccountView_delete Sample.joanna Sample.world_joanna)).
Proof.
  assert (L : LoginSerializer_to_internal_value (F := Reference.framework)
                (mkLoginAttrs "joanna@x.com" "pw1234")
              = inr (mkLoginAttrs "joanna@x.com" "pw1234")) by (vm_compute; reflexivity).
  split; [reflexivity|]. split; [reflexivity|].
  exact (proj1 (proj2 (proj2 (proj2 (proj2
    (DeleteAccountView_delete_removes (F := Reference.framework) Sample.joanna
       Sample.world_joanna eq_refl)))))
    Sample.t0 (mkLoginAttrs "joanna@x.com" "pw1234")
    (mkLoginAttrs "joanna@x.com" "pw1234") L eq_refl).
Defined.

(** ** Password reset: the confirmation in full and tokens used twice *)

Lemma filter_id_map (g : User -> User) (pk : Z) (us : list User) :
  (forall x, id (g x) = id x) ->
  filter_id pk (map g us) = map g (filter_id pk us).
Proof.
  intros Hg. unfold filter_id.
  induction us as [|x us IH]; simpl; [reflexivity|].
  rewrite Hg. destruct (Z.eqb (id x) pk); simpl; now rewrite IH.
Qed.

Section ResetTokens.

Context {F : Framework}.

(** X16: the confirmation of a reset link answers with status 200 exactly
    when [uidb64] decodes to text that converts to a key, exactly one row
    has that key and the token verifies against that row at the time of the
    request.  Whatever it answers, and also when an exception leaves it, the
    world is left as it was. *)
Theorem ConfirmPasswordResetView_get_succeeds_iff (now : Z) (uidb64 token : string)
    (w : World) :
  (succeeds (fst (ConfirmPasswordResetView_get now uidb64 token w)) = true
   <-> exists raw user_id pk user,
         urlsafe_base64_decode uidb64 = Some raw
         /\ force_str raw = Some user_id
         /\ pk_to_python user_id = Some pk
         /\ filter_id pk (users w) = [user]
         /\ check_token user token now = true)
  /\ snd (ConfirmPasswordResetView_get now uidb64 token w) = w.
Proof.
  rewrite ConfirmPasswordResetView_get_cases.
  destruct (urlsafe_base64_decode uidb64) as [raw|] eqn:Edec.
  2:{ split; [split; [discriminate|]|reflexivity].
      intros [r [s [p [u [H _]]]]]. discriminate. }
  destruct (force_str raw) as [user_id|] eqn:Estr.
  2:{ split; [split; [discriminate|]|reflexivity].
      intros [r [s [p [u [H1 [H2 _]]]]]]. injection H1 as <-. congruence. }
  destruct (pk_to_python user_id) as [pk|] eqn:Epk.
  2:{ split; [split; [discriminate|]|reflexivity].
      intros [r [s [p [u [H1 [H2 [H3 _]]]]]]]. injection H1 as <-.
      rewrite Estr in H2. injection H2 as <-. congruence. }
  assert (Hinv : forall r s p u,
            Some raw = Some r -> force_str r = Some s -> pk_to_python s = Some p ->
            filter_id p (users w) = [u] -> filter_id pk (users w) = [u]).
  { intros r s p u H1 H2 H3 H4. injection H1 as <-.
    rewrite Estr in H2. injection H2 as <-.
    rewrite Epk in H3. now injection H3 as <-. }
  destruct (filter_id pk (users w)) as [|user [|user2 rows]] eqn:Erows.
  - split; [split; [discriminate|]|reflexivity].
    intros [r [s [p [u [H1 [H2 [H3 [H4 _]]]]]]]].
    specialize (Hinv r s p u H1 H2 H3 H4). discriminate.
  - destruct (check_token user token now) eqn:Etok.
    + split; [split|reflexivity].
      * intros _. exists raw, user_id, pk, user.
        split; [reflexivity|]. split; [exact Estr|]. split; [exact Epk|].
        split; [exact Erows|exact Etok].
      * reflexivity.
    + split; [split; [discriminate|]|reflexivity].
      intros [r [s [p [u [H1 [H2 [H3 [H4 H5]]]]]]]].
      specialize (Hinv r s p u H1 H2 H3 H4). injection Hinv as <-. congruence.
  - split; [split; [discriminate|]|reflexivity].
    intros [r [s [p [u [H1 [H2 [H3 [H4 _]]]]]]]].
    specialize (Hinv r s p u H1 H2 H3 H4). discriminate.
Qed.

(** X17: a reset token changes the password once.  When the change of
    password went through and the digest of the token generator, taken at
    the timestamp of the token, differs between the user with the new hash
    and the user with the old one, every later request whose fields return
    the same [uidb64] and token, whatever its passwords and its time, leaves
    the world as the first change left it. *)
Theorem reset_token_single_use (now now2 : Z) (salt salt2 : string)
    (first_request attrs later_request : NewPasswordAttrs) (raw : list Byte.byte)
    (user_id : string) (pk : Z) (user : User) (w : World) :
  NewPasswordSerializer_to_internal_value first_request = inr attrs ->
  urlsafe_base64_decode (np_uidb64 attrs) = Some raw ->
  force_str raw = Some user_id ->
  pk_to_python user_id = Some pk ->
  filter_id pk (users w) = [user] ->
  check_token user (np_token attrs) now = true ->
  np_password attrs = np_password_confirm attrs ->
  (forall ts_b36 mac ts,
      split_on "-" (np_token attrs) = [ts_b36; mac] ->
      base36_to_int ts_b36 = Some ts ->
      salted_hmac (_make_hash_value
                     (set_encoded_password user
                        (make_password salt (np_password attrs))) ts)
      <> salted_hmac (_make_hash_value user ts)) ->
  (forall later,
      NewPasswordSerializer_to_internal_value later_request = inr later ->
      np_uidb64 later = np_uidb64 attrs /\ np_token later = np_token attrs) ->
  snd (NewPasswordView_patch now2 salt2 later_request
         (snd (NewPasswordView_patch now salt first_request w)))
  = snd (NewPasswordView_patch now salt first_request w)
  /\ filter_id pk (users (snd (NewPasswordView_patch now salt first_request w)))
     = [set_encoded_password user (make_password salt (np_password attrs))].
Proof.
  intros Hf Hdec Hstr Hpk Hrow Htok Hpw Hdiff Hsame.
  rewrite (NewPasswordView_patch_stores_password now salt first_request attrs raw
             user_id pk user w Hf Hdec Hstr Hpk Hrow Htok Hpw).
  cbn [snd].
  set (enc := make_password salt (np_password attrs)) in *.
  assert (Hid : id user = pk).
  { apply (filter_id_In pk user (users w)). rewrite Hrow. now left. }
  assert (Hrow' : filter_id pk
                    (users (with_users w (update_row (set_encoded_password user enc)
                                                     (users w))))
                  = [set_encoded_password user enc]).
  { cbn [users with_users].
    rewrite (filter_id_only pk user (fun x => set_encoded_password x enc) (users w) Hrow
               (fun x => eq_refl)).
    rewrite (filter_id_map
               (fun x => if Z.eqb (id x) pk then set_encoded_password x enc else x)).
    - rewrite Hrow. cbn [map]. now rewrite Hid, Z.eqb_refl.
    - intros x. now destruct (Z.eqb (id x) pk). }
  split; [|exact Hrow'].
  destruct (NewPasswordSerializer_to_internal_value later_request) as [errors|later]
    eqn:Hlater.
  { now rewrite (NewPasswordView_patch_refused now2 salt2 later_request errors _ Hlater). }
  destruct (Hsame later eq_refl) as [Huid Htoken].
  assert (Hstale : check_token (set_encoded_password user enc) (np_token later)
                               now2 = false).
  { rewrite Htoken.
    exact (check_token_stale_at user (set_encoded_password user enc)
             (np_token attrs) now now2 Hdiff Htok). }
  rewrite <- Huid in Hdec.
  rewrite (NewPasswordView_patch_bad_token now2 salt2 later_request later raw user_id pk
             (set_encoded_password user enc) _ Hlater Hdec Hstr Hpk Hrow' Hstale).
  reflexivity.
Qed.

End ResetTokens.

Lemma reset_token_single_use_witness :
  NewPasswordSerializer_to_internal_value (F := Reference.framework_with_digest)
    (mkNewPasswordAttrs "newpass1" "newpass1" "MQ" Sample.digest_token_jo)
  = inr (mkNewPasswordAttrs "newpass1" "newpass1" "MQ" Sample.digest_token_jo) /\
  check_token (F := Reference.framework_with_digest) Sample.jo Sample.digest_token_jo
              (Sample.t0 + Sample.minutes 1) = true /\
  snd (NewPasswordView_patch (F := Reference.framework_with_digest)
         (Sample.t0 + Sample.minutes 2) "s3"
         (mkNewPasswordAttrs "evil5678" "evil5678" "MQ" Sample.digest_token_jo)
         (snd (NewPasswordView_patch (F := Reference.framework_with_digest)
                 (Sample.t0 + Sample.minutes 1) "s2"
                 (mkNewPasswordAttrs "newpass1" "newpass1" "MQ" Sample.digest_token_jo)
                 Sample.world_jo)))
  = snd (NewPasswordView_patch (F := Reference.framework_with_digest)
           (Sample.t0 + Sample.minutes 1) "s2"
           (mkNewPasswordAttrs "newpass1" "newpass1" "MQ" Sample.digest_token_jo)
           Sample.world_jo).
Proof.
  assert (Hf : NewPasswordSerializer_to_internal_value (F := Reference.framework_with_digest)
                 (mkNewPasswordAttrs "newpass1" "newpass1" "MQ" Sample.digest_token_jo)
               = inr (mkNewPasswordAttrs "newpass1" "newpass1" "MQ" Sample.digest_token_jo))
    by (vm_compute; reflexivity).
  assert (Htok : check_token (F := Reference.framework_with_digest) Sample.jo
                             Sample.digest_token_jo (Sample.t0 + Sample.minutes 1)
                 = true)
    by (vm_compute; reflexivity).
  split; [exact Hf|]. split; [exact Htok|].
  refine (proj1
    (reset_token_single_use (F := Reference.framework_with_digest)
       (Sample.t0 + Sample.minutes 1) (Sample.t0 + Sample.minutes 2) "s2" "s3"
       (mkNewPasswordAttrs "newpass1" "newpass1" "MQ" Sample.digest_token_jo)
       (mkNewPasswordAttrs "newpass1" "newpass1" "MQ" Sample.digest_token_jo)
       (mkNewPasswordAttrs "evil5678" "evil5678" "MQ" Sample.digest_token_jo)
       [Byte.x31] "1" 1 Sample.jo Sample.world_jo
       Hf eq_refl eq_refl eq_refl eq_refl Htok eq_refl _ _)).
  - intros ts_b36 mac ts Hsplit Hts.
    vm_compute in Hsplit. injection Hsplit as <- <-.
    vm_compute in Hts. injection Hts as <-.
    vm_compute. discriminate.
  - intros later Hlater. vm_compute in Hlater. injection Hlater as <-.
    split; reflexivity.
Defined.
